(** * DRAMSys experiment scripts: metric extraction and reason tally

    A shallow embedding of the three scripts under [experiments/]:

    - [extract_tdb_metrics.py]  (module [ExtractTdbMetrics]): the glob-based
      extractor with its filename parser and generic aggregate reader;
    - [extractor.py]            (module [Extractor]): the manifest-based
      extractor with its named-metric reader;
    - [summarize_invalid_reasons.py] (module [SummarizeInvalidReasons]): the
      reason tallier.

    The Python and sqlite3 facilities the scripts call are modelled in
    [Py] and [Sqlite3]: text is ASCII, a [float] is an exact rational, an
    exception is a value that a step returns instead of a result.
    Definitions come first, the theorems follow. *)

From Stdlib Require Import String Ascii List ZArith QArith Bool Arith Lia.
From Stdlib Require Import Permutation Sorted DecimalString DecimalNat.
Import ListNotations.

Close Scope Q_scope.
Local Open Scope string_scope.
Local Open Scope list_scope.
Local Open Scope nat_scope.

(* ================================================================== *)
(** * Python values, exceptions and string methods *)
(* ================================================================== *)

Module Py.

(** The exceptions the scripts can meet.  The first three are classes of the
    [sqlite3.Error] family ([OperationalError] and [ProgrammingError] are
    subclasses of [DatabaseError], itself a subclass of [sqlite3.Error]). *)
Inductive exception : Type :=
| OperationalError
| ProgrammingError
| DatabaseError
| IndexError
| ValueError
| SystemExit (message : string).

(** [isinstance(e, sqlite3.Error)] *)
Definition is_sqlite3_Error (e : exception) : bool :=
  match e with
  | OperationalError | ProgrammingError | DatabaseError => true
  | _ => false
  end.

(** [isinstance(e, sqlite3.OperationalError)] *)
Definition is_OperationalError (e : exception) : bool :=
  match e with
  | OperationalError => true
  | _ => false
  end.

(** A computation that returns or raises. *)
Inductive result (A : Type) : Type :=
| Ok (a : A)
| Raise (e : exception).
Arguments Ok {A} a.
Arguments Raise {A} e.

Definition bind {A B : Type} (m : result A) (k : A -> result B) : result B :=
  match m with
  | Ok a => k a
  | Raise e => Raise e
  end.

(** [try: body  except <classes>: handler], where [caught] tells the classes
    of the [except] clause. *)
Definition try_except {A : Type} (body : result A) (caught : exception -> bool)
    (handler : result A) : result A :=
  match body with
  | Ok a => Ok a
  | Raise e => if caught e then handler else Raise e
  end.

(** A Python value as the scripts see it coming out of a database or going
    into a CSV writer: [None], an [int], a [float] (an exact rational here:
    rounding is not modelled) or a [str]. *)
Inductive value : Type :=
| VNone
| VInt (z : Z)
| VFloat (q : Q)
| VStr (s : string).

Definition is_None (v : value) : bool :=
  match v with
  | VNone => true
  | _ => false
  end.

(** [t[i]] on a tuple: [IndexError] out of range. *)
Definition tuple_get {A : Type} (t : list A) (i : nat) : result A :=
  match nth_error t i with
  | Some a => Ok a
  | None => Raise IndexError
  end.

(** ** Characters *)

Definition code (c : ascii) : nat := nat_of_ascii c.

(** [c.isspace()] on the ASCII range: TAB, LF, VT, FF, CR, FS, GS, RS, US
    and the space. *)
Definition is_space (c : ascii) : bool :=
  let n := code c in
  ((9 <=? n) && (n <=? 13)) || ((28 <=? n) && (n <=? 32)).

Definition is_digit (c : ascii) : bool :=
  let n := code c in (48 <=? n) && (n <=? 57).

Definition digit_value (c : ascii) : Z := Z.of_nat (code c - 48).

(** ASCII upper-casing, as SQLite folds the case of names and of [LIKE]. *)
Definition ascii_upper (c : ascii) : ascii :=
  let n := code c in
  if (97 <=? n) && (n <=? 122) then ascii_of_nat (n - 32) else c.

Fixpoint upper (s : string) : string :=
  match s with
  | EmptyString => EmptyString
  | String c s' => String (ascii_upper c) (upper s')
  end.

(** ** String methods *)

(** [s.startswith(p)] *)
Definition startswith (s p : string) : bool := String.prefix p s.

Definition string_rev (s : string) : string :=
  string_of_list_ascii (rev (list_ascii_of_string s)).

(** [s.endswith(p)] *)
Definition endswith (s p : string) : bool :=
  String.prefix (string_rev p) (string_rev s).

(** [s[start:]] *)
Definition slice_from (s : string) (start : nat) : string :=
  substring start (String.length s - start) s.

(** [s[start:-drop]] for [drop > 0]: the slice stops [drop] characters before
    the end and is empty when that is not after [start]. *)
Definition slice_between (s : string) (start drop : nat) : string :=
  substring start (String.length s - drop - start) s.

(** [s.split(sep)] for a one-character separator: never an empty list. *)
Fixpoint split (sep : ascii) (s : string) : list string :=
  match s with
  | EmptyString => [EmptyString]
  | String c s' =>
      if Ascii.eqb c sep then EmptyString :: split sep s'
      else match split sep s' with
           | hd :: tl => String c hd :: tl
           | [] => [String c EmptyString]
           end
  end.

Fixpoint lstrip (s : string) : string :=
  match s with
  | EmptyString => EmptyString
  | String c s' => if is_space c then lstrip s' else s
  end.

Definition rstrip (s : string) : string := string_rev (lstrip (string_rev s)).

(** [s.strip()] *)
Definition strip (s : string) : string := rstrip (lstrip s).

(** The digits of an [int()] literal after the first one: single underscores
    are allowed between digits. *)
Fixpoint int_digits (acc : Z) (after_underscore : bool) (s : string) : option Z :=
  match s with
  | EmptyString => if after_underscore then None else Some acc
  | String c s' =>
      if is_digit c then int_digits (10 * acc + digit_value c) false s'
      else if Ascii.eqb c "_" then
        if after_underscore then None else int_digits acc true s'
      else None
  end.

Definition int_literal (s : string) : option Z :=
  match s with
  | EmptyString => None
  | String c s' => if is_digit c then int_digits (digit_value c) false s' else None
  end.

(** [int(s)] in base ten on ASCII text: surrounding whitespace is dropped,
    one sign may lead, and the rest must be digits; [ValueError] otherwise.
    (The interpreter's limit on the number of digits, 4300 by default, is
    beyond any file name and is not modelled.) *)
Definition int (s : string) : result Z :=
  let t := strip s in
  let parsed :=
    match t with
    | String "+" r => int_literal r
    | String "-" r => option_map Z.opp (int_literal r)
    | _ => int_literal t
    end in
  match parsed with
  | Some z => Ok z
  | None => Raise ValueError
  end.

(** [str(n)] for a natural number. *)
Definition str_of_nat (n : nat) : string := NilEmpty.string_of_uint (Nat.to_uint n).

(** [os.path.basename(path)]: what follows the last slash. *)
Definition basename (path : string) : string :=
  last (split "/" path) EmptyString.

(** [n * c] for a one-character string [c]. *)
Fixpoint repeat_char (c : ascii) (n : nat) : string :=
  match n with
  | O => EmptyString
  | S n' => String c (repeat_char c n')
  end.

(** ** Dictionaries with text keys

    A [dict] keeps its keys in insertion order; setting a key that is there
    replaces the value in place. *)
Definition dict (V : Type) : Type := list (string * V).

Fixpoint dict_get {V : Type} (d : dict V) (k : string) : option V :=
  match d with
  | [] => None
  | (k', v) :: rest => if String.eqb k' k then Some v else dict_get rest k
  end.

Fixpoint dict_set {V : Type} (d : dict V) (k : string) (v : V) : dict V :=
  match d with
  | [] => [(k, v)]
  | (k', v') :: rest =>
      if String.eqb k' k then (k', v) :: rest else (k', v') :: dict_set rest k v
  end.

(** [d.update(e)], and [dict(pairs)] as [dict_update [] pairs]. *)
Definition dict_update {V : Type} (d : dict V) (e : list (string * V)) : dict V :=
  fold_left (fun acc kv => dict_set acc (fst kv) (snd kv)) e d.

(** ** pathlib *)

(** [s.rfind(c)], counting from [i] at the head of [s]. *)
Fixpoint rfind_from (c : ascii) (s : string) (i : nat) : option nat :=
  match s with
  | EmptyString => None
  | String c' s' =>
      match rfind_from c s' (S i) with
      | Some j => Some j
      | None => if Ascii.eqb c' c then Some i else None
      end
  end.

(** [PurePosixPath(p).name]: the last component, empty and [.] components
    dropped. *)
Definition path_name (p : string) : string :=
  last (filter (fun part => negb (String.eqb part "" || String.eqb part ".")) (split "/" p))
       EmptyString.

(** [PurePosixPath(p).stem]: the name without its last suffix; a dot that
    leads or ends the name starts no suffix. *)
Definition stem (p : string) : string :=
  let name := path_name p in
  match rfind_from "." name 0 with
  | Some i =>
      if (0 <? i) && (i <? String.length name - 1) then substring 0 i name else name
  | None => name
  end.

(** ** Scripts with effects

    A script step reads and changes a state of type [S] (files written,
    lines printed, statements sent) and returns or raises; what was done
    before an exception stays done. *)
Definition io (S A : Type) : Type := S -> result A * S.

Definition io_ret {S A : Type} (a : A) : io S A := fun st => (Ok a, st).

Definition io_raise {S A : Type} (e : exception) : io S A := fun st => (Raise e, st).

Definition io_bind {S A B : Type} (m : io S A) (k : A -> io S B) : io S B :=
  fun st =>
    match m st with
    | (Ok a, st') => k a st'
    | (Raise e, st') => (Raise e, st')
    end.

Definition io_lift {S A : Type} (r : result A) : io S A := fun st => (r, st).

Definition io_modify {S : Type} (f : S -> S) : io S unit := fun st => (Ok tt, f st).

(** [try: body  except <classes>: handler] for steps with effects. *)
Definition io_try_except {S A : Type} (body : io S A) (caught : exception -> bool)
    (handler : io S A) : io S A :=
  fun st =>
    match body st with
    | (Ok a, st') => (Ok a, st')
    | (Raise e, st') => if caught e then handler st' else (Raise e, st')
    end.

(** [for x in xs: body(x)] *)
Fixpoint for_each {S A : Type} (xs : list A) (body : A -> io S unit) : io S unit :=
  match xs with
  | [] => io_ret tt
  | x :: rest => io_bind (body x) (fun _ => for_each rest body)
  end.

End Py.

(* ================================================================== *)
(** * The sqlite3 interface and a model of the database engine *)
(* ================================================================== *)

Module Sqlite3.
Import Py.

(** ** What the scripts send

    The SQL the scripts build is kept as syntax; [sql_text] gives the text.
    Table and column names are identifiers, which the scripts write into the
    statement without quoting. *)

Inductive aggregate : Type :=
| Avg (column : string)        (* AVG(column) *)
| Max (column : string)        (* MAX(column) *)
| CountStar.                   (* COUNT( * ) *)

Inductive predicate : Type :=
| LikePrefix (column prefix : string)          (* column LIKE 'prefix%' *)
| InTexts (column : string) (texts : list string). (* column IN ('a','b') *)

Inductive statement : Type :=
| Select (what : list aggregate) (from : string) (where_ : option predicate)
| SelectStar (from : string)
| PragmaTableInfo (table_name : string).

Definition aggregate_text (a : aggregate) : string :=
  match a with
  | Avg c => ("AVG(" ++ c ++ ")")%string
  | Max c => ("MAX(" ++ c ++ ")")%string
  | CountStar => "COUNT(*)"
  end.

Definition predicate_text (p : predicate) : string :=
  match p with
  | LikePrefix c pre => (c ++ " LIKE '" ++ pre ++ "%'")%string
  | InTexts c texts =>
      (c ++ " IN (" ++ String.concat "," (map (fun t => "'" ++ t ++ "'") texts) ++ ")")%string
  end.

Definition sql_text (s : statement) : string :=
  match s with
  | Select what from where_ =>
      ("SELECT " ++ String.concat ", " (map aggregate_text what) ++ " FROM " ++ from
       ++ match where_ with
          | Some p => " WHERE " ++ predicate_text p
          | None => ""
          end)%string
  | SelectStar from => ("SELECT * FROM " ++ from)%string
  | PragmaTableInfo t => ("PRAGMA table_info(" ++ t ++ ")")%string
  end.

(** ** What the scripts get back *)

Definition row : Type := list value.

(** A row of [PRAGMA table_info]: the tuple
    [(cid, name, type, notnull, dflt_value, pk)]; [row[1]] is [name]. *)
Record column_info : Type := {
  cid : Z;
  name : string;
  type_ : string;
  notnull : Z;
  dflt_value : value;
  pk : Z
}.

(** A cursor, by what it answers: the rows of a statement ([fetchone] takes
    the first, [fetchall] all of them) or the exception [execute] raises. *)
Record cursor : Type := {
  execute : statement -> result (list row);
  table_info : string -> result (list column_info)
}.

(** [cur.fetchone()] after [cur.execute]: [None] when there is no row. *)
Definition fetchone (rows : list row) : option row := hd_error rows.

(** ** The engine

    A database file holds tables; a table has its declared columns, in
    order, and rows of cells.  A cell is NULL ([VNone]), an integer, a real
    or a text.  A file that is not a database answers every statement with
    [DatabaseError]. *)

Record table : Type := {
  t_name : string;
  t_columns : list string;
  t_rows : list row
}.

Inductive connection : Type :=
| Database (tables : list table)
| NotADatabase.

(** Names are matched without regard to ASCII case. *)
Definition same_name (a b : string) : bool := String.eqb (upper a) (upper b).

Fixpoint find_table (tables : list table) (t : string) : option table :=
  match tables with
  | [] => None
  | tb :: rest => if same_name (t_name tb) t then Some tb else find_table rest t
  end.

Fixpoint column_index (columns : list string) (c : string) : option nat :=
  match columns with
  | [] => None
  | c' :: rest =>
      if same_name c' c then Some O else option_map S (column_index rest c)
  end.

Definition cell (i : nat) (r : row) : value := nth i r VNone.

Definition column_cells (i : nat) (rows : list row) : list value := map (cell i) rows.

(** ** Numeric columns *)


(** The number in a cell that holds one. *)
Definition number (v : value) : Q :=
  match v with
  | VInt z => inject_Z z
  | VFloat q => q
  | _ => (0#1)%Q
  end.


Section Engine.

(** The number SQLite reads in a text cell where a number is wanted (its
    longest numeric prefix, zero when there is none).  No metric column of a
    run database holds text, so the reading is left open. *)
Variable text_as_real : string -> Q.

Definition numeric (v : value) : option Q :=
  match v with
  | VNone => None
  | VInt z => Some (inject_Z z)
  | VFloat q => Some q
  | VStr s => Some (text_as_real s)
  end.

Fixpoint non_null_numbers (cells : list value) : list Q :=
  match cells with
  | [] => []
  | v :: rest =>
      match numeric v with
      | Some q => q :: non_null_numbers rest
      | None => non_null_numbers rest
      end
  end.

Definition Qsum (qs : list Q) : Q := fold_right Qplus (0#1)%Q qs.

(** [AVG]: NULL cells are left out; NULL when nothing is left, else a real. *)
Definition sql_avg (cells : list value) : value :=
  match non_null_numbers cells with
  | [] => VNone
  | qs => VFloat (Qred (Qsum qs / inject_Z (Z.of_nat (List.length qs))))
  end.

(** SQLite's order on cells that are not NULL: numbers by value, every number
    below every text, texts byte by byte. *)
Definition sql_compare (a b : value) : comparison :=
  match a, b with
  | VStr s, VStr t => String.compare s t
  | VStr _, _ => Gt
  | _, VStr _ => Lt
  | _, _ =>
      match numeric a, numeric b with
      | Some x, Some y => Qcompare x y
      | _, _ => Eq
      end
  end.

(** One step of [MAX]: a NULL cell is skipped, and the best cell so far is
    replaced only by a strictly greater one. *)
Definition max_step (best v : value) : value :=
  match v, best with
  | VNone, _ => best
  | _, VNone => v
  | _, _ => match sql_compare best v with Lt => v | _ => best end
  end.

Definition sql_max (cells : list value) : value := fold_left max_step cells VNone.

(** [cell LIKE 'prefix%']: on text, a prefix test without regard to ASCII
    case.  A number is compared through its text, which starts with a digit,
    a sign or a point: it matches no prefix that starts with a letter, which
    is what the scripts ask for; NULL matches nothing. *)
Definition like_prefix (pre : string) (v : value) : bool :=
  match v with
  | VStr s => String.prefix (upper pre) (upper s)
  | VNone => false
  | _ => String.eqb pre ""
  end.

(** [cell IN ('a','b')] on a list of texts: exact match with a text cell. *)
Definition in_texts (texts : list string) (v : value) : bool :=
  match v with
  | VStr s => existsb (String.eqb s) texts
  | _ => false
  end.

Definition run_aggregate (tb : table) (rows : list row) (a : aggregate) : result value :=
  match a with
  | CountStar => Ok (VInt (Z.of_nat (List.length rows)))
  | Avg c =>
      match column_index (t_columns tb) c with
      | Some i => Ok (sql_avg (column_cells i rows))
      | None => Raise OperationalError      (* no such column *)
      end
  | Max c =>
      match column_index (t_columns tb) c with
      | Some i => Ok (sql_max (column_cells i rows))
      | None => Raise OperationalError
      end
  end.

Fixpoint run_aggregates (tb : table) (rows : list row) (what : list aggregate)
    : result row :=
  match what with
  | [] => Ok []
  | a :: rest =>
      bind (run_aggregate tb rows a) (fun v =>
      bind (run_aggregates tb rows rest) (fun vs => Ok (v :: vs)))
  end.

Definition run_where (tb : table) (where_ : option predicate) : result (list row) :=
  match where_ with
  | None => Ok (t_rows tb)
  | Some (LikePrefix c pre) =>
      match column_index (t_columns tb) c with
      | Some i => Ok (filter (fun r => like_prefix pre (cell i r)) (t_rows tb))
      | None => Raise OperationalError
      end
  | Some (InTexts c texts) =>
      match column_index (t_columns tb) c with
      | Some i => Ok (filter (fun r => in_texts texts (cell i r)) (t_rows tb))
      | None => Raise OperationalError
      end
  end.

(** The rows of [PRAGMA table_info]: one per declared column, in order.
    The model keeps the names only: declared types, constraints and defaults
    are left empty. *)
Fixpoint column_infos (i : Z) (columns : list string) : list column_info :=
  match columns with
  | [] => []
  | c :: rest =>
      {| cid := i; name := c; type_ := ""; notnull := 0; dflt_value := VNone; pk := 0 |}
        :: column_infos (i + 1) rest
  end.

Definition row_of_info (c : column_info) : row :=
  [VInt (cid c); VStr (name c); VStr (type_ c); VInt (notnull c); dflt_value c; VInt (pk c)].

(** [execute] on a connection.  A missing table or column is an
    [OperationalError]; an aggregate query answers exactly one row. *)
Definition run (conn : connection) (s : statement) : result (list row) :=
  match conn with
  | NotADatabase => Raise DatabaseError
  | Database tables =>
      match s with
      | Select what from where_ =>
          match what, find_table tables from with
          | [], _ => Raise OperationalError    (* syntax error *)
          | _, None => Raise OperationalError  (* no such table *)
          | _, Some tb =>
              bind (run_where tb where_) (fun rows =>
              bind (run_aggregates tb rows what) (fun r => Ok [r]))
          end
      | SelectStar from =>
          match find_table tables from with
          | None => Raise OperationalError
          | Some tb => Ok (t_rows tb)
          end
      | PragmaTableInfo t =>
          match find_table tables t with
          | None => Ok []
          | Some tb => Ok (map row_of_info (column_infos 0 (t_columns tb)))
          end
      end
  end.

(** [PRAGMA table_info(t)] by its fields: no row, and no error, when the
    table does not exist. *)
Definition run_table_info (conn : connection) (t : string) : result (list column_info) :=
  match conn with
  | NotADatabase => Raise DatabaseError
  | Database tables =>
      match find_table tables t with
      | None => Ok []
      | Some tb => Ok (column_infos 0 (t_columns tb))
      end
  end.

(** The cursor of a connection. *)
Definition cursor_of (conn : connection) : cursor :=
  {| execute := run conn; table_info := run_table_info conn |}.

End Engine.

End Sqlite3.

Module PyNotations.
Notation "x <- m ;; k" := (Py.bind m (fun x => k))
  (at level 61, m at next level, right associativity).
Notation "' pat <- m ;; k" := (Py.bind m (fun x => match x with pat => k end))
  (at level 61, pat pattern, m at next level, right associativity).
Notation "x <~ m ;; k" := (Py.io_bind m (fun x => k))
  (at level 61, m at next level, right associativity).
Notation "' pat <~ m ;; k" := (Py.io_bind m (fun x => match x with pat => k end))
  (at level 61, pat pattern, m at next level, right associativity).
Notation "m ;;; k" := (Py.io_bind m (fun _ => k))
  (at level 61, right associativity).
End PyNotations.


(* ================================================================== *)
(** * extract_tdb_metrics.py: the glob-based extractor *)
(* ================================================================== *)

Module ExtractTdbMetrics.
Import Py Sqlite3 PyNotations.

(** Where the [.tdb] files are. *)
Definition TDB_GLOB : string := "/home/arifh/DRAMSys/DRAMSys_tier_*_*.tdb".

(** [get_numeric_agg(conn, table_name)]: the average and the maximum of the
    last declared column, [(None, None)] when the table is missing or empty.
    The two statements are
    [PRAGMA table_info('{table_name}');] and
    [SELECT AVG({value_col}), MAX({value_col}) FROM {table_name};]. *)
Definition get_numeric_agg (conn : cursor) (table_name : string) : result (value * value) :=
  try_except
    (infos <- table_info conn table_name ;;
     let cols := map name infos in
     match cols with
     | [] => Ok (VNone, VNone)
     | _ :: _ =>
         let value_col := last cols "" in
         rows <- execute conn (Select [Avg value_col; Max value_col] table_name None) ;;
         match fetchone rows with
         | None => Ok (VNone, VNone)
         | Some row =>
             a <- tuple_get row 0 ;;
             b <- tuple_get row 1 ;;
             Ok (a, b)
         end
     end)
    is_sqlite3_Error
    (Ok (VNone, VNone)).

(** [get_transaction_count(conn)]: the number of rows of [Transactions], or
    [None] when the table is missing. *)
Definition get_transaction_count (conn : cursor) : result value :=
  try_except
    (rows <- execute conn (Select [CountStar] "Transactions" None) ;;
     match fetchone rows with
     | Some row => tuple_get row 0
     | None => Ok VNone
     end)
    is_sqlite3_Error
    (Ok VNone).

(** [try: int(text)  except ValueError: None] *)
Definition int_or_None (text : string) : option Z :=
  match int text with
  | Ok z => Some z
  | Raise _ => None
  end.

(** The loop over [parts] that looks for the [idXXXX] part: the first part
    that starts with [id] decides, and ends the search. *)
Fixpoint find_config_id (parts : list string) : option Z :=
  match parts with
  | [] => None
  | p :: rest =>
      if startswith p "id" then int_or_None (slice_from p 2)
      else find_config_id rest
  end.

(** [parse_filename(path)]: [(tier, config_id, sim_id, channel)], each of
    them possibly [None]. *)
Definition parse_filename (path : string)
    : option string * option Z * option string * option Z :=
  let base := basename path in
  if negb (startswith base "DRAMSys_") || negb (endswith base ".tdb") then
    (None, None, None, None)
  else
    let core := slice_between base (String.length "DRAMSys_") (String.length ".tdb") in
    let parts := split "_" core in
    if List.length parts <? 3 then (None, None, None, None)
    else
      let tier := (nth 0 parts "" ++ "_" ++ nth 1 parts "")%string in
      let config_id := find_config_id parts in
      let sim_id := core in
      let last_part := last parts "" in
      let channel :=
        if startswith last_part "ch" then int_or_None (slice_from last_part 2)
        else None in
      (Some tier, config_id, Some sim_id, channel).

(** A file the glob matched: its path, its size in bytes, and what
    [sqlite3.connect(path)] gives. *)
Record tdb_file : Type := {
  path : string;
  size : nat;
  connect : result cursor
}.

(** The lines the script prints. *)
Inductive notice : Type :=
| NoFilesFound                               (* No .tdb files found under ... *)
| SkippingEmptyDB (path : string)            (* Skipping empty DB: {path} *)
| SkippingUnrecognized (path : string)       (* Skipping unrecognized filename: {path} *)
| ErrorOpening (path : string) (e : exception) (* ERROR opening {path}: {e} *)
| WroteMetrics.                              (* Wrote metrics to {OUTPUT_CSV} *)

(** What a run leaves: the rows of [metrics_summary_v2.csv] ([None] as long
    as the file has not been opened for writing) and the lines printed. *)
Record output : Type := {
  csv : option (list (list value));
  stdout : list notice
}.

Definition print (n : notice) : io output unit :=
  io_modify (fun o => {| csv := csv o; stdout := stdout o ++ [n] |}).

(** [open(OUTPUT_CSV, "w")]: the file is created or emptied. *)
Definition open_w : io output unit :=
  io_modify (fun o => {| csv := Some []; stdout := stdout o |}).

Definition writerow (r : list value) : io output unit :=
  io_modify (fun o =>
    {| csv := Some (match csv o with Some rows => rows | None => [] end ++ [r]);
       stdout := stdout o |}).

Definition header : list value :=
  map VStr ["tier"; "config_id"; "sim_id"; "tdb_path"; "channel"; "avg_bw"; "max_bw";
            "avg_power"; "max_power"; "avg_buf_depth"; "max_buf_depth";
            "total_transactions"].

Definition int_value (o : option Z) : value :=
  match o with
  | Some z => VInt z
  | None => VNone
  end.

Definition str_value (o : option string) : value :=
  match o with
  | Some s => VStr s
  | None => VNone
  end.

(** The body of the loop over the matched files. *)
Definition process (f : tdb_file) : io output unit :=
  if size f =? 0 then print (SkippingEmptyDB (path f))
  else
    let '(tier, config_id, sim_id, channel) := parse_filename (path f) in
    match tier with
    | None => print (SkippingUnrecognized (path f))
    | Some _ =>
        match connect f with
        | Raise e =>
            if is_sqlite3_Error e then print (ErrorOpening (path f) e)
            else io_raise e
        | Ok conn =>
            '(avg_bw, max_bw) <~ io_lift (get_numeric_agg conn "Bandwidth") ;;
            '(avg_power, max_power) <~ io_lift (get_numeric_agg conn "Power") ;;
            '(avg_buf, max_buf) <~ io_lift (get_numeric_agg conn "BufferDepth") ;;
            total_txn <~ io_lift (get_transaction_count conn) ;;
            writerow [str_value tier; int_value config_id; str_value sim_id;
                      VStr (path f); int_value channel; avg_bw; max_bw;
                      avg_power; max_power; avg_buf; max_buf; total_txn]
        end
    end.

(** [main()], given the sorted list of the files the glob matched. *)
Definition main (tdb_files : list tdb_file) : io output unit :=
  match tdb_files with
  | [] => print NoFilesFound
  | _ :: _ =>
      open_w ;;;
      writerow header ;;;
      for_each tdb_files process ;;;
      print WroteMetrics
  end.

(** ** The filename convention

    [DRAMSys_<tier-tag>_<tier-value>_id<N>_<...>_ch<N>.tdb]: the tokens are
    what the underscores delimit between the prefix and the extension. *)

(** A non-negative integer in decimal digits. *)
Definition is_natural (s : string) : bool :=
  negb (String.eqb s "") && forallb is_digit (list_ascii_of_string s).

(** The value of a string of decimal digits. *)
Fixpoint decimal_from (acc : Z) (s : string) : Z :=
  match s with
  | EmptyString => acc
  | String c s' => decimal_from (10 * acc + digit_value c) s'
  end.

Definition decimal (s : string) : Z := decimal_from 0 s.


Definition is_ch_token (p : string) : bool :=
  startswith p "ch" && is_natural (slice_from p 2).

(** What stands between the prefix and the extension, and its tokens. *)
Definition core_of (path : string) : string :=
  slice_between (basename path) (String.length "DRAMSys_") (String.length ".tdb").

Definition tokens (path : string) : list string := split "_" (core_of path).



(** ** Names built from tokens *)

(** [sep.join(parts)] for a one-character separator. *)
Fixpoint join (sep : ascii) (parts : list string) : string :=
  match parts with
  | [] => EmptyString
  | [p] => p
  | p :: rest => (p ++ String sep (join sep rest))%string
  end.

(** The character [c] does not occur in [s]. *)
Fixpoint lacks (c : ascii) (s : string) : bool :=
  match s with
  | EmptyString => true
  | String c' s' => negb (Ascii.eqb c' c) && lacks c s'
  end.

(** A token holds neither an underscore nor a slash. *)
Definition is_token (s : string) : bool := lacks "_" s && lacks "/" s.

(** The path of the file named after [parts], in the directory [dir] (empty,
    or ending with a slash). *)
Definition path_of_tokens (dir : string) (parts : list string) : string :=
  (dir ++ "DRAMSys_" ++ join "_" parts ++ ".tdb")%string.

Definition is_directory (dir : string) : bool :=
  String.eqb dir "" || endswith dir "/".

(** ** Notions for the properties of [main] *)

(** The state a run starts from: the CSV as it was left by an earlier run,
    nothing printed. *)
Definition initial (old : option (list (list value))) : output :=
  {| csv := old; stdout := [] |}.

(** A matched file as it lies on disk: [sqlite3.connect] gives the cursor of
    the connection, or raises [OperationalError] when the file cannot be
    opened ([opening] is [None]). *)
Definition on_disk (text_as_real : string -> Q)
    (file : string * nat * option connection) : tdb_file :=
  let '(p, sz, opening) := file in
  {| path := p;
     size := sz;
     connect := match opening with
                | Some conn => Ok (cursor_of text_as_real conn)
                | None => Raise OperationalError
                end |}.

(** Why a matched file is skipped, if it is: the line printed for it. *)
Definition skip_notice (f : tdb_file) : option notice :=
  if size f =? 0 then Some (SkippingEmptyDB (path f))
  else
    match fst (fst (fst (parse_filename (path f)))) with
    | None => Some (SkippingUnrecognized (path f))
    | Some _ =>
        match connect f with
        | Raise e => Some (ErrorOpening (path f) e)
        | Ok _ => None
        end
    end.







(** ** The pattern and the rows *)

(** [glob] matching of a path against a pattern whose only wildcard is the
    star: a star stands for any run of characters other than the slash, a
    file name holding none. *)
Fixpoint matches (pattern path : string) : bool :=
  match pattern with
  | EmptyString =>
      match path with
      | EmptyString => true
      | String _ _ => false
      end
  | String c pattern' =>
      if Ascii.eqb c "*" then
        (fix star (s : string) : bool :=
           matches pattern' s ||
           match s with
           | String d s' => negb (Ascii.eqb d "/") && star s'
           | EmptyString => false
           end) path
      else
        match path with
        | String d path' => Ascii.eqb c d && matches pattern' path'
        | EmptyString => false
        end
  end.


End ExtractTdbMetrics.

(* ================================================================== *)
(** * extractor.py: the manifest-based extractor *)
(* ================================================================== *)

Module Extractor.
Import Py Sqlite3 PyNotations.

(** The lines the script prints. *)
Inductive notice : Type :=
| WritingMetrics                                   (* Writing metrics to {out_path} *)
| ProcessingManifest (manifest : string)           (* Processing manifest {manifest} *)
| Extracting (sim_id : string) (ch : nat) (db_name : string) (*   {sim_id} ch{ch}: {db_path} *)
| Done.                                            (* Done. *)

(** What a run changes: the rows of [metrics_summary.csv] ([None] when the
    file does not exist), the lines printed, and the statements executed on
    the databases, in order. *)
Record world : Type := {
  summary : option (list (list value));
  stdout : list notice;
  executed : list statement
}.

Definition print (n : notice) : io world unit :=
  io_modify (fun w =>
    {| summary := summary w; stdout := stdout w ++ [n]; executed := executed w |}).

(** [cur.execute(query)], then the rows it answers. *)
Definition cur_execute (cur : cursor) (query : statement) : io world (list row) :=
  fun w =>
    (execute cur query,
     {| summary := summary w; stdout := stdout w; executed := executed w ++ [query] |}).

(** [cur.execute("PRAGMA table_info(t)")] *)
Definition cur_table_info (cur : cursor) (t : string) : io world (list column_info) :=
  fun w =>
    (table_info cur t,
     {| summary := summary w; stdout := stdout w;
        executed := executed w ++ [PragmaTableInfo t] |}).

(** [row[0] if row and row[0] is not None else None], for [row] the first
    row answered, if any. *)
Definition single_value (rows : list row) : value :=
  match fetchone rows with
  | Some (v :: _) => if is_None v then VNone else v
  | _ => VNone
  end.

(** [safe_single_value(cur, query)] *)
Definition safe_single_value (cur : cursor) (query : statement) : io world value :=
  rows <~ cur_execute cur query ;;
  io_ret (single_value rows).

(** The keys of [GeneralInfo] that are copied when present. *)
Definition general_info_keys : list string :=
  ["clk"; "UnitOfTime"; "MCconfig"; "Memspec"; "Traces"].

(** [for key in [...]: if key in general_info: m[f"GI_{key}"] = general_info[key]] *)
Definition add_general_info (general_info m : dict value) : dict value :=
  fold_left
    (fun m key =>
       match dict_get general_info key with
       | Some v => dict_set m ("GI_" ++ key)%string v
       | None => m
       end)
    general_info_keys m.

(** [extract_metrics_from_db(db_path)], given what [sqlite3.connect(db_path)]
    gives. *)
Definition extract_metrics_from_db (connect : result cursor) : io world (dict value) :=
  cur <~ io_lift connect ;;
  avg_bw <~ safe_single_value cur (Select [Avg "AverageBandwidth"] "Bandwidth" None) ;;
  max_bw <~ safe_single_value cur (Select [Max "AverageBandwidth"] "Bandwidth" None) ;;
  sim_time <~ safe_single_value cur (Select [Max "Time"] "Bandwidth" None) ;;
  avg_power <~ safe_single_value cur (Select [Avg "AveragePower"] "Power" None) ;;
  max_power <~ safe_single_value cur (Select [Max "AveragePower"] "Power" None) ;;
  avg_buf_depth <~
    safe_single_value cur (Select [Avg "AverageBufferDepth"] "BufferDepth" None) ;;
  max_buf_depth <~
    safe_single_value cur (Select [Max "AverageBufferDepth"] "BufferDepth" None) ;;
  total_tx <~ safe_single_value cur (Select [CountStar] "Transactions" None) ;;
  '(reads, writes) <~
    io_try_except
      (reads <~ safe_single_value cur
         (Select [CountStar] "Transactions" (Some (LikePrefix "Command" "READ"))) ;;
       writes <~ safe_single_value cur
         (Select [CountStar] "Transactions" (Some (LikePrefix "Command" "WRITE"))) ;;
       io_ret (reads, writes))
      is_OperationalError
      (reads <~ safe_single_value cur
         (Select [CountStar] "Transactions" (Some (InTexts "Command" ["R"; "READ"]))) ;;
       writes <~ safe_single_value cur
         (Select [CountStar] "Transactions" (Some (InTexts "Command" ["W"; "WRITE"]))) ;;
       io_ret (reads, writes)) ;;
  gi_rows <~ cur_execute cur (SelectStar "GeneralInfo") ;;
  general_info <~
    match fetchone gi_rows with
    | None => io_ret []
    | Some gi =>
        infos <~ cur_table_info cur "GeneralInfo" ;;
        io_ret (dict_update [] (combine (map name infos) gi))
    end ;;
  let m : dict value :=
    [("avg_bw_Gbps", avg_bw);
     ("max_bw_Gbps", max_bw);
     ("sim_time_units", sim_time);
     ("avg_power_W", avg_power);
     ("max_power_W", max_power);
     ("avg_buf_depth", avg_buf_depth);
     ("max_buf_depth", max_buf_depth);
     ("total_transactions", total_tx);
     ("read_transactions", reads);
     ("write_transactions", writes)] in
  io_ret (add_general_info general_info m).

(** A row of a manifest CSV, read by its header. *)
Record manifest_row : Type := {
  tier : string;
  config_id : string;
  trace_name : string;
  simconfig : string
}.

(** What a run finds: the manifests under the results directory (sorted,
    each with its rows) and the files of the DRAMSys root by name, each with
    what [sqlite3.connect] gives on it. *)
Record environment : Type := {
  results_root : string;
  manifest_files : list (string * list manifest_row);
  dramsys_root : string -> option (result cursor)
}.

Definition id_fields : list string :=
  ["tier"; "config_id"; "sim_id"; "trace_name"; "simconfig"; "channel"].

Definition metric_fields : list string :=
  ["avg_bw_Gbps"; "max_bw_Gbps"; "sim_time_units"; "avg_power_W"; "max_power_W";
   "avg_buf_depth"; "max_buf_depth"; "total_transactions"; "read_transactions";
   "write_transactions"; "GI_clk"; "GI_UnitOfTime"; "GI_MCconfig"; "GI_Memspec";
   "GI_Traces"].

Definition fieldnames : list string := id_fields ++ metric_fields.

(** [out_path.open("w")]: the file is created or emptied. *)
Definition open_w : io world unit :=
  io_modify (fun w =>
    {| summary := Some []; stdout := stdout w; executed := executed w |}).

Definition write (r : list value) : io world unit :=
  io_modify (fun w =>
    {| summary := Some (match summary w with Some rows => rows | None => [] end ++ [r]);
       stdout := stdout w; executed := executed w |}).

(** [csv.DictWriter.writeheader()] *)
Definition writeheader : io world unit := write (map VStr fieldnames).

(** [csv.DictWriter.writerow(rowdict)]: a key outside the header is a
    [ValueError]; a field the dict lacks is written empty. *)
Definition writerow (rowdict : dict value) : io world unit :=
  if forallb (fun kv => existsb (String.eqb (fst kv)) fieldnames) rowdict then
    write (map (fun key => match dict_get rowdict key with
                           | Some v => v
                           | None => VStr ""
                           end) fieldnames)
  else io_raise ValueError.

(** [f"{tier}_id{config_id}_{trace_stem}"] *)
Definition sim_id_of (row : manifest_row) : string :=
  (tier row ++ "_id" ++ config_id row ++ "_" ++ stem (trace_name row))%string.

(** [f"DRAMSys_{sim_id}_{simconfig_stub}_ch{ch}.tdb"] *)
Definition db_name_of (row : manifest_row) (ch : nat) : string :=
  ("DRAMSys_" ++ sim_id_of row ++ "_" ++ stem (simconfig row)
   ++ "_ch" ++ str_of_nat ch ++ ".tdb")%string.

(** The body of [for ch in range(4)]. *)
Definition process_channel (env : environment) (row : manifest_row) (ch : nat)
    : io world unit :=
  let sim_id := sim_id_of row in
  let db_name := db_name_of row ch in
  match dramsys_root env db_name with
  | None => io_ret tt
  | Some connect =>
      print (Extracting sim_id ch db_name) ;;;
      metrics <~ extract_metrics_from_db connect ;;
      let out_row : dict value :=
        [("tier", VStr (tier row));
         ("config_id", VStr (config_id row));
         ("sim_id", VStr sim_id);
         ("trace_name", VStr (trace_name row));
         ("simconfig", VStr (simconfig row));
         ("channel", VInt (Z.of_nat ch))] in
      writerow (dict_update out_row metrics)
  end.

Definition process_row (env : environment) (row : manifest_row) : io world unit :=
  for_each (seq 0 4) (process_channel env row).

Definition process_manifest (env : environment) (manifest : string * list manifest_row)
    : io world unit :=
  print (ProcessingManifest (fst manifest)) ;;;
  for_each (snd manifest) (process_row env).

(** [main()] *)
Definition main (env : environment) : io world unit :=
  match manifest_files env with
  | [] =>
      io_raise (SystemExit ("No *_runs_manifest.csv found under " ++ results_root env)%string)
  | _ :: _ =>
      print WritingMetrics ;;;
      open_w ;;;
      writeheader ;;;
      for_each (manifest_files env) (process_manifest env) ;;;
      print Done
  end.

(** ** Notions for the properties *)

(** The statements of the read/write split: the prefix match, tried first,
    and the exact match. *)
Definition like_read : statement :=
  Select [CountStar] "Transactions" (Some (LikePrefix "Command" "READ")).
Definition like_write : statement :=
  Select [CountStar] "Transactions" (Some (LikePrefix "Command" "WRITE")).
Definition in_read : statement :=
  Select [CountStar] "Transactions" (Some (InTexts "Command" ["R"; "READ"])).
Definition in_write : statement :=
  Select [CountStar] "Transactions" (Some (InTexts "Command" ["W"; "WRITE"])).

(** What a pair of statements answers for (reads, writes), the second being
    executed only when the first one answered. *)
Definition attempt (cur : cursor) (read write : statement) : result (value * value) :=
  rows_r <- execute cur read ;;
  rows_w <- execute cur write ;;
  Ok (single_value rows_r, single_value rows_w).

(** The statements an attempt executes. *)
Definition attempt_statements (cur : cursor) (read write : statement) : list statement :=
  match execute cur read with
  | Ok _ => [read; write]
  | Raise _ => [read]
  end.

(** A structural failure of a query: [sqlite3.OperationalError]. *)
Definition structural_failure {A : Type} (r : result A) : bool :=
  match r with
  | Raise e => is_OperationalError e
  | Ok _ => false
  end.

(** The read/write split as a two-attempt strategy: the prefix match first,
    the exact match when, and only when, the prefix match fails
    structurally. *)
Definition two_attempts (cur : cursor) : result (value * value) :=
  if structural_failure (attempt cur like_read like_write)
  then attempt cur in_read in_write
  else attempt cur like_read like_write.

Definition two_attempts_statements (cur : cursor) : list statement :=
  attempt_statements cur like_read like_write
  ++ (if structural_failure (attempt cur like_read like_write)
      then attempt_statements cur in_read in_write
      else []).

(** No row, or a first row that is empty or starts with a NULL. *)
Definition yields_nothing (rows : list row) : bool :=
  match rows with
  | [] => true
  | [] :: _ => true
  | (v :: _) :: _ => is_None v
  end.

(** The eight aggregates read before the split, by the key of the record
    they fill. *)
Definition plain_aggregates : list (string * statement) :=
  [("avg_bw_Gbps", Select [Avg "AverageBandwidth"] "Bandwidth" None);
   ("max_bw_Gbps", Select [Max "AverageBandwidth"] "Bandwidth" None);
   ("sim_time_units", Select [Max "Time"] "Bandwidth" None);
   ("avg_power_W", Select [Avg "AveragePower"] "Power" None);
   ("max_power_W", Select [Max "AveragePower"] "Power" None);
   ("avg_buf_depth", Select [Avg "AverageBufferDepth"] "BufferDepth" None);
   ("max_buf_depth", Select [Max "AverageBufferDepth"] "BufferDepth" None);
   ("total_transactions", Select [CountStar] "Transactions" None)].

(** The value [safe_single_value] gives for a statement that answers. *)
Definition value_of (cur : cursor) (q : statement) : value :=
  match execute cur q with
  | Ok rows => single_value rows
  | Raise _ => VNone
  end.

(** The record before the [GeneralInfo] fields are added. *)
Definition metrics_record (cur : cursor) (reads writes : value) : dict value :=
  map (fun kq => (fst kq, value_of cur (snd kq))) plain_aggregates
  ++ [("read_transactions", reads); ("write_transactions", writes)].

(** A world in which nothing has happened yet. *)
Definition fresh : world := {| summary := None; stdout := []; executed := [] |}.

(** A step that changes the world only by the statements it executes:
    it answers [r] and leaves the statements [l], whatever the world. *)
Definition sends {A : Type} (m : io world A) (r : result A) (l : list statement) : Prop :=
  forall w,
    m w = (r, {| summary := summary w; stdout := stdout w; executed := executed w ++ l |}).

(** All keys of a dict are among [names]. *)
Definition keys_within (names : list string) (d : dict value) : bool :=
  forallb (fun kv => existsb (String.eqb (fst kv)) names) d.

(** The rows a summary holds. *)
Definition rows_of (summary : option (list (list value))) : list (list value) :=
  match summary with
  | Some rows => rows
  | None => []
  end.

(** A step that only adds rows at the end of a summary that is open. *)
Definition appending {A : Type} (m : io world A) : Prop :=
  forall w rows,
    summary w = Some rows ->
    exists more, summary (snd (m w)) = Some (rows ++ more).

(** ** The batch *)

(** The channels of a planned run whose database file exists, in the order
    of the loop, each with what [sqlite3.connect] gives on the file. *)
Definition channels_of (env : environment) (row : manifest_row)
    : list (manifest_row * nat * result cursor) :=
  flat_map (fun ch => match dramsys_root env (db_name_of row ch) with
                      | Some connect => [(row, ch, connect)]
                      | None => []
                      end)
           (seq 0 4).

(** The (run, channel) units of a batch, in the order in which [main] meets
    them. *)
Definition units (env : environment) : list (manifest_row * nat * result cursor) :=
  flat_map (fun manifest => flat_map (channels_of env) (snd manifest)) (manifest_files env).

(** What the reader gives on a database. *)
Definition record_of (connect : result cursor) : result (dict value) :=
  fst (extract_metrics_from_db connect fresh).

(** The cells of the output row of a unit whose record is [m]: the six
    identifying fields, then the metric fields in the order of the header,
    a field the record lacks being left empty. *)
Definition cells_of (row : manifest_row) (ch : nat) (m : dict value) : list value :=
  [VStr (tier row); VStr (config_id row); VStr (sim_id_of row); VStr (trace_name row);
   VStr (simconfig row); VInt (Z.of_nat ch)]
  ++ map (fun key => match dict_get m key with
                     | Some v => v
                     | None => VStr ""
                     end) metric_fields.

(** The row [r] is the output row of the unit [u]. *)
Definition is_written (u : manifest_row * nat * result cursor) (r : list value) : Prop :=
  exists m, record_of (snd u) = Ok m /\ r = cells_of (fst (fst u)) (snd (fst u)) m.

(** What a run over the units [us] comes to: the rows of the units up to the
    first one on which the reader raises, and that exception. *)
Fixpoint written (us : list (manifest_row * nat * result cursor))
    : result unit * list (list value) :=
  match us with
  | [] => (Ok tt, [])
  | u :: rest =>
      match record_of (snd u) with
      | Ok m =>
          let '(r, rows) := written rest in
          (r, cells_of (fst (fst u)) (snd (fst u)) m :: rows)
      | Raise e => (Raise e, [])
      end
  end.

(** A step that comes to what a run over [us] comes to, on a summary that is
    open. *)
Definition leaves (m : io world unit) (us : list (manifest_row * nat * result cursor))
    : Prop :=
  forall w rows,
    summary w = Some rows ->
    fst (m w) = fst (written us) /\
    summary (snd (m w)) = Some (rows ++ snd (written us)).

(** The line printed for a unit before its database is read. *)
Definition notice_of (u : manifest_row * nat * result cursor) : notice :=
  Extracting (sim_id_of (fst (fst u))) (snd (fst u)) (db_name_of (fst (fst u)) (snd (fst u))).

(** The lines of the units. *)
Definition is_extracting (n : notice) : bool :=
  match n with
  | Extracting _ _ _ => true
  | _ => false
  end.

(** The units that a run over [us] reads: those up to the first one on
    which the reader raises, that one included. *)
Fixpoint attempted (us : list (manifest_row * nat * result cursor))
    : list (manifest_row * nat * result cursor) :=
  match us with
  | [] => []
  | u :: rest =>
      match record_of (snd u) with
      | Ok _ => u :: attempted rest
      | Raise _ => [u]
      end
  end.

(** A step that prints, among other lines, the lines of the units that a run
    over [us] reads, in their order, and ends on such a line when it
    raises. *)
Definition prints (m : io world unit) (us : list (manifest_row * nat * result cursor))
    : Prop :=
  forall w,
    exists printed,
      stdout (snd (m w)) = stdout w ++ printed
      /\ filter is_extracting printed = map notice_of (attempted us)
      /\ fst (m w) = fst (written us)
      /\ (forall e, fst (m w) = Raise e ->
            exists before n, printed = before ++ [n] /\ is_extracting n = true).

(** ** The reader on the tables of a database *)

(** [GeneralInfo] as the reader reads it: the first row, by the declared
    names of the columns; an empty dict when the table has no row. *)
Definition general_info_of (cur : cursor) : result (dict value) :=
  gi_rows <- execute cur (SelectStar "GeneralInfo") ;;
  match fetchone gi_rows with
  | None => Ok []
  | Some gi =>
      infos <- table_info cur "GeneralInfo" ;;
      Ok (dict_update [] (combine (map name infos) gi))
  end.

(** The table [t] exists and declares the columns [columns], names being
    matched as SQLite matches them. *)
Definition has_columns (tables : list table) (t : string) (columns : list string) : bool :=
  match find_table tables t with
  | Some tb =>
      forallb (fun c => match column_index (t_columns tb) c with
                        | Some _ => true
                        | None => false
                        end) columns
  | None => false
  end.

(** The tables and columns that the statements of [extract_metrics_from_db]
    name. *)
Definition named_columns : list (string * list string) :=
  [("Bandwidth", ["AverageBandwidth"; "Time"]);
   ("Power", ["AveragePower"]);
   ("BufferDepth", ["AverageBufferDepth"]);
   ("Transactions", ["Command"]);
   ("GeneralInfo", [])].

(** A database that holds all of them. *)
Definition is_complete (tables : list table) : bool :=
  forallb (fun tc => has_columns tables (fst tc) (snd tc)) named_columns.

(** The rows of a table and the cells of one of its columns, by name. *)
Definition rows_named (tables : list table) (t : string) : list row :=
  match find_table tables t with
  | Some tb => t_rows tb
  | None => []
  end.

Definition cells_named (tables : list table) (t c : string) : list value :=
  match find_table tables t with
  | Some tb =>
      match column_index (t_columns tb) c with
      | Some i => column_cells i (t_rows tb)
      | None => []
      end
  | None => []
  end.

(** The first row of [GeneralInfo] by the declared column names, as
    [dict(zip(col_names, gi))] has it. *)
Definition general_info_row (tables : list table) : dict value :=
  match find_table tables "GeneralInfo" with
  | Some tb =>
      match t_rows tb with
      | gi :: _ => dict_update [] (combine (t_columns tb) gi)
      | [] => []
      end
  | None => []
  end.

(** The fields that the allow list takes from a [GeneralInfo] dict. *)
Definition general_info_fields (general_info : dict value) : dict value :=
  flat_map (fun key => match dict_get general_info key with
                       | Some v => [(("GI_" ++ key)%string, v)]
                       | None => []
                       end) general_info_keys.

(** The record that the tables of a run database determine. *)
Definition record_from_tables (text_as_real : string -> Q) (tables : list table)
    : dict value :=
  let cells := cells_named tables in
  let count p := VInt (Z.of_nat (List.length (filter p (cells "Transactions" "Command")))) in
  [("avg_bw_Gbps", sql_avg text_as_real (cells "Bandwidth" "AverageBandwidth"));
   ("max_bw_Gbps", sql_max text_as_real (cells "Bandwidth" "AverageBandwidth"));
   ("sim_time_units", sql_max text_as_real (cells "Bandwidth" "Time"));
   ("avg_power_W", sql_avg text_as_real (cells "Power" "AveragePower"));
   ("max_power_W", sql_max text_as_real (cells "Power" "AveragePower"));
   ("avg_buf_depth", sql_avg text_as_real (cells "BufferDepth" "AverageBufferDepth"));
   ("max_buf_depth", sql_max text_as_real (cells "BufferDepth" "AverageBufferDepth"));
   ("total_transactions", VInt (Z.of_nat (List.length (rows_named tables "Transactions"))));
   ("read_transactions", count (like_prefix "READ"));
   ("write_transactions", count (like_prefix "WRITE"))]
  ++ general_info_fields (general_info_row tables).

(** The position of the column that bears exactly the name [c]. *)
Fixpoint exact_index (columns : list string) (c : string) : option nat :=
  match columns with
  | [] => None
  | c' :: rest => if String.eqb c' c then Some O else option_map S (exact_index rest c)
  end.

(** The cell of the first row of a table under the column that bears
    exactly the name [key]. *)
Definition first_row_cell (tb : table) (key : string) : option value :=
  match t_rows tb with
  | [] => None
  | gi :: _ =>
      match exact_index (t_columns tb) key with
      | Some i => nth_error gi i
      | None => None
      end
  end.

End Extractor.

(* ================================================================== *)
(** * summarize_invalid_reasons.py: the reason tallier *)
(* ================================================================== *)

Module SummarizeInvalidReasons.
Import Py.

Definition EMPTY_REASON_FIELD : string := "<EMPTY_REASON_FIELD>".

(** A [Counter]: the counts by key, keys in first-seen order. *)
Definition Counter : Type := list (string * nat).

(** [counts[reason] += 1] *)
Fixpoint increment (tally : Counter) (reason : string) : Counter :=
  match tally with
  | [] => [(reason, 1)]
  | (k, n) :: rest =>
      if String.eqb k reason then (k, S n) :: rest
      else (k, n) :: increment rest reason
  end.

(** [counts[k]]: zero for a key that is not there. *)
Definition count_or_zero (tally : Counter) (k : string) : nat :=
  match dict_get tally k with
  | Some n => n
  | None => 0
  end.

(** [(row.get("invalid_reasons") or "").strip()], the sentinel when that is
    empty.  A row gives [None] when it has no such field. *)
Definition reason_of (field : option string) : string :=
  let reason := strip (match field with Some s => s | None => "" end) in
  if String.eqb reason "" then EMPTY_REASON_FIELD else reason.

(** [counts] after the loop over the rows of the CSV. *)
Definition counts (rows : list (option string)) : Counter :=
  fold_left (fun tally field => increment tally (reason_of field)) rows [].

(** [total = sum(counts.values())] *)
Definition total (tally : Counter) : nat :=
  fold_right (fun kn acc => snd kn + acc) 0 tally.

(** [sorted(items, key=itemgetter(1), reverse=True)]: a stable sort, so that
    items with equal counts keep their order.  [insert_desc] puts an item
    in front of the first item whose count is not greater. *)
Fixpoint insert_desc (x : string * nat) (l : list (string * nat)) : list (string * nat) :=
  match l with
  | [] => [x]
  | y :: l' => if snd y <=? snd x then x :: l else y :: insert_desc x l'
  end.

(** [counts.most_common()] *)
Definition most_common (tally : Counter) : list (string * nat) :=
  fold_right insert_desc [] tally.

(** [f"{n:5d}"]: right-aligned in five columns. *)
Definition format_5d (n : nat) : string :=
  let digits := str_of_nat n in
  (repeat_char " " (5 - String.length digits) ++ digits)%string.

(** [f"{n:5d}  {reason}"] *)
Definition line_of (item : string * nat) : string :=
  (format_5d (snd item) ++ "  " ++ fst item)%string.

Definition separator : string := repeat_char "-" 60.

(** [lines], as built for the summary. *)
Definition lines (rows : list (option string)) : list string :=
  let tally := counts rows in
  map line_of (most_common tally)
    ++ [separator]
    ++ [("Total invalid configs counted: " ++ str_of_nat (total tally))%string].

(** [summary_text = "\n".join(lines)], which is printed and written to
    [invalid_reasons_summary.txt]. *)
Definition summary_text (rows : list (option string)) : string :=
  String.concat (String "010" EmptyString) (lines rows).

(** ** The order of the report *)

(** How often a reason occurs, and where it is first seen (the length of
    the list when it is not seen at all). *)
Fixpoint occurrences (k : string) (reasons : list string) : nat :=
  match reasons with
  | [] => 0
  | r :: rest => (if String.eqb r k then 1 else 0) + occurrences k rest
  end.

Fixpoint first_index (k : string) (reasons : list string) : nat :=
  match reasons with
  | [] => 0
  | r :: rest => if String.eqb r k then 0 else S (first_index k rest)
  end.

(** Seen earlier. *)
Definition seen_before (reasons : list string) (a b : string) : Prop :=
  first_index a reasons < first_index b reasons.


(** ** Whitespace around a reason *)

(** Whitespace only (or empty). *)
Definition is_blank (s : string) : bool := forallb is_space (list_ascii_of_string s).

(** The text of a field; a row without the field reads as the empty text. *)
Definition text_of (field : option string) : string :=
  match field with
  | Some s => s
  | None => ""
  end.

(** The field [g] is the field [f] with whitespace around it. *)
Definition padded (f g : option string) : Prop :=
  exists a b, is_blank a = true /\ is_blank b = true
              /\ text_of g = (a ++ text_of f ++ b)%string.

End SummarizeInvalidReasons.

(* ================================================================== *)
(** * Sample data *)
(* ================================================================== *)

Module Samples.
Import Py Sqlite3.

(** The samples hold no text in a metric column: the reading of text as a
    number is never consulted. *)
Definition no_text : string -> Q := fun _ => (0#1)%Q.

Definition bandwidth : table :=
  {| t_name := "Bandwidth";
     t_columns := ["Time"; "AverageBandwidth"];
     t_rows := [[VInt 0; VFloat (3#2)]; [VInt 1000; VFloat (5#2)]] |}.

Definition power : table :=
  {| t_name := "Power";
     t_columns := ["time"; "AveragePower"];
     t_rows := [] |}.

Definition buffer_depth : table :=
  {| t_name := "BufferDepth";
     t_columns := ["Time"; "BufferNumber"; "AverageBufferDepth"];
     t_rows := [[VInt 0; VInt 0; VFloat (7#4)]] |}.

Definition transactions : table :=
  {| t_name := "Transactions";
     t_columns := ["ID"; "Command"];
     t_rows := [[VInt 1; VStr "READ"]; [VInt 2; VStr "WRITE"]; [VInt 3; VStr "R"]] |}.

Definition general_info : table :=
  {| t_name := "GeneralInfo";
     t_columns := ["clk"; "UnitOfTime"; "Traces"];
     t_rows := [[VInt 625; VStr "PS"; VStr "ai_cpu_trace_example.trace"]] |}.

(** A run database with the five tables. *)
Definition run_database : connection :=
  Database [bandwidth; power; buffer_depth; transactions; general_info].

(** A database file in which the simulator wrote no table. *)
Definition bare_database : connection := Database [].


(** The manifest row of the channel-reconstruction example. *)
Definition example_row : Extractor.manifest_row :=
  {| Extractor.tier := "lpddr4";
     Extractor.config_id := "4386";
     Extractor.trace_name := "ai_cpu_trace_example.trace";
     Extractor.simconfig := "ddr4.json" |}.

(** A second planned run. *)
Definition second_row : Extractor.manifest_row :=
  {| Extractor.tier := "lpddr4";
     Extractor.config_id := "4387";
     Extractor.trace_name := "ai_cpu_trace_example.trace";
     Extractor.simconfig := "ddr4.json" |}.

(** One manifest with the example row; of its four channels only channel 0
    has a file, which opens as [conn]. *)
Definition channel_0_only (conn : connection) : Extractor.environment :=
  {| Extractor.results_root := "experiments/results";
     Extractor.manifest_files :=
       [("experiments/results/lpddr4/lpddr4_runs_manifest.csv", [example_row])];
     Extractor.dramsys_root := fun db_name =>
       if String.eqb db_name "DRAMSys_lpddr4_id4386_ai_cpu_trace_example_ddr4_ch0.tdb"
       then Some (Ok (cursor_of no_text conn))
       else None |}.

(** One manifest with two rows, each with a file for channel 0: the first
    opens as [first], the second as a run database. *)
Definition two_runs (first : connection) : Extractor.environment :=
  {| Extractor.results_root := "experiments/results";
     Extractor.manifest_files :=
       [("experiments/results/lpddr4/lpddr4_runs_manifest.csv",
         [example_row; second_row])];
     Extractor.dramsys_root := fun db_name =>
       if String.eqb db_name "DRAMSys_lpddr4_id4386_ai_cpu_trace_example_ddr4_ch0.tdb"
       then Some (Ok (cursor_of no_text first))
       else if String.eqb db_name "DRAMSys_lpddr4_id4387_ai_cpu_trace_example_ddr4_ch0.tdb"
       then Some (Ok (cursor_of no_text run_database))
       else None |}.

(** No manifest under the results directory. *)
Definition no_manifest : Extractor.environment :=
  {| Extractor.results_root := "experiments/results";
     Extractor.manifest_files := [];
     Extractor.dramsys_root := fun _ => None |}.

(** A world in which an earlier run left a summary. *)
Definition after_earlier_run : Extractor.world :=
  {| Extractor.summary := Some [map VStr Extractor.fieldnames];
     Extractor.stdout := [];
     Extractor.executed := [] |}.

(** The run database without the table [t]. *)
Definition run_database_without (t : string) : connection :=
  Database (filter (fun tb => negb (same_name (t_name tb) t))
                   [bandwidth; power; buffer_depth; transactions; general_info]).

(** The example row with a database for channel 0 and one, never asked
    for, for channel 4. *)
Definition channels_0_and_4 : Extractor.environment :=
  {| Extractor.results_root := "experiments/results";
     Extractor.manifest_files :=
       [("experiments/results/lpddr4/lpddr4_runs_manifest.csv", [example_row])];
     Extractor.dramsys_root := fun db_name =>
       if String.eqb db_name "DRAMSys_lpddr4_id4386_ai_cpu_trace_example_ddr4_ch0.tdb"
       then Some (Ok (cursor_of no_text run_database))
       else if String.eqb db_name "DRAMSys_lpddr4_id4386_ai_cpu_trace_example_ddr4_ch4.tdb"
       then Some (Ok (cursor_of no_text bare_database))
       else None |}.

End Samples.

(* ================================================================== *)
(** * Properties *)
(* ================================================================== *)

Import Py Sqlite3 PyNotations.

(** ** The engine *)

Section EngineFacts.

Lemma names_of_column_infos : forall columns i,
  map name (column_infos i columns) = columns.
Proof.
  induction columns as [|c columns IH]; intros i; simpl.
  - reflexivity.
  - now rewrite IH.
Qed.






End EngineFacts.

(** ** Aggregates of a numeric column *)

Section NumericColumn.

Variable text_as_real : string -> Q.







End NumericColumn.

(** ** The generic aggregate reader *)

Section GenericAggregateReader.

Import ExtractTdbMetrics.

Variable text_as_real : string -> Q.

Local Abbreviation opened conn := (cursor_of text_as_real conn).


Lemma get_numeric_agg_no_table : forall tables t,
  find_table tables t = None ->
  get_numeric_agg (opened (Database tables)) t = Ok (VNone, VNone).
Proof.
  intros tables t Hfind. unfold get_numeric_agg. simpl. now rewrite Hfind.
Qed.


(** On a table with declared columns the reader asks for the aggregates of
    the column that bears the last declared name. *)
Lemma get_numeric_agg_on_table : forall tables t tb,
  find_table tables t = Some tb -> t_columns tb <> [] ->
  get_numeric_agg (opened (Database tables)) t =
    match column_index (t_columns tb) (last (t_columns tb) "") with
    | Some i => Ok (sql_avg text_as_real (column_cells i (t_rows tb)),
                    sql_max text_as_real (column_cells i (t_rows tb)))
    | None => Ok (VNone, VNone)
    end.
Proof.
  intros tables t tb Hfind Hcols. unfold get_numeric_agg.
  cbn [cursor_of table_info execute run_table_info]. rewrite Hfind.
  cbn [bind]. rewrite names_of_column_infos.
  destruct (t_columns tb) as [|c cols] eqn:E; [contradiction|].
  set (value_col := last (c :: cols) "").
  cbn [run]. rewrite Hfind.
  cbn [run_where bind run_aggregates run_aggregate]. rewrite E.
  destruct (column_index (c :: cols) value_col); reflexivity.
Qed.




(** C10. A table that exists and has declared columns but no row gives
    [(None, None)], which is also what a database without the table gives. *)
Theorem get_numeric_agg_empty_table : forall tables t tb,
  find_table tables t = Some tb ->
  t_columns tb <> [] ->
  t_rows tb = [] ->
  get_numeric_agg (opened (Database tables)) t = Ok (VNone, VNone) /\
  forall others, find_table others t = None ->
    get_numeric_agg (opened (Database tables)) t
    = get_numeric_agg (opened (Database others)) t.
Proof.
  intros tables t tb Hfind Hcols Hrows.
  assert (H : get_numeric_agg (opened (Database tables)) t = Ok (VNone, VNone)).
  { rewrite (get_numeric_agg_on_table tables t tb Hfind Hcols), Hrows.
    destruct (column_index _ _); reflexivity. }
  split; [exact H|].
  intros others Hnone. rewrite H. symmetry. now apply get_numeric_agg_no_table.
Qed.



End GenericAggregateReader.

Section GenericAggregateReaderSamples.

Import ExtractTdbMetrics Samples.

(** The [Power] table of the sample run database has columns and no row. *)
Lemma get_numeric_agg_empty_table_witness :
  get_numeric_agg (cursor_of no_text run_database) "Power" = Ok (VNone, VNone).
Proof.
  refine (proj1 (get_numeric_agg_empty_table no_text
                   [bandwidth; power; buffer_depth; transactions; general_info]
                   "Power" power _ _ _)).
  - reflexivity.
  - discriminate.
  - reflexivity.
Defined.


End GenericAggregateReaderSamples.

(** ** Decimal text *)

Section DecimalText.

Lemma digit_is_not_space : forall c, is_digit c = true -> is_space c = false.
Proof.
  intros c. unfold is_digit, is_space. generalize (code c). intros n H.
  apply andb_true_iff in H. destruct H as [H1 H2].
  apply Nat.leb_le in H1. apply Nat.leb_le in H2.
  apply orb_false_iff. split; apply andb_false_iff.
  - right. apply Nat.leb_gt. lia.
  - right. apply Nat.leb_gt. lia.
Qed.

Lemma lstrip_digits : forall s,
  forallb is_digit (list_ascii_of_string s) = true -> lstrip s = s.
Proof.
  intros [|c s] H; simpl in *.
  - reflexivity.
  - apply andb_true_iff in H. destruct H as [Hc _].
    now rewrite (digit_is_not_space c Hc).
Qed.

Lemma string_rev_involutive : forall s, string_rev (string_rev s) = s.
Proof.
  intros s. unfold string_rev.
  rewrite list_ascii_of_string_of_list_ascii, rev_involutive.
  apply string_of_list_ascii_of_string.
Qed.

Lemma digits_of_string_rev : forall s,
  forallb is_digit (list_ascii_of_string s) = true ->
  forallb is_digit (list_ascii_of_string (string_rev s)) = true.
Proof.
  intros s H. unfold string_rev. rewrite list_ascii_of_string_of_list_ascii.
  apply forallb_forall. intros c Hc. apply in_rev in Hc.
  revert c Hc. now apply forallb_forall.
Qed.

Lemma strip_digits : forall s,
  forallb is_digit (list_ascii_of_string s) = true -> strip s = s.
Proof.
  intros s H. unfold strip, rstrip.
  rewrite (lstrip_digits s H).
  rewrite (lstrip_digits (string_rev s) (digits_of_string_rev s H)).
  apply string_rev_involutive.
Qed.

Lemma int_digits_decimal : forall s acc,
  forallb is_digit (list_ascii_of_string s) = true ->
  int_digits acc false s = Some (ExtractTdbMetrics.decimal_from acc s).
Proof.
  induction s as [|c s IH]; intros acc H; simpl in *.
  - reflexivity.
  - apply andb_true_iff in H. destruct H as [Hc Hs].
    rewrite Hc. now apply IH.
Qed.

Lemma digit_is_no_sign : forall (A : Type) (c : ascii) (r : string) (plus minus other : A),
  is_digit c = true ->
  match String c r with
  | String "+" _ => plus
  | String "-" _ => minus
  | _ => other
  end = other.
Proof.
  intros A c r plus minus other H.
  destruct c as [[] [] [] [] [] [] [] []]; try discriminate H; reflexivity.
Qed.

(** [int] reads a non-negative integer in decimal digits as its value. *)
Lemma int_of_natural : forall s,
  ExtractTdbMetrics.is_natural s = true -> int s = Ok (ExtractTdbMetrics.decimal s).
Proof.
  intros s H. unfold ExtractTdbMetrics.is_natural in H.
  apply andb_true_iff in H. destruct H as [Hne Hd].
  unfold int. rewrite (strip_digits s Hd).
  destruct s as [|c r]; [discriminate Hne|].
  assert (Hc : is_digit c = true).
  { simpl in Hd. now apply andb_true_iff in Hd. }
  rewrite (digit_is_no_sign _ c r _ _ (int_literal (String c r)) Hc).
  unfold int_literal. rewrite Hc.
  simpl in Hd. apply andb_true_iff in Hd. destruct Hd as [_ Hr].
  rewrite (int_digits_decimal r _ Hr).
  unfold ExtractTdbMetrics.decimal. simpl. reflexivity.
Qed.

End DecimalText.

(** ** Names built from tokens *)

Section TokenNames.

Import ExtractTdbMetrics.

Lemma prefix_nil : forall s, String.prefix "" s = true.
Proof. now intros [|c s]. Qed.

Lemma prefix_append : forall p s, String.prefix p (p ++ s) = true.
Proof.
  induction p as [|c p IH]; intros s; cbn.
  - apply prefix_nil.
  - destruct (ascii_dec c c) as [_ | Hne]; [apply IH | now elim Hne].
Qed.

Lemma append_assoc : forall a b c : string, ((a ++ b) ++ c = a ++ (b ++ c))%string.
Proof.
  induction a as [|x a IH]; intros b c; simpl.
  - reflexivity.
  - now rewrite IH.
Qed.

Lemma list_of_append : forall a b,
  list_ascii_of_string (a ++ b) = list_ascii_of_string a ++ list_ascii_of_string b.
Proof.
  induction a as [|c a IH]; intros b; cbn.
  - reflexivity.
  - now rewrite IH.
Qed.

Lemma string_of_list_app : forall l1 l2,
  string_of_list_ascii (l1 ++ l2)
  = (string_of_list_ascii l1 ++ string_of_list_ascii l2)%string.
Proof.
  induction l1 as [|c l1 IH]; intros l2; cbn.
  - reflexivity.
  - now rewrite IH.
Qed.

Lemma string_rev_append : forall a b,
  string_rev (a ++ b) = (string_rev b ++ string_rev a)%string.
Proof.
  intros a b. unfold string_rev.
  now rewrite list_of_append, rev_app_distr, string_of_list_app.
Qed.

Lemma endswith_append : forall s p, endswith (s ++ p) p = true.
Proof.
  intros s p. unfold endswith. rewrite string_rev_append. apply prefix_append.
Qed.

Lemma length_append : forall a b,
  String.length (a ++ b) = String.length a + String.length b.
Proof.
  induction a as [|c a IH]; intros b; cbn.
  - reflexivity.
  - now rewrite IH.
Qed.

Lemma substring_head : forall a b, substring 0 (String.length a) (a ++ b) = a.
Proof.
  induction a as [|c a IH]; intros b; cbn.
  - now destruct b.
  - now rewrite IH.
Qed.

Lemma substring_skip : forall a b n,
  substring (String.length a) n (a ++ b) = substring 0 n b.
Proof.
  induction a as [|c a IH]; intros b n; cbn.
  - reflexivity.
  - apply IH.
Qed.

(** What stands between a prefix and a suffix is what the slice gives. *)
Lemma slice_between_append : forall pre core suf,
  slice_between (pre ++ core ++ suf) (String.length pre) (String.length suf) = core.
Proof.
  intros pre core suf. unfold slice_between.
  rewrite !length_append.
  replace (String.length pre + (String.length core + String.length suf)
           - String.length suf - String.length pre)
    with (String.length core) by lia.
  rewrite substring_skip. apply substring_head.
Qed.

Lemma split_lacking : forall sep s, lacks sep s = true -> split sep s = [s].
Proof.
  induction s as [|c s IH]; cbn; intros H.
  - reflexivity.
  - apply andb_true_iff in H. destruct H as [Hc Hs].
    apply negb_true_iff in Hc. rewrite Hc, (IH Hs). reflexivity.
Qed.

Lemma split_append : forall sep a b,
  lacks sep a = true -> split sep (a ++ String sep b) = a :: split sep b.
Proof.
  induction a as [|c a IH]; cbn; intros b H.
  - now rewrite Ascii.eqb_refl.
  - apply andb_true_iff in H. destruct H as [Hc Ha].
    apply negb_true_iff in Hc. rewrite Hc, (IH b Ha). reflexivity.
Qed.

(** Splitting undoes joining, for parts that lack the separator. *)
Lemma split_join : forall sep parts,
  parts <> [] -> forallb (lacks sep) parts = true ->
  split sep (join sep parts) = parts.
Proof.
  induction parts as [|p parts IH]; intros Hne Hall; [contradiction|].
  cbn [forallb] in Hall. apply andb_true_iff in Hall. destruct Hall as [Hp Hrest].
  destruct parts as [|q parts].
  - cbn. now apply split_lacking.
  - change (join sep (p :: q :: parts)) with (p ++ String sep (join sep (q :: parts)))%string.
    rewrite (split_append sep p _ Hp). f_equal. apply IH; [discriminate | exact Hrest].
Qed.

Lemma split_not_nil : forall sep s, split sep s <> [].
Proof.
  intros sep [|c s]; cbn; [discriminate|].
  destruct (Ascii.eqb c sep); [discriminate|]. destruct (split sep s); discriminate.
Qed.

Lemma last_cons : forall (A : Type) (x : A) (l : list A) (d : A),
  l <> [] -> last (x :: l) d = last l d.
Proof. intros A x [|y l] d H; [contradiction | reflexivity]. Qed.

(** A string with a separator splits into two parts at least. *)
Lemma split_two_parts : forall sep a b,
  2 <= List.length (split sep (a ++ String sep b)).
Proof.
  induction a as [|c a IH]; intros b; cbn [append split].
  - rewrite Ascii.eqb_refl. cbn [List.length].
    pose proof (split_not_nil sep b) as Hb.
    destruct (split sep b); [contradiction | cbn; lia].
  - specialize (IH b). destruct (Ascii.eqb c sep).
    + cbn [List.length]. lia.
    + destruct (split sep (a ++ String sep b)) as [|hd tl]; cbn in *; lia.
Qed.

(** The last part of a split depends only on what follows the last
    separator. *)
Lemma last_split_append : forall sep a b d,
  last (split sep (a ++ String sep b)) d = last (split sep b) d.
Proof.
  induction a as [|c a IH]; intros b d; cbn [append split].
  - rewrite Ascii.eqb_refl. apply last_cons. apply split_not_nil.
  - pose proof (split_two_parts sep a b) as Hlen. specialize (IH b d).
    destruct (Ascii.eqb c sep).
    + rewrite last_cons by apply split_not_nil. exact IH.
    + destruct (split sep (a ++ String sep b)) as [|hd [|hd' tl]];
        [cbn in Hlen; lia | cbn in Hlen; lia |].
      rewrite last_cons by discriminate. rewrite last_cons in IH by discriminate.
      exact IH.
Qed.

Lemma append_separator : forall (sep : ascii) (a b : string),
  (a ++ String sep b = (a ++ String sep EmptyString) ++ b)%string.
Proof.
  induction a as [|c a IH]; intros b; cbn [append].
  - reflexivity.
  - f_equal. apply IH.
Qed.

(** The path of a file named after tokens parses back into the tokens. *)
Lemma tokens_of_path : forall dir parts,
  is_directory dir = true ->
  parts <> [] ->
  forallb is_token parts = true ->
  let path := path_of_tokens dir parts in
  basename path = ("DRAMSys_" ++ join "_" parts ++ ".tdb")%string
  /\ core_of path = join "_" parts
  /\ tokens path = parts.
Proof.
  intros dir parts Hdir Hne Htok path.
  assert (Hunder : forallb (lacks "_") parts = true).
  { apply forallb_forall. intros p Hp.
    rewrite forallb_forall in Htok. specialize (Htok p Hp).
    unfold is_token in Htok. now apply andb_true_iff in Htok. }
  assert (Hslash : lacks "/" (join "_" parts) = true).
  { clear Hunder Hne path Hdir. induction parts as [|p parts IH]; [reflexivity|].
    cbn [forallb] in Htok. apply andb_true_iff in Htok. destruct Htok as [Hp Hrest].
    unfold is_token in Hp. apply andb_true_iff in Hp. destruct Hp as [_ Hp].
    destruct parts as [|q parts]; [exact Hp|].
    change (join "_" (p :: q :: parts)) with (p ++ String "_" (join "_" (q :: parts)))%string.
    specialize (IH Hrest). revert IH. generalize (join "_" (q :: parts)). intros rest Hrestl.
    clear Hrest. induction p as [|c p IHp]; cbn in *.
    - exact Hrestl.
    - apply andb_true_iff in Hp. destruct Hp as [Hc Hp]. rewrite Hc. cbn. now apply IHp. }
  assert (Hname : lacks "/" ("DRAMSys_" ++ join "_" parts ++ ".tdb") = true).
  { cbn. revert Hslash. generalize (join "_" parts). intros s Hs.
    induction s as [|c s IHs]; cbn in *; [reflexivity|].
    apply andb_true_iff in Hs. destruct Hs as [Hc Hs]. rewrite Hc. cbn. now apply IHs. }
  assert (Hbase : basename path = ("DRAMSys_" ++ join "_" parts ++ ".tdb")%string).
  { unfold basename, path, path_of_tokens, is_directory in *.
    apply orb_true_iff in Hdir. destruct Hdir as [Hdir | Hdir].
    - apply String.eqb_eq in Hdir. subst dir. cbn [append].
      change (String "D" ?x) with ("DRAMSys_" ++ join "_" parts ++ ".tdb")%string.
      now rewrite (split_lacking "/" _ Hname).
    - assert (Hd : exists d, dir = (d ++ "/")%string).
      { unfold endswith in Hdir.
        change (string_rev "/") with (String "/" EmptyString) in Hdir.
        destruct (string_rev dir) as [|c r] eqn:Er; [discriminate Hdir|].
        change (String.prefix (String "/" EmptyString) (String c r))
          with (if ascii_dec "/" c then String.prefix EmptyString r else false) in Hdir.
        destruct (ascii_dec "/" c) as [<- | Hne']; [|discriminate Hdir].
        exists (string_rev r). rewrite <- (string_rev_involutive dir), Er.
        change (String "/" r) with ("/" ++ r)%string.
        now rewrite string_rev_append. }
      destruct Hd as [d ->].
      rewrite <- append_separator, last_split_append.
      now rewrite (split_lacking "/" _ Hname). }
  assert (Hcore : core_of path = join "_" parts).
  { unfold core_of. rewrite Hbase. apply (slice_between_append "DRAMSys_" _ ".tdb"). }
  split; [exact Hbase|]. split; [exact Hcore|].
  unfold tokens. rewrite Hcore. now apply split_join.
Qed.

End TokenNames.

(** ** The filename parser *)

Section FilenameParser.

Import ExtractTdbMetrics.

Lemma int_or_None_natural : forall s,
  is_natural s = true -> int_or_None s = Some (decimal s).
Proof.
  intros s H. unfold int_or_None. now rewrite (int_of_natural s H).
Qed.


Lemma last_of_tail : forall (A : Type) (a b : A) (rest : list A) (d : A),
  rest <> [] -> last (a :: b :: rest) d = last rest d.
Proof.
  intros A a b rest d Hne. destruct rest as [|c rest]; [contradiction|]. reflexivity.
Qed.


(** X1. A name without the prefix or without the extension parses to four
    [None]s, and the loop passes over a file of that name with a notice,
    raising nothing. *)
Theorem parse_filename_malformed : forall f o,
  startswith (basename (path f)) "DRAMSys_" = false
  \/ endswith (basename (path f)) ".tdb" = false ->
  parse_filename (path f) = (None, None, None, None)
  /\ (size f <> 0 ->
      process f o
      = (Ok tt, {| csv := csv o; stdout := stdout o ++ [SkippingUnrecognized (path f)] |})).
Proof.
  intros f o H.
  assert (Hparse : parse_filename (path f) = (None, None, None, None)).
  { unfold parse_filename. destruct H as [-> | ->]; [reflexivity|].
    now rewrite orb_true_r. }
  split; [exact Hparse|].
  intros Hsize. unfold process. rewrite Hparse.
  apply Nat.eqb_neq in Hsize. now rewrite Hsize.
Qed.

(** X3. A name of three tokens or more parses to the tier made of the first
    two tokens and to the simulation id made of all of them; the search for
    the configuration id runs over the tokens; the channel is read from a
    last token [ch<N>] and is [None] when the last token does not start
    with [ch]. *)
Theorem parse_filename_of_tokens : forall dir t0 t1 rest,
  is_directory dir = true ->
  forallb is_token (t0 :: t1 :: rest) = true ->
  rest <> [] ->
  let path := path_of_tokens dir (t0 :: t1 :: rest) in
  let '(tier, config_id, sim_id, channel) := parse_filename path in
  tier = Some (t0 ++ "_" ++ t1)%string
  /\ sim_id = Some (join "_" (t0 :: t1 :: rest))
  /\ config_id = find_config_id (t0 :: t1 :: rest)
  /\ (is_ch_token (last rest "") = true ->
      channel = Some (decimal (slice_from (last rest "") 2)))
  /\ (startswith (last rest "") "ch" = false -> channel = None).
Proof.
  intros dir t0 t1 rest Hdir Htok Hrest path.
  destruct (tokens_of_path dir (t0 :: t1 :: rest) Hdir) as [Hbase [Hcore Htokens]];
    [discriminate | exact Htok |].
  fold path in Hbase, Hcore, Htokens.
  unfold parse_filename. unfold core_of in Hcore. unfold tokens, core_of in Htokens.
  assert (Hpre : startswith (basename path) "DRAMSys_" = true).
  { rewrite Hbase. apply prefix_append. }
  assert (Hext : endswith (basename path) ".tdb" = true).
  { rewrite Hbase, <- append_assoc. apply endswith_append. }
  rewrite Hpre, Hext. cbn [negb orb]. rewrite Htokens, Hcore.
  replace (List.length (t0 :: t1 :: rest) <? 3) with false
    by (destruct rest; [contradiction | reflexivity]).
  rewrite (last_of_tail _ t0 t1 rest "" Hrest).
  cbn [nth]. repeat split.
  - intros Hch. apply andb_true_iff in Hch. destruct Hch as [Hstart Hnat].
    now rewrite Hstart, (int_or_None_natural _ Hnat).
  - intros Hstart. now rewrite Hstart.
Qed.

End FilenameParser.

Section FilenameParserSamples.

Import ExtractTdbMetrics.



(** A name with neither the prefix nor the extension. *)
Lemma parse_filename_malformed_witness :
  parse_filename "/home/arifh/DRAMSys/notes_tier_lpddr4_id1_ch0.txt"
  = (None, None, None, None).
Proof.
  exact (proj1 (parse_filename_malformed
                  {| path := "/home/arifh/DRAMSys/notes_tier_lpddr4_id1_ch0.txt";
                     size := 12;
                     connect := Raise OperationalError |}
                  (initial None) (or_introl eq_refl))).
Defined.

(** The name of the docstring, built from its eight tokens. *)
Lemma parse_filename_of_tokens_witness :
  let '(tier, config_id, sim_id, channel) :=
    parse_filename
      "/home/arifh/DRAMSys/DRAMSys_tier_lpddr4_id4386_ai_cpu_trace_example_ch0.tdb" in
  tier = Some "tier_lpddr4"
  /\ sim_id = Some "tier_lpddr4_id4386_ai_cpu_trace_example_ch0"
  /\ config_id = Some 4386%Z
  /\ (is_ch_token "ch0" = true -> channel = Some 0%Z)
  /\ (startswith "ch0" "ch" = false -> channel = None).
Proof.
  refine (parse_filename_of_tokens "/home/arifh/DRAMSys/" "tier" "lpddr4"
            ["id4386"; "ai"; "cpu"; "trace"; "example"; "ch0"] eq_refl eq_refl _).
  discriminate.
Defined.

End FilenameParserSamples.

(** ** The glob-based extractor *)

Section GlobExtractor.

Import ExtractTdbMetrics.

Variable text_as_real : string -> Q.








End GlobExtractor.

Section GlobExtractorSamples.

Import ExtractTdbMetrics Samples.


End GlobExtractorSamples.


(** ** The named-metric reader *)

Section NamedMetricReader.

Import Extractor.

Lemma sends_ret : forall (A : Type) (a : A), sends (io_ret a) (Ok a) [].
Proof. intros A a [s o e]. unfold io_ret. cbn. now rewrite app_nil_r. Qed.

Lemma sends_lift : forall (A : Type) (r : result A), sends (io_lift r) r [].
Proof. intros A r [s o e]. unfold io_lift. cbn. now rewrite app_nil_r. Qed.

Lemma sends_execute : forall cur q, sends (cur_execute cur q) (execute cur q) [q].
Proof. intros cur q w. reflexivity. Qed.

Lemma sends_table_info : forall cur t,
  sends (cur_table_info cur t) (table_info cur t) [PragmaTableInfo t].
Proof. intros cur t w. reflexivity. Qed.

Lemma sends_bind : forall (A B : Type) (m : io world A) (k : A -> io world B) a l1 r l2,
  sends m (Ok a) l1 -> sends (k a) r l2 -> sends (io_bind m k) r (l1 ++ l2).
Proof.
  intros A B m k a l1 r l2 Hm Hk w. unfold io_bind. rewrite Hm, Hk. cbn.
  now rewrite app_assoc.
Qed.

Lemma sends_bind_raise : forall (A B : Type) (m : io world A) (k : A -> io world B) e l,
  sends m (Raise e) l -> sends (io_bind m k) (Raise e) l.
Proof. intros A B m k e l Hm w. unfold io_bind. now rewrite Hm. Qed.

Lemma sends_try_ok : forall (A : Type) (body handler : io world A) caught a l,
  sends body (Ok a) l -> sends (io_try_except body caught handler) (Ok a) l.
Proof. intros A body handler caught a l Hb w. unfold io_try_except. now rewrite Hb. Qed.

Lemma sends_try_caught : forall (A : Type) (body handler : io world A) caught e l1 r l2,
  sends body (Raise e) l1 -> caught e = true -> sends handler r l2 ->
  sends (io_try_except body caught handler) r (l1 ++ l2).
Proof.
  intros A body handler caught e l1 r l2 Hb Hc Hh w. unfold io_try_except.
  rewrite Hb, Hc, Hh. cbn. now rewrite app_assoc.
Qed.

Lemma sends_try_uncaught : forall (A : Type) (body handler : io world A) caught e l,
  sends body (Raise e) l -> caught e = false ->
  sends (io_try_except body caught handler) (Raise e) l.
Proof.
  intros A body handler caught e l Hb Hc w. unfold io_try_except. now rewrite Hb, Hc.
Qed.

Lemma sends_unique : forall (A : Type) (m : io world A) r1 l1 r2 l2,
  sends m r1 l1 -> sends m r2 l2 -> r1 = r2 /\ l1 = l2.
Proof.
  intros A m r1 l1 r2 l2 H1 H2.
  specialize (H1 fresh). specialize (H2 fresh). rewrite H1 in H2.
  inversion H2. split; reflexivity.
Qed.

(** [safe_single_value] executes its statement and nothing else; it raises
    only what the statement raises. *)
Lemma sends_safe_single_value : forall cur q,
  sends (safe_single_value cur q)
        (match execute cur q with Ok rows => Ok (single_value rows) | Raise e => Raise e end)
        [q].
Proof.
  intros cur q. unfold safe_single_value.
  destruct (execute cur q) as [rows|e] eqn:E.
  - change [q] with ([q] ++ []). eapply sends_bind.
    + rewrite <- E. apply sends_execute.
    + apply sends_ret.
  - apply sends_bind_raise. rewrite <- E. apply sends_execute.
Qed.

(** A pair of [safe_single_value] calls, the second made only when the first
    one returned. *)
Lemma sends_pair : forall cur q1 q2,
  sends (io_bind (safe_single_value cur q1) (fun reads =>
         io_bind (safe_single_value cur q2) (fun writes => io_ret (reads, writes))))
        (attempt cur q1 q2)
        (match execute cur q1 with Ok _ => [q1; q2] | Raise _ => [q1] end).
Proof.
  intros cur q1 q2. unfold attempt.
  pose proof (sends_safe_single_value cur q1) as H1.
  pose proof (sends_safe_single_value cur q2) as H2.
  destruct (execute cur q1) as [rows1|e1]; cbn [bind].
  - change [q1; q2] with ([q1] ++ [q2]). eapply sends_bind; [exact H1|].
    destruct (execute cur q2) as [rows2|e2]; cbn [bind].
    + change [q2] with ([q2] ++ []). eapply sends_bind; [exact H2|]. apply sends_ret.
    + apply sends_bind_raise. exact H2.
  - apply sends_bind_raise. exact H1.
Qed.

(** The [try] block of the read/write split is the two-attempt strategy. *)
Lemma sends_split : forall cur,
  sends
    (io_try_except
       (io_bind (safe_single_value cur
          (Select [CountStar] "Transactions" (Some (LikePrefix "Command" "READ"))))
          (fun reads =>
        io_bind (safe_single_value cur
          (Select [CountStar] "Transactions" (Some (LikePrefix "Command" "WRITE"))))
          (fun writes => io_ret (reads, writes))))
       is_OperationalError
       (io_bind (safe_single_value cur
          (Select [CountStar] "Transactions" (Some (InTexts "Command" ["R"; "READ"]))))
          (fun reads =>
        io_bind (safe_single_value cur
          (Select [CountStar] "Transactions" (Some (InTexts "Command" ["W"; "WRITE"]))))
          (fun writes => io_ret (reads, writes)))))
    (two_attempts cur)
    (two_attempts_statements cur).
Proof.
  intros cur. unfold two_attempts, two_attempts_statements.
  pose proof (sends_pair cur like_read like_write) as Hlike.
  pose proof (sends_pair cur in_read in_write) as Hin.
  fold (attempt_statements cur like_read like_write) in Hlike.
  fold (attempt_statements cur in_read in_write) in Hin.
  destruct (attempt cur like_read like_write) as [rw|e] eqn:E; cbn [structural_failure].
  - rewrite app_nil_r. apply sends_try_ok. exact Hlike.
  - destruct (is_OperationalError e) eqn:Ee.
    + eapply sends_try_caught; [exact Hlike | exact Ee | exact Hin].
    + rewrite app_nil_r. apply sends_try_uncaught; [exact Hlike | exact Ee].
Qed.

(** Reading [GeneralInfo]: the statements sent come from these two. *)
Lemma sends_general_info : forall cur,
  exists r l,
    sends
      (io_bind (cur_execute cur (SelectStar "GeneralInfo")) (fun gi_rows =>
         match fetchone gi_rows with
         | None => io_ret []
         | Some gi =>
             io_bind (cur_table_info cur "GeneralInfo") (fun infos =>
             io_ret (dict_update [] (combine (map name infos) gi)))
         end))
      r l
    /\ (forall q, In q l ->
          q = SelectStar "GeneralInfo" \/ q = PragmaTableInfo "GeneralInfo")
    /\ ((exists rows, execute cur (SelectStar "GeneralInfo") = Ok rows) ->
        (exists infos, table_info cur "GeneralInfo" = Ok infos) ->
        exists general_info, r = Ok general_info).
Proof.
  intros cur.
  pose proof (sends_execute cur (SelectStar "GeneralInfo")) as Hstar.
  pose proof (sends_table_info cur "GeneralInfo") as Hinfo.
  destruct (execute cur (SelectStar "GeneralInfo")) as [[|gi rest]|e] eqn:E.
  - exists (Ok []), ([SelectStar "GeneralInfo"] ++ []). split; [|split].
    + eapply sends_bind; [exact Hstar|]. apply sends_ret.
    + intros q [<- | []]. now left.
    + eauto.
  - destruct (table_info cur "GeneralInfo") as [infos|e] eqn:Ei.
    + exists (Ok (dict_update [] (combine (map name infos) gi))),
             ([SelectStar "GeneralInfo"] ++ [PragmaTableInfo "GeneralInfo"] ++ []).
      split; [|split].
      * eapply sends_bind; [exact Hstar|]. cbn [fetchone hd_error].
        eapply sends_bind; [exact Hinfo|]. apply sends_ret.
      * intros q [<- | [<- | []]]; [now left | now right].
      * eauto.
    + exists (Raise e), ([SelectStar "GeneralInfo"] ++ [PragmaTableInfo "GeneralInfo"]).
      split; [|split].
      * eapply sends_bind; [exact Hstar|]. cbn [fetchone hd_error].
        apply sends_bind_raise. exact Hinfo.
      * intros q [<- | [<- | []]]; [now left | now right].
      * intros _ [infos Hi]. discriminate Hi.
  - exists (Raise e), [SelectStar "GeneralInfo"]. split; [|split].
    + apply sends_bind_raise. exact Hstar.
    + intros q [<- | []]. now left.
    + intros [rows Hr]. discriminate Hr.
Qed.

Lemma sends_assoc : forall (A B C : Type) (m : io world A) (f : A -> io world B)
    (k : B -> io world C) r l,
  sends (io_bind (io_bind m f) k) r l ->
  sends (io_bind m (fun a => io_bind (f a) k)) r l.
Proof.
  intros A B C m f k r l H w. rewrite <- (H w). unfold io_bind.
  destruct (m w) as [[a|e] w']; reflexivity.
Qed.

Ltac sends_raised :=
  eapply sends_bind; [apply sends_lift|];
  repeat (eapply sends_bind; [eassumption|]);
  apply sends_bind_raise; eassumption.

Ltac plain_raised :=
  eexists; eexists; split; [sends_raised|];
  left; eexists; eexists; split; [reflexivity|]; split; [|split; [eassumption|]];
  [ cbn; repeat (first [left; reflexivity | right])
  | intros ? ?; cbn in *; tauto ].

Ltac plain_step cur q S E :=
  pose proof (sends_safe_single_value cur q) as S;
  destruct (execute cur q) as [?rows|?e] eqn:E; [|plain_raised].

(** What a run of [extract_metrics_from_db] does, whatever the cursor
    answers: either one of the eight aggregates raises, and the run raises
    the same after that statement; or the eight answer, the read/write split
    follows as the two-attempt strategy, and [GeneralInfo] is read last. *)
Lemma extract_outcome : forall cur,
  exists r l,
    sends (extract_metrics_from_db (Ok cur)) r l /\
    ((exists e q, r = Raise e /\ In q (map snd plain_aggregates)
                  /\ execute cur q = Raise e /\ incl l (map snd plain_aggregates))
     \/
     ((forall kq, In kq plain_aggregates -> exists rows, execute cur (snd kq) = Ok rows) /\
      exists lgi,
        l = map snd plain_aggregates ++ two_attempts_statements cur ++ lgi /\
        (forall q, In q lgi ->
           q = SelectStar "GeneralInfo" \/ q = PragmaTableInfo "GeneralInfo") /\
        match two_attempts cur with
        | Raise e => r = Raise e
        | Ok (reads, writes) =>
            (forall m, r = Ok m ->
               exists general_info,
                 m = add_general_info general_info (metrics_record cur reads writes)) /\
            ((exists rows, execute cur (SelectStar "GeneralInfo") = Ok rows) ->
             (exists infos, table_info cur "GeneralInfo" = Ok infos) ->
             exists m, r = Ok m)
        end)).
Proof.
  intros cur. unfold extract_metrics_from_db.
  plain_step cur (Select [Avg "AverageBandwidth"] "Bandwidth" None) S1 E1.
  plain_step cur (Select [Max "AverageBandwidth"] "Bandwidth" None) S2 E2.
  plain_step cur (Select [Max "Time"] "Bandwidth" None) S3 E3.
  plain_step cur (Select [Avg "AveragePower"] "Power" None) S4 E4.
  plain_step cur (Select [Max "AveragePower"] "Power" None) S5 E5.
  plain_step cur (Select [Avg "AverageBufferDepth"] "BufferDepth" None) S6 E6.
  plain_step cur (Select [Max "AverageBufferDepth"] "BufferDepth" None) S7 E7.
  plain_step cur (Select [CountStar] "Transactions" None) S8 E8.
  assert (Hplain : forall kq, In kq plain_aggregates ->
                     exists rows, execute cur (snd kq) = Ok rows).
  { intros kq Hin. cbn in Hin.
    repeat (destruct Hin as [<- | Hin]; [cbn [snd]; eauto|]). contradiction. }
  assert (Hrecord : forall reads writes,
            [("avg_bw_Gbps", single_value rows); ("max_bw_Gbps", single_value rows0);
             ("sim_time_units", single_value rows1); ("avg_power_W", single_value rows2);
             ("max_power_W", single_value rows3); ("avg_buf_depth", single_value rows4);
             ("max_buf_depth", single_value rows5);
             ("total_transactions", single_value rows6);
             ("read_transactions", reads); ("write_transactions", writes)]
            = metrics_record cur reads writes).
  { intros reads writes. unfold metrics_record, value_of. cbn [map plain_aggregates fst snd app].
    now rewrite E1, E2, E3, E4, E5, E6, E7, E8. }
  pose proof (sends_split cur) as Hsplit.
  destruct (sends_general_info cur) as [rgi [lgi [Hgi [Hlgi Hanswers]]]].
  destruct (two_attempts cur) as [[reads writes]|e] eqn:ET.
  - destruct rgi as [general_info|e].
    + eexists; eexists; split.
      * eapply sends_bind; [apply sends_lift|].
        repeat (eapply sends_bind; [eassumption|]).
        apply sends_assoc. eapply sends_bind; [exact Hgi|]. apply sends_ret.
      * right. split; [exact Hplain|]. exists lgi. split; [|split; [exact Hlgi|]].
        -- cbn. now rewrite app_nil_r.
        -- split.
           ++ intros m Hm. injection Hm as <-. exists general_info.
              now rewrite Hrecord.
           ++ intros _ _. eauto.
    + eexists; eexists; split.
      * eapply sends_bind; [apply sends_lift|].
        repeat (eapply sends_bind; [eassumption|]).
        apply sends_assoc. apply sends_bind_raise. exact Hgi.
      * right. split; [exact Hplain|]. exists lgi. split; [|split; [exact Hlgi|]].
        -- reflexivity.
        -- split.
           ++ intros m Hm. discriminate Hm.
           ++ intros Hr Hi. destruct (Hanswers Hr Hi) as [gi Hgi']. discriminate Hgi'.
  - eexists; eexists; split.
    + eapply sends_bind; [apply sends_lift|].
      repeat (eapply sends_bind; [eassumption|]).
      apply sends_bind_raise. exact Hsplit.
    + right. split; [exact Hplain|]. exists []. split; [|split].
      * cbn. now rewrite app_nil_r.
      * intros q [].
      * reflexivity.
Qed.

Lemma dict_get_set_other : forall (V : Type) (d : dict V) k v k',
  String.eqb k k' = false -> dict_get (dict_set d k v) k' = dict_get d k'.
Proof.
  induction d as [|[k0 v0] d IH]; intros k v k' Hk; cbn.
  - now rewrite Hk.
  - destruct (String.eqb k0 k) eqn:E0; cbn.
    + apply String.eqb_eq in E0. subst k0. now rewrite Hk.
    + destruct (String.eqb k0 k'); [reflexivity | now apply IH].
Qed.

(** Adding the [GeneralInfo] fields leaves every other key as it was. *)
Lemma dict_get_add_general_info : forall general_info m k,
  forallb (fun key => negb (String.eqb ("GI_" ++ key) k)) general_info_keys = true ->
  dict_get (add_general_info general_info m) k = dict_get m k.
Proof.
  intros general_info m k. unfold add_general_info.
  generalize general_info_keys. intros keys. revert m.
  induction keys as [|key keys IH]; intros m Hk; cbn [fold_left].
  - reflexivity.
  - cbn [forallb] in Hk. apply andb_true_iff in Hk. destruct Hk as [Hkey Hrest].
    rewrite IH by exact Hrest.
    destruct (dict_get general_info key); [|reflexivity].
    apply dict_get_set_other. now apply negb_true_iff.
Qed.

Lemma single_value_of_nothing : forall rows,
  yields_nothing rows = true -> single_value rows = VNone.
Proof.
  intros [|[|v r] rows] H; cbn in *; try reflexivity. now rewrite H.
Qed.

(** The statements of the split are none of the eight aggregates. *)
Lemma split_statement_not_plain : forall q,
  In q (map snd plain_aggregates) ->
  q <> like_read /\ q <> like_write /\ q <> in_read /\ q <> in_write.
Proof.
  intros q Hin. cbn in Hin.
  repeat (destruct Hin as [<- | Hin]; [repeat split; discriminate|]). contradiction.
Qed.

Lemma attempt_statements_head : forall cur q1 q2,
  exists tail, attempt_statements cur q1 q2 = q1 :: tail /\
               forall q, In q tail -> q = q2.
Proof.
  intros cur q1 q2. unfold attempt_statements.
  destruct (execute cur q1).
  - exists [q2]. split; [reflexivity|]. intros q [<- | []]. reflexivity.
  - exists []. split; [reflexivity|]. intros q [].
Qed.

(** The statements of a run that reached the split: the exact match comes
    after the prefix match, and exactly when the prefix match failed
    structurally. *)
Lemma split_order : forall cur lgi,
  (forall q, In q lgi ->
     q = SelectStar "GeneralInfo" \/ q = PragmaTableInfo "GeneralInfo") ->
  let l := map snd plain_aggregates ++ two_attempts_statements cur ++ lgi in
  (forall q, q = in_read \/ q = in_write -> In q l ->
     exists before after,
       l = before ++ like_read :: after /\ ~ In q before /\ In q after)
  /\ (In in_read l <->
      In like_read l /\ structural_failure (attempt cur like_read like_write) = true)
  /\ (In in_write l -> In in_read l).
Proof.
  intros cur lgi Hlgi l.
  destruct (attempt_statements_head cur like_read like_write) as [tail1 [Hlike Htail1]].
  destruct (attempt_statements_head cur in_read in_write) as [tail2 [Hin Htail2]].
  set (fallback := if structural_failure (attempt cur like_read like_write)
                   then attempt_statements cur in_read in_write else []).
  assert (Hl : l = map snd plain_aggregates ++ like_read :: (tail1 ++ fallback ++ lgi)).
  { unfold l, two_attempts_statements. fold fallback. rewrite Hlike.
    cbn [app]. now rewrite <- app_assoc. }
  assert (Hnot_lgi : forall q, q = in_read \/ q = in_write -> ~ In q lgi).
  { intros q Hq Hin'. destruct (Hlgi q Hin') as [-> | ->];
      destruct Hq as [Hq | Hq]; discriminate Hq. }
  assert (Hnot_tail1 : forall q, q = in_read \/ q = in_write -> ~ In q tail1).
  { intros q Hq Hin'. rewrite (Htail1 q Hin') in Hq.
    destruct Hq as [Hq | Hq]; discriminate Hq. }
  split; [|split].
  - intros q Hq Hinl.
    exists (map snd plain_aggregates), (tail1 ++ fallback ++ lgi).
    assert (Hnp : ~ In q (map snd plain_aggregates)).
    { intros Hp. destruct (split_statement_not_plain q Hp) as [_ [_ [H1 H2]]].
      destruct Hq; contradiction. }
    split; [exact Hl|]. split; [exact Hnp|].
    rewrite Hl in Hinl. apply in_app_or in Hinl.
    destruct Hinl as [Hp | [Heq | Hafter]].
    + contradiction.
    + subst q. destruct Hq as [Hq | Hq]; discriminate Hq.
    + exact Hafter.
  - split.
    + intros Hinl. split.
      * rewrite Hl. apply in_or_app. right. now left.
      * rewrite Hl in Hinl. apply in_app_or in Hinl.
        destruct Hinl as [Hp | [Heq | Hafter]].
        -- destruct (split_statement_not_plain _ Hp) as [_ [_ [H1 _]]]. contradiction.
        -- discriminate Heq.
        -- apply in_app_or in Hafter. destruct Hafter as [Ht | Hafter].
           ++ exfalso. apply (Hnot_tail1 in_read); auto.
           ++ apply in_app_or in Hafter. destruct Hafter as [Hf | Hg].
              ** unfold fallback in Hf.
                 destruct (structural_failure (attempt cur like_read like_write));
                   [reflexivity | contradiction].
              ** exfalso. apply (Hnot_lgi in_read); auto.
    + intros [_ Hsf]. rewrite Hl. apply in_or_app. right. right.
      apply in_or_app. right. apply in_or_app. left.
      unfold fallback. rewrite Hsf, Hin. now left.
  - intros Hinl. rewrite Hl in Hinl. apply in_app_or in Hinl.
    destruct Hinl as [Hp | [Heq | Hafter]].
    + destruct (split_statement_not_plain _ Hp) as [_ [_ [_ H2]]]. contradiction.
    + discriminate Heq.
    + apply in_app_or in Hafter. destruct Hafter as [Ht | Hafter].
      * exfalso. apply (Hnot_tail1 in_write); auto.
      * apply in_app_or in Hafter. destruct Hafter as [Hf | Hg].
        -- rewrite Hl. apply in_or_app. right. right.
           apply in_or_app. right. apply in_or_app. left.
           unfold fallback in *.
           destruct (structural_failure (attempt cur like_read like_write));
             [rewrite Hin; now left | contradiction].
        -- exfalso. apply (Hnot_lgi in_write); auto.
Qed.

(** C8. In every run of [extract_metrics_from_db], whatever the cursor
    answers: the exact-match statements are executed only after the
    prefix-match statement with [READ%]; they are executed exactly when the
    run reached the split and the prefix-match attempt raised
    [OperationalError]; the record holds the counts of the exact match in
    that case and of the prefix match otherwise; and an aggregate that
    answers no row or a NULL is recorded as [None], the record being returned
    as long as the statements answer. *)
Theorem read_write_split_two_attempts : forall (cur : cursor) (w : world),
  let run := extract_metrics_from_db (Ok cur) w in
  exists sent,
    executed (snd run) = executed w ++ sent
    /\ (forall q, q = in_read \/ q = in_write -> In q sent ->
          exists before after,
            sent = before ++ like_read :: after /\ ~ In q before /\ In q after)
    /\ (In in_read sent <->
        In like_read sent /\ structural_failure (attempt cur like_read like_write) = true)
    /\ (In in_write sent -> In in_read sent)
    /\ (forall m, fst run = Ok m ->
          exists reads writes,
            two_attempts cur = Ok (reads, writes) /\
            dict_get m "read_transactions" = Some reads /\
            dict_get m "write_transactions" = Some writes)
    /\ (forall m key q rows,
          fst run = Ok m -> In (key, q) plain_aggregates -> execute cur q = Ok rows ->
          dict_get m key = Some (single_value rows) /\
          (yields_nothing rows = true -> dict_get m key = Some VNone))
    /\ ((forall q, exists rows, execute cur q = Ok rows) ->
        (exists infos, table_info cur "GeneralInfo" = Ok infos) ->
        exists m, fst run = Ok m).
Proof.
  intros cur w run.
  destruct (extract_outcome cur) as [r [l [Hsends Hcases]]].
  assert (Hrun : run = (r, {| summary := summary w; stdout := stdout w;
                              executed := executed w ++ l |})) by apply Hsends.
  exists l. rewrite Hrun. cbn [fst snd executed].
  split; [reflexivity|].
  destruct Hcases as [[e [q0 [Hr [Hq0 [Hexec Hincl]]]]] | [Hplain [lgi [Hl [Hlgi Hsplit]]]]].
  - (* one of the eight aggregates raised *)
    subst r.
    assert (Hno : forall q, In q l ->
              q <> like_read /\ q <> like_write /\ q <> in_read /\ q <> in_write).
    { intros q Hq. apply split_statement_not_plain. now apply Hincl. }
    split; [|split; [|split; [|split; [|split]]]].
    + intros q Hq Hin. exfalso. destruct (Hno q Hin) as [_ [_ [H1 H2]]].
      destruct Hq; contradiction.
    + split.
      * intros Hin. exfalso. destruct (Hno _ Hin) as [_ [_ [H1 _]]]. now apply H1.
      * intros [Hin _]. exfalso. destruct (Hno _ Hin) as [H1 _]. now apply H1.
    + intros Hin. exfalso. destruct (Hno _ Hin) as [_ [_ [_ H2]]]. now apply H2.
    + intros m Hm. discriminate Hm.
    + intros m key q rows Hm. discriminate Hm.
    + intros Hall _. destruct (Hall q0) as [rows Hrows]. rewrite Hrows in Hexec.
      discriminate Hexec.
  - (* the eight aggregates answered *)
    destruct (split_order cur lgi Hlgi) as [Horder [Hiff Hwrite]].
    rewrite <- Hl in Horder, Hiff, Hwrite.
    split; [exact Horder|]. split; [exact Hiff|]. split; [exact Hwrite|].
    destruct (two_attempts cur) as [[reads writes]|e] eqn:ET.
    + destruct Hsplit as [Hrecord Hreturns].
      split; [|split].
      * intros m Hm. destruct (Hrecord m Hm) as [general_info ->].
        exists reads, writes. split; [reflexivity|].
        split; rewrite dict_get_add_general_info by reflexivity; reflexivity.
      * intros m key q rows Hm Hin Hrows.
        destruct (Hrecord m Hm) as [general_info ->].
        assert (Hget : dict_get (add_general_info general_info
                                   (metrics_record cur reads writes)) key
                       = Some (single_value rows)).
        { cbn in Hin.
          repeat (destruct Hin as [Hin | Hin];
                  [ injection Hin as <- <-;
                    rewrite dict_get_add_general_info by reflexivity;
                    unfold metrics_record; cbn; unfold value_of; now rewrite Hrows | ]).
          contradiction. }
        split; [exact Hget|].
        intros Hnull. now rewrite Hget, (single_value_of_nothing rows Hnull).
      * intros Hall Hinfos. apply Hreturns; [apply Hall | exact Hinfos].
    + subst r. split; [|split].
      * intros m Hm. discriminate Hm.
      * intros m key q rows Hm. discriminate Hm.
      * intros Hall _. exfalso.
        destruct (Hall like_read) as [rows_r Hr]. destruct (Hall like_write) as [rows_w Hw].
        unfold two_attempts, attempt in ET. rewrite Hr, Hw in ET. cbn in ET.
        discriminate ET.
Qed.

End NamedMetricReader.


(** ** The manifest-based extractor *)

Section ManifestExtractor.

Import Extractor.

Lemma keys_within_set : forall names d k v,
  keys_within names d = true ->
  existsb (String.eqb k) names = true ->
  keys_within names (dict_set d k v) = true.
Proof.
  induction d as [|[k0 v0] d IH]; intros k v Hd Hk; cbn in *.
  - now rewrite Hk.
  - apply andb_true_iff in Hd. destruct Hd as [H0 Hd].
    destruct (String.eqb k0 k); cbn; rewrite H0; cbn; [exact Hd | now apply IH].
Qed.

Lemma keys_within_update : forall names e d,
  keys_within names d = true ->
  keys_within names e = true ->
  keys_within names (dict_update d e) = true.
Proof.
  unfold dict_update.
  induction e as [|[k v] e IH]; intros d Hd He; cbn in *.
  - exact Hd.
  - apply andb_true_iff in He. destruct He as [Hk He].
    apply IH; [now apply keys_within_set | exact He].
Qed.

Lemma keys_within_add_general_info : forall general_info m,
  keys_within metric_fields m = true ->
  keys_within metric_fields (add_general_info general_info m) = true.
Proof.
  intros general_info m. unfold add_general_info.
  assert (Hkeys : forallb (fun key => existsb (String.eqb ("GI_" ++ key)) metric_fields)
                    general_info_keys = true) by reflexivity.
  revert m Hkeys. generalize general_info_keys.
  induction l as [|key keys IH]; intros m Hkeys Hm; cbn [fold_left].
  - exact Hm.
  - cbn [forallb] in Hkeys. apply andb_true_iff in Hkeys. destruct Hkeys as [Hkey Hkeys].
    apply IH; [exact Hkeys|].
    destruct (dict_get general_info key); [|exact Hm].
    now apply keys_within_set.
Qed.

Lemma keys_within_weaken : forall names names' d,
  (forall k, existsb (String.eqb k) names = true -> existsb (String.eqb k) names' = true) ->
  keys_within names d = true -> keys_within names' d = true.
Proof.
  intros names names' d Hsub. unfold keys_within.
  induction d as [|kv d IH]; cbn; intros H.
  - reflexivity.
  - apply andb_true_iff in H. destruct H as [Hk Hd].
    rewrite (Hsub _ Hk). now apply IH.
Qed.

Lemma metric_field_is_fieldname : forall k,
  existsb (String.eqb k) metric_fields = true -> existsb (String.eqb k) fieldnames = true.
Proof.
  intros k H. unfold fieldnames. rewrite existsb_app, H. apply orb_true_r.
Qed.

(** A key that the update does not bear keeps its value. *)
Lemma dict_get_update_other : forall (e d : dict value) names k,
  keys_within names e = true ->
  existsb (String.eqb k) names = false ->
  dict_get (dict_update d e) k = dict_get d k.
Proof.
  unfold dict_update.
  induction e as [|[k0 v0] e IH]; intros d names k He Hk; cbn in *.
  - reflexivity.
  - apply andb_true_iff in He. destruct He as [H0 He].
    rewrite (IH _ names k He Hk). apply dict_get_set_other.
    destruct (String.eqb k0 k) eqn:E; [|reflexivity].
    apply String.eqb_eq in E. subst k0. rewrite H0 in Hk. discriminate Hk.
Qed.

(** Every run of the reader leaves the world as it was but for the
    statements executed, and a record it returns bears metric fields only. *)
Lemma extract_sends : forall connect,
  exists r l,
    sends (extract_metrics_from_db connect) r l /\
    forall m, r = Ok m -> keys_within metric_fields m = true.
Proof.
  intros [cur|e].
  - destruct (extract_outcome cur) as [r [l [Hs Hcases]]].
    exists r, l. split; [exact Hs|]. intros m Hm.
    destruct Hcases as [[e [q [Hr _]]] | [_ [lgi [_ [_ Hsplit]]]]].
    + rewrite Hr in Hm. discriminate Hm.
    + destruct (two_attempts cur) as [[reads writes]|e].
      * destruct Hsplit as [Hrecord _]. destruct (Hrecord m Hm) as [general_info ->].
        apply keys_within_add_general_info. reflexivity.
      * rewrite Hsplit in Hm. discriminate Hm.
  - exists (Raise e), []. split.
    + unfold extract_metrics_from_db. apply sends_bind_raise. apply sends_lift.
    + intros m Hm. discriminate Hm.
Qed.




(** C9. Without any manifest, [main] raises [SystemExit] and leaves the world
    as it found it: the summary file is neither created nor emptied. *)
Theorem main_without_manifest : forall env w,
  manifest_files env = [] ->
  main env w
  = (Raise (SystemExit ("No *_runs_manifest.csv found under " ++ results_root env)%string), w).
Proof.
  intros env w H. unfold main. now rewrite H.
Qed.

(** *** The header *)

Lemma appending_bind : forall (A B : Type) (m : io world A) (k : A -> io world B),
  appending m -> (forall a, appending (k a)) -> appending (io_bind m k).
Proof.
  intros A B m k Hm Hk w rows Hw. unfold io_bind.
  destruct (Hm w rows Hw) as [more Hmore].
  destruct (m w) as [[a|e] w']; cbn [snd] in *.
  - destruct (Hk a w' (rows ++ more) Hmore) as [more' Hmore'].
    exists (more ++ more'). now rewrite app_assoc.
  - now exists more.
Qed.

Lemma appending_for_each : forall (A : Type) (xs : list A) (body : A -> io world unit),
  (forall x, appending (body x)) -> appending (for_each xs body).
Proof.
  induction xs as [|x xs IH]; intros body Hbody; cbn [for_each].
  - intros w rows Hw. exists []. cbn. now rewrite app_nil_r.
  - apply appending_bind; [apply Hbody | intros _; now apply IH].
Qed.

Lemma appending_print : forall n, appending (print n).
Proof. intros n w rows Hw. exists []. cbn. now rewrite app_nil_r. Qed.

Lemma appending_writerow : forall rowdict, appending (writerow rowdict).
Proof.
  intros rowdict w rows Hw. unfold writerow.
  destruct (forallb _ rowdict).
  - eexists. cbn. rewrite Hw. reflexivity.
  - exists []. cbn. now rewrite app_nil_r.
Qed.

Lemma appending_extract : forall connect, appending (extract_metrics_from_db connect).
Proof.
  intros connect w rows Hw.
  destruct (extract_sends connect) as [r [l [Hs _]]].
  rewrite Hs. exists []. cbn. now rewrite app_nil_r.
Qed.

Lemma appending_process_manifest : forall env manifest,
  appending (process_manifest env manifest).
Proof.
  intros env manifest. unfold process_manifest.
  apply appending_bind; [apply appending_print|]. intros _.
  apply appending_for_each. intros row. unfold process_row.
  apply appending_for_each. intros ch. unfold process_channel.
  destruct (dramsys_root env (db_name_of row ch)) as [connect|].
  - apply appending_bind; [apply appending_print|]. intros _.
    apply appending_bind; [apply appending_extract|]. intros metrics.
    apply appending_writerow.
  - intros w rows Hw. exists []. cbn. now rewrite app_nil_r.
Qed.

(** X2. Once a manifest is found, the summary starts with the declared
    header, whichever metrics the databases hold and wherever the run
    ends. *)
Theorem main_writes_header_first : forall env w,
  manifest_files env <> [] ->
  exists rows, summary (snd (main env w)) = Some (map VStr fieldnames :: rows).
Proof.
  intros env w Hne. unfold main.
  destruct (manifest_files env) as [|manifest manifests] eqn:E; [contradiction|].
  rewrite <- E.
  assert (Hloop : appending (io_bind (for_each (manifest_files env) (process_manifest env))
                               (fun _ => print Done))).
  { apply appending_bind.
    - apply appending_for_each. intros m. apply appending_process_manifest.
    - intros _. apply appending_print. }
  unfold io_bind at 1 2 3. unfold print at 1, open_w, writeheader, write, io_modify.
  cbn [summary stdout executed app].
  match goal with
  | |- context [io_bind _ _ ?w0] =>
      destruct (Hloop w0 [map VStr fieldnames] eq_refl) as [more Hmore];
      exists more; exact Hmore
  end.
Qed.

End ManifestExtractor.

Section ManifestExtractorSamples.

Import Extractor Samples.



(** No manifest, and a summary left by an earlier run. *)
Lemma main_without_manifest_witness :
  main no_manifest after_earlier_run
  = (Raise (SystemExit "No *_runs_manifest.csv found under experiments/results"),
     after_earlier_run).
Proof.
  exact (main_without_manifest no_manifest after_earlier_run eq_refl).
Defined.

(** C1 does not hold of the code. A database file without tables (what a
    file of zero bytes opens as) and a run database that lacks any one of
    the five tables make [extract_metrics_from_db] raise [OperationalError]
    instead of returning a record with empty fields; and in a batch of two
    runs, the failure on the first one stops [main]: the summary is left
    with its header, although the second run alone gives a row. *)
Theorem extract_metrics_from_db_missing_table :
  fst (extract_metrics_from_db (Ok (cursor_of no_text bare_database)) fresh)
  = Raise OperationalError
  /\ (forall t, In t ["Bandwidth"; "Power"; "BufferDepth"; "Transactions"; "GeneralInfo"] ->
        fst (extract_metrics_from_db (Ok (cursor_of no_text (run_database_without t))) fresh)
        = Raise OperationalError)
  /\ fst (main (two_runs (run_database_without "Power")) fresh) = Raise OperationalError
  /\ summary (snd (main (two_runs (run_database_without "Power")) fresh))
     = Some [map VStr fieldnames]
  /\ List.length (rows_of (summary (snd (main (two_runs run_database) fresh)))) = 3.
Proof.
  split; [reflexivity|]. split.
  - intros t [<- | [<- | [<- | [<- | [<- | []]]]]]; reflexivity.
  - repeat split.
Qed.

(** A batch that ends on a query failure. *)
Lemma main_writes_header_first_witness :
  exists rows,
    summary (snd (main (two_runs (run_database_without "Power")) fresh))
    = Some (map VStr fieldnames :: rows).
Proof.
  refine (main_writes_header_first (two_runs (run_database_without "Power")) fresh _).
  discriminate.
Defined.

End ManifestExtractorSamples.

(** ** The reason tallier *)

Section ReasonTally.

Import SummarizeInvalidReasons.

(** *** Lists in order *)

Lemma StronglySorted_snoc : forall (A : Type) (R : A -> A -> Prop) (l : list A) (x : A),
  StronglySorted R l -> Forall (fun a => R a x) l -> StronglySorted R (l ++ [x]).
Proof.
  induction l as [|a l IH]; intros x Hs Hx; cbn.
  - repeat constructor.
  - inversion Hs as [|? ? Hs' Ha]; subst. inversion Hx as [|? ? Hax Hx']; subst.
    constructor.
    + now apply IH.
    + apply Forall_app. split; [exact Ha | now constructor].
Qed.

Lemma StronglySorted_weaken : forall (A : Type) (R R' : A -> A -> Prop) (l : list A),
  StronglySorted R l ->
  (forall a b, In a l -> In b l -> R a b -> R' a b) ->
  StronglySorted R' l.
Proof.
  induction l as [|a l IH]; intros Hs Himp.
  - constructor.
  - inversion Hs as [|? ? Hs' Ha]; subst. constructor.
    + apply IH; [exact Hs'|]. intros x y Hx Hy. apply Himp; now right.
    + rewrite Forall_forall in *. intros b Hb. apply Himp; [now left | now right | now apply Ha].
Qed.


(** *** Occurrences and first positions *)

Lemma occurrences_snoc : forall k reasons r,
  occurrences k (reasons ++ [r])
  = occurrences k reasons + (if String.eqb r k then 1 else 0).
Proof.
  induction reasons as [|r0 reasons IH]; intros r; cbn.
  - lia.
  - rewrite IH. lia.
Qed.

Lemma occurrences_unseen : forall k reasons, ~ In k reasons -> occurrences k reasons = 0.
Proof.
  induction reasons as [|r reasons IH]; cbn; intros H.
  - reflexivity.
  - destruct (String.eqb r k) eqn:E.
    + apply String.eqb_eq in E. exfalso. apply H. now left.
    + cbn. apply IH. intros Hin. apply H. now right.
Qed.

Lemma first_index_seen : forall k reasons more,
  In k reasons -> first_index k (reasons ++ more) = first_index k reasons.
Proof.
  induction reasons as [|r reasons IH]; cbn; intros more H.
  - contradiction.
  - destruct (String.eqb r k) eqn:E; [reflexivity|].
    f_equal. apply IH. destruct H as [-> | H]; [|exact H].
    rewrite String.eqb_refl in E. discriminate E.
Qed.

Lemma first_index_bound : forall k reasons,
  In k reasons -> first_index k reasons < List.length reasons.
Proof.
  induction reasons as [|r reasons IH]; cbn; intros H.
  - contradiction.
  - destruct (String.eqb r k) eqn:E; [lia|].
    apply Nat.succ_lt_mono with (n := first_index k reasons). apply IH.
    destruct H as [-> | H]; [|exact H].
    rewrite String.eqb_refl in E. discriminate E.
Qed.

Lemma first_index_new : forall k reasons,
  ~ In k reasons -> first_index k (reasons ++ [k]) = List.length reasons.
Proof.
  induction reasons as [|r reasons IH]; cbn; intros H.
  - now rewrite String.eqb_refl.
  - destruct (String.eqb r k) eqn:E.
    + apply String.eqb_eq in E. exfalso. apply H. now left.
    + f_equal. apply IH. intros Hin. apply H. now right.
Qed.

(** *** Counting *)

Lemma counts_fold : forall rows acc,
  fold_left (fun tally field => increment tally (reason_of field)) rows acc
  = fold_left increment (map reason_of rows) acc.
Proof.
  induction rows as [|f rows IH]; intros acc; cbn.
  - reflexivity.
  - apply IH.
Qed.

Lemma increment_known : forall tally r,
  In r (map fst tally) -> map fst (increment tally r) = map fst tally.
Proof.
  induction tally as [|[k n] tally IH]; intros r Hin; cbn in *.
  - contradiction.
  - destruct (String.eqb k r) eqn:E; cbn.
    + reflexivity.
    + f_equal. apply IH. destruct Hin as [-> | Hin]; [|exact Hin].
      rewrite String.eqb_refl in E. discriminate E.
Qed.

Lemma increment_new : forall tally r,
  ~ In r (map fst tally) -> increment tally r = tally ++ [(r, 1)].
Proof.
  induction tally as [|[k n] tally IH]; intros r Hnotin; cbn in *.
  - reflexivity.
  - destruct (String.eqb k r) eqn:E.
    + apply String.eqb_eq in E. exfalso. apply Hnotin. now left.
    + f_equal. apply IH. intros H. apply Hnotin. now right.
Qed.

Lemma dict_get_increment : forall tally r k,
  dict_get (increment tally r) k
  = if String.eqb r k then Some (S (count_or_zero tally r)) else dict_get tally k.
Proof.
  unfold count_or_zero.
  induction tally as [|[k0 n0] tally IH]; intros r k; cbn.
  - destruct (String.eqb r k); reflexivity.
  - destruct (String.eqb k0 r) eqn:E0; cbn.
    + apply String.eqb_eq in E0. subst k0. destruct (String.eqb r k); reflexivity.
    + rewrite IH. destruct (String.eqb r k) eqn:E.
      * apply String.eqb_eq in E. subst k. now rewrite E0.
      * reflexivity.
Qed.

Lemma dict_get_unknown : forall (tally : Counter) k,
  ~ In k (map fst tally) -> dict_get tally k = None.
Proof.
  induction tally as [|[k0 n0] tally IH]; cbn; intros k H.
  - reflexivity.
  - destruct (String.eqb k0 k) eqn:E.
    + apply String.eqb_eq in E. exfalso. apply H. now left.
    + apply IH. intros Hin. apply H. now right.
Qed.


Lemma in_dict_get : forall (tally : Counter) k n,
  NoDup (map fst tally) -> In (k, n) tally -> dict_get tally k = Some n.
Proof.
  induction tally as [|[k0 n0] tally IH]; cbn; intros k n Hnd Hin.
  - contradiction.
  - inversion Hnd as [|? ? Hnotin Hnd']; subst.
    destruct Hin as [[= -> ->] | Hin].
    + now rewrite String.eqb_refl.
    + destruct (String.eqb k0 k) eqn:E.
      * apply String.eqb_eq in E. subst k0. exfalso. apply Hnotin.
        change k with (fst (k, n)). now apply in_map.
      * now apply IH.
Qed.

Lemma total_increment : forall tally r,
  total (increment tally r) = S (total tally).
Proof.
  unfold total.
  induction tally as [|[k n] tally IH]; intros r; cbn.
  - reflexivity.
  - destruct (String.eqb k r); cbn; [lia | rewrite IH; lia].
Qed.

(** What the loop has counted after the reasons [reasons]: one entry per
    distinct reason, in the order in which the reasons were first seen,
    each with the number of its occurrences. *)
Lemma tally_invariant : forall reasons,
  let tally := fold_left increment reasons [] in
  NoDup (map fst tally)
  /\ (forall k, In k (map fst tally) <-> In k reasons)
  /\ StronglySorted (seen_before reasons) (map fst tally)
  /\ (forall k, In k reasons -> dict_get tally k = Some (occurrences k reasons))
  /\ total tally = List.length reasons.
Proof.
  induction reasons as [|r reasons IH] using rev_ind; cbn zeta.
  - cbn. repeat split; try constructor; try tauto.
  - rewrite fold_left_app. cbn [fold_left].
    set (tally := fold_left increment reasons []) in *.
    destruct IH as [Hnd [Hkeys [Hsorted [Hcount Htotal]]]].
    assert (Htotal' : total (increment tally r) = List.length (reasons ++ [r])).
    { rewrite total_increment, Htotal, length_app. cbn. lia. }
    assert (Hcount' : forall k, In k (reasons ++ [r]) ->
              dict_get (increment tally r) k = Some (occurrences k (reasons ++ [r]))).
    { intros k Hk. rewrite dict_get_increment, occurrences_snoc.
      destruct (String.eqb r k) eqn:E.
      - apply String.eqb_eq in E. subst k. unfold count_or_zero. f_equal.
        destruct (in_dec string_dec r reasons) as [Hin | Hout].
        + rewrite (Hcount r Hin). lia.
        + rewrite dict_get_unknown by (now rewrite Hkeys).
          rewrite (occurrences_unseen r reasons Hout). reflexivity.
      - rewrite Nat.add_0_r. apply Hcount.
        apply in_app_or in Hk. destruct Hk as [Hk | [Hk | []]]; [exact Hk|].
        subst k. rewrite String.eqb_refl in E. discriminate E. }
    destruct (in_dec string_dec r reasons) as [Hin | Hout].
    + (* a reason seen before: its count goes up where it stands *)
      assert (Hk : In r (map fst tally)) by now apply Hkeys.
      rewrite (increment_known tally r Hk).
      split; [exact Hnd|]. split; [|split; [|split; [exact Hcount' | exact Htotal']]].
      * intros k. rewrite Hkeys, in_app_iff. cbn. split; [tauto|].
        intros [H | [<- | []]]; assumption.
      * apply (StronglySorted_weaken _ (seen_before reasons)); [exact Hsorted|].
        intros a b Ha Hb Hab. unfold seen_before in *.
        rewrite !first_index_seen by now apply Hkeys. exact Hab.
    + (* a new reason: it goes to the end with count one *)
      assert (Hk : ~ In r (map fst tally)) by now rewrite Hkeys.
      assert (Hcounts' : map fst (increment tally r) = map fst tally ++ [r]).
      { rewrite (increment_new tally r Hk), map_app. reflexivity. }
      rewrite Hcounts'.
      split; [|split; [|split; [|split; [exact Hcount' | exact Htotal']]]].
      * apply NoDup_app; [exact Hnd | repeat constructor; intros [] |].
        intros k Hin [<- | []]. contradiction.
      * intros k. rewrite !in_app_iff, Hkeys. reflexivity.
      * apply StronglySorted_snoc.
        -- apply (StronglySorted_weaken _ (seen_before reasons)); [exact Hsorted|].
           intros a b Ha Hb Hab. unfold seen_before in *.
           rewrite !first_index_seen by now apply Hkeys. exact Hab.
        -- apply Forall_forall. intros k Hin. unfold seen_before.
           rewrite first_index_seen by now apply Hkeys.
           rewrite (first_index_new r reasons Hout).
           apply first_index_bound. now apply Hkeys.
Qed.

(** *** Sorting *)






End ReasonTally.

(* ================================================================== *)
(** * Further properties *)
(* ================================================================== *)

(** ** Text *)

Section MoreText.

Import ExtractTdbMetrics.

Lemma prefix_split : forall p s, String.prefix p s = true -> exists t, s = (p ++ t)%string.
Proof.
  induction p as [|c p IH]; intros s H.
  - now exists s.
  - destruct s as [|d s]; [discriminate H|].
    cbn in H. destruct (ascii_dec c d) as [<- | _]; [|discriminate H].
    destruct (IH s H) as [t ->]. now exists t.
Qed.

Lemma endswith_split : forall s q, endswith s q = true -> exists u, s = (u ++ q)%string.
Proof.
  intros s q H. unfold endswith in H.
  destruct (prefix_split _ _ H) as [t Ht].
  exists (string_rev t).
  rewrite <- (string_rev_involutive s), Ht, string_rev_append, string_rev_involutive.
  reflexivity.
Qed.

Lemma append_overlap : forall a b c d : string,
  (a ++ b = c ++ d)%string -> String.length a <= String.length c ->
  exists e, c = (a ++ e)%string /\ b = (e ++ d)%string.
Proof.
  induction a as [|x a IH]; intros b c d H Hlen.
  - exists c. split; [reflexivity | exact H].
  - destruct c as [|y c]; [cbn in Hlen; lia|].
    cbn in H. injection H as -> H. cbn in Hlen.
    destruct (IH b c d H) as [e [-> ->]]; [lia|]. now exists e.
Qed.

Lemma substring_nothing : forall s n, substring n 0 s = "".
Proof.
  induction s as [|c s IH]; intros [|n]; cbn; try reflexivity. apply IH.
Qed.

Lemma substring_all : forall s, substring 0 (String.length s) s = s.
Proof.
  induction s as [|c s IH]; cbn; [reflexivity | now rewrite IH].
Qed.

(** [(a + b)[len(a):]] *)
Lemma slice_from_append : forall a b, slice_from (a ++ b) (String.length a) = b.
Proof.
  intros a b. unfold slice_from. rewrite length_append.
  replace (String.length a + String.length b - String.length a) with (String.length b) by lia.
  rewrite substring_skip. apply substring_all.
Qed.

(** Joining undoes splitting. *)
Lemma join_split : forall sep s, join sep (split sep s) = s.
Proof.
  induction s as [|c s IH]; cbn [split].
  - reflexivity.
  - pose proof (split_not_nil sep s) as Hne.
    destruct (Ascii.eqb c sep) eqn:E.
    + apply Ascii.eqb_eq in E. subst c.
      destruct (split sep s) as [|hd tl]; [contradiction|].
      change (join sep ("" :: hd :: tl)) with ("" ++ String sep (join sep (hd :: tl)))%string.
      now rewrite IH.
    + destruct (split sep s) as [|hd [|hd' tl]]; [contradiction| |].
      * cbn in *. now rewrite IH.
      * change (join sep (String c hd :: hd' :: tl))
          with (String c hd ++ String sep (join sep (hd' :: tl)))%string.
        change (join sep (hd :: hd' :: tl))
          with (hd ++ String sep (join sep (hd' :: tl)))%string in IH.
        cbn [append]. now rewrite IH.
Qed.

Lemma lacks_append : forall c a b, lacks c (a ++ b) = lacks c a && lacks c b.
Proof.
  induction a as [|x a IH]; intros b; cbn.
  - reflexivity.
  - rewrite IH. now rewrite andb_assoc.
Qed.

Lemma split_parts_lack : forall sep s, forallb (lacks sep) (split sep s) = true.
Proof.
  induction s as [|c s IH]; cbn [split].
  - reflexivity.
  - pose proof (split_not_nil sep s) as Hne.
    destruct (Ascii.eqb c sep) eqn:E.
    + cbn. exact IH.
    + destruct (split sep s) as [|hd tl]; [contradiction|].
      cbn in *. now rewrite E.
Qed.

Lemma lacks_substring : forall c s n m, lacks c s = true -> lacks c (substring n m s) = true.
Proof.
  induction s as [|x s IH]; intros n m H.
  - destruct n, m; reflexivity.
  - cbn in H. apply andb_true_iff in H. destruct H as [Hx Hs].
    destruct n as [|n]; destruct m as [|m]; cbn; try reflexivity.
    + rewrite Hx. now apply IH.
    + now apply IH.
    + now apply IH.
Qed.

Lemma lacks_last : forall c (parts : list string),
  forallb (lacks c) parts = true -> lacks c (last parts "") = true.
Proof.
  induction parts as [|p parts IH]; intros H; [reflexivity|].
  cbn [forallb] in H. apply andb_true_iff in H. destruct H as [Hp Hrest].
  destruct parts as [|q parts]; [exact Hp | now apply IH].
Qed.

Lemma forallb_filter : forall (A : Type) (f g : A -> bool) (l : list A),
  forallb f l = true -> forallb f (filter g l) = true.
Proof.
  induction l as [|x l IH]; cbn; intros H; [reflexivity|].
  apply andb_true_iff in H. destruct H as [Hx Hl].
  destruct (g x); cbn; [rewrite Hx|]; now apply IH.
Qed.

Lemma split_app : forall sep a b,
  split sep (a ++ String sep b) = split sep a ++ split sep b.
Proof.
  induction a as [|c a IH]; intros b; cbn [append split].
  - now rewrite Ascii.eqb_refl.
  - rewrite IH. pose proof (split_not_nil sep a) as Hne.
    destruct (Ascii.eqb c sep); [reflexivity|].
    destruct (split sep a) as [|hd tl]; [contradiction | reflexivity].
Qed.

Lemma split_length : forall sep s, 1 <= List.length (split sep s).
Proof.
  intros sep s. pose proof (split_not_nil sep s) as H.
  destruct (split sep s); [contradiction | cbn; lia].
Qed.

Lemma digits_lack : forall c s,
  is_digit c = false -> forallb is_digit (list_ascii_of_string s) = true -> lacks c s = true.
Proof.
  intros c. induction s as [|x s IH]; cbn; intros Hc H; [reflexivity|].
  apply andb_true_iff in H. destruct H as [Hx Hs].
  rewrite (IH Hc Hs), andb_true_r. apply negb_true_iff.
  destruct (Ascii.eqb x c) eqn:E; [|reflexivity].
  apply Ascii.eqb_eq in E. subst x. rewrite Hc in Hx. discriminate Hx.
Qed.

Lemma natural_lacks : forall c s, is_digit c = false -> is_natural s = true -> lacks c s = true.
Proof.
  intros c s Hc H. unfold is_natural in H. apply andb_true_iff in H.
  now apply digits_lack.
Qed.

(** *** The decimal text of a natural number *)

Lemma digits_of_uint : forall d,
  forallb is_digit (list_ascii_of_string (NilEmpty.string_of_uint d)) = true.
Proof. induction d; cbn; auto. Qed.

Lemma decimal_of_uint : forall d acc,
  decimal_from (Z.of_nat acc) (NilEmpty.string_of_uint d) = Z.of_nat (Nat.of_uint_acc d acc).
Proof.
  induction d; intros acc; cbn [NilEmpty.string_of_uint decimal_from Nat.of_uint_acc];
    try reflexivity;
    rewrite <- IHd; f_equal; rewrite Nat.tail_mul_spec;
    match goal with
    | |- context [digit_value ?c] =>
        let v := eval vm_compute in (digit_value c) in change (digit_value c) with v
    end; lia.
Qed.

Lemma to_uint_not_nil : forall n, Nat.to_uint n <> Decimal.Nil.
Proof.
  intros n H. pose proof (Unsigned.of_to n) as Hn. rewrite H in Hn.
  cbn in Hn. subst n. discriminate H.
Qed.

(** [str(n)] is a non-negative integer in decimal digits, of value [n]. *)
Lemma str_of_nat_natural : forall n, is_natural (str_of_nat n) = true.
Proof.
  intros n. unfold is_natural, str_of_nat. rewrite digits_of_uint, andb_true_r.
  pose proof (to_uint_not_nil n) as H.
  destruct (Nat.to_uint n); try reflexivity. contradiction.
Qed.

Lemma decimal_str_of_nat : forall n, decimal (str_of_nat n) = Z.of_nat n.
Proof.
  intros n. unfold decimal, str_of_nat.
  change 0%Z with (Z.of_nat 0). rewrite decimal_of_uint.
  change (Nat.of_uint_acc (Nat.to_uint n) 0) with (Nat.of_uint (Nat.to_uint n)).
  now rewrite Unsigned.of_to.
Qed.

Lemma str_of_nat_injective : forall n m, str_of_nat n = str_of_nat m -> n = m.
Proof.
  intros n m H. unfold str_of_nat in H. apply Unsigned.to_uint_inj.
  pose proof (NilEmpty.usu (Nat.to_uint n)) as Hn.
  pose proof (NilEmpty.usu (Nat.to_uint m)) as Hm.
  rewrite H in Hn. rewrite Hn in Hm. now injection Hm.
Qed.

End MoreText.

(** ** The names that the parser recognises *)

Section RecognisedNames.

Import ExtractTdbMetrics.

(** A name that is recognised is the prefix, what the slice gives, and the
    extension. *)
Lemma recognised_base : forall base,
  startswith base "DRAMSys_" = true -> endswith base ".tdb" = true ->
  3 <= List.length (split "_" (slice_between base 8 4)) ->
  base = ("DRAMSys_" ++ slice_between base 8 4 ++ ".tdb")%string.
Proof.
  intros base Hpre Hext Hparts.
  destruct (prefix_split _ _ Hpre) as [t Ht].
  destruct (endswith_split _ _ Hext) as [u Hu].
  assert (Hlen : 0 < String.length base - 4 - 8).
  { destruct (String.length base - 4 - 8) eqn:E; [|lia].
    unfold slice_between in Hparts. rewrite E, substring_nothing in Hparts.
    cbn in Hparts. lia. }
  assert (Hulen : String.length base = String.length u + 4).
  { rewrite Hu at 1. now rewrite length_append. }
  destruct (append_overlap "DRAMSys_" t u ".tdb") as [e [He Het]].
  { now rewrite <- Ht, <- Hu. }
  { cbn [String.length]. lia. }
  assert (Hbase : base = ("DRAMSys_" ++ e ++ ".tdb")%string) by now rewrite Ht, Het.
  assert (Hslice : slice_between base 8 4 = e).
  { rewrite Hbase. apply (slice_between_append "DRAMSys_" e ".tdb"). }
  now rewrite Hslice.
Qed.

(** X4. Whatever the path, [parse_filename] returns all of the four fields
    or none of the first and the third: when the tier is [None] so are the
    other three; when it is not, the simulation id starts with the tier and
    an underscore, and the name of the file is the prefix, the simulation id
    and the extension, so that the name can be rebuilt from the row. *)
Theorem parse_filename_recognised : forall path,
  match parse_filename path with
  | (Some tier, _, sim_id, _) =>
      exists rest,
        sim_id = Some (tier ++ "_" ++ rest)%string /\
        basename path = ("DRAMSys_" ++ tier ++ "_" ++ rest ++ ".tdb")%string
  | (None, config_id, sim_id, channel) =>
      config_id = None /\ sim_id = None /\ channel = None
  end.
Proof.
  intros path. unfold parse_filename.
  destruct (startswith (basename path) "DRAMSys_") eqn:Hpre; [|cbn; auto].
  destruct (endswith (basename path) ".tdb") eqn:Hext; [|cbn; auto].
  cbn [negb orb String.length].
  set (core := slice_between (basename path) 8 4).
  destruct (List.length (split "_" core) <? 3) eqn:Hlen; [auto|].
  apply Nat.ltb_ge in Hlen.
  pose proof (recognised_base (basename path) Hpre Hext Hlen) as Hbase. fold core in Hbase.
  pose proof (join_split "_" core) as Hjoin.
  destruct (split "_" core) as [|p0 [|p1 [|p2 rest]]]; try (cbn in Hlen; lia).
  exists (join "_" (p2 :: rest)). cbn [nth].
  assert (Hcore : core = ((p0 ++ "_" ++ p1) ++ "_" ++ join "_" (p2 :: rest))%string).
  { rewrite <- Hjoin.
    change (join "_" (p0 :: p1 :: p2 :: rest))
      with (p0 ++ String "_" (p1 ++ String "_" (join "_" (p2 :: rest))))%string.
    rewrite append_assoc. reflexivity. }
  split.
  - now rewrite Hcore at 1.
  - rewrite Hbase at 1. rewrite Hcore at 1. now rewrite append_assoc.
Qed.

(** *** The pattern of the glob *)

Lemma matches_literal : forall lit pattern path,
  lacks "*" lit = true ->
  matches (lit ++ pattern) path = true ->
  exists rest, path = (lit ++ rest)%string /\ matches pattern rest = true.
Proof.
  induction lit as [|c lit IH]; intros pattern path Hlit H.
  - now exists path.
  - cbn [lacks] in Hlit. apply andb_true_iff in Hlit. destruct Hlit as [Hc Hlit].
    apply negb_true_iff in Hc. cbn [append matches] in H. rewrite Hc in H.
    destruct path as [|d path]; [discriminate H|].
    apply andb_true_iff in H. destruct H as [Hd H]. apply Ascii.eqb_eq in Hd. subst d.
    destruct (IH pattern path Hlit H) as [rest [-> Hrest]]. now exists rest.
Qed.

Lemma matches_star : forall pattern path,
  matches (String "*" pattern) path = true ->
  exists a rest, path = (a ++ rest)%string /\ lacks "/" a = true
                 /\ matches pattern rest = true.
Proof.
  intros pattern path. cbn [matches]. rewrite Ascii.eqb_refl.
  induction path as [|d path IH]; intros H.
  - rewrite orb_false_r in H. now exists "", "".
  - apply orb_true_iff in H. destruct H as [H | H].
    + now exists "", (String d path).
    + apply andb_true_iff in H. destruct H as [Hd H].
      destruct (IH H) as [a [rest [-> [Ha Hrest]]]].
      exists (String d a), rest. cbn. now rewrite Hd, Ha.
Qed.

Lemma matches_end : forall path, matches "" path = true -> path = "".
Proof. intros [|c path] H; [reflexivity | discriminate H]. Qed.

(** What the pattern of the script matches. *)
Lemma TDB_GLOB_matches : forall path,
  matches TDB_GLOB path = true ->
  exists a b,
    lacks "/" a = true /\ lacks "/" b = true /\
    path = ("/home/arifh/DRAMSys" ++ String "/" ("DRAMSys_" ++ ("tier_" ++ a ++ "_" ++ b)
            ++ ".tdb"))%string.
Proof.
  intros path H.
  destruct (matches_literal "/home/arifh/DRAMSys/DRAMSys_tier_" "*_*.tdb" path eq_refl H)
    as [s1 [-> H1]].
  destruct (matches_star _ _ H1) as [a [s2 [-> [Ha H2]]]].
  destruct (matches_literal "_" "*.tdb" s2 eq_refl H2) as [s3 [-> H3]].
  destruct (matches_star _ _ H3) as [b [s4 [-> [Hb H4]]]].
  destruct (matches_literal ".tdb" "" s4 eq_refl H4) as [s5 [-> H5]].
  rewrite (matches_end s5 H5).
  exists a, b. split; [exact Ha|]. split; [exact Hb|].
  cbn [append]. now rewrite append_assoc.
Qed.

(** X5. Every path that the pattern of the script matches bears a name that
    [parse_filename] recognises, with a tier that starts with [tier_]: the
    loop never passes over a matched file for its name. *)
Theorem glob_matches_are_recognised : forall f,
  matches TDB_GLOB (path f) = true ->
  (exists tier config_id sim_id channel,
     parse_filename (path f) = (Some tier, config_id, Some sim_id, channel)
     /\ startswith tier "tier_" = true)
  /\ skip_notice f <> Some (SkippingUnrecognized (path f)).
Proof.
  intros f H. destruct (TDB_GLOB_matches (path f) H) as [a [b [Ha [Hb Hpath]]]].
  set (core := ("tier_" ++ a ++ "_" ++ b)%string) in *.
  assert (Hslash : lacks "/" ("DRAMSys_" ++ core ++ ".tdb") = true).
  { unfold core. rewrite !lacks_append, Ha, Hb. reflexivity. }
  assert (Hbase : basename (path f) = ("DRAMSys_" ++ core ++ ".tdb")%string).
  { rewrite Hpath. unfold basename. rewrite last_split_append.
    now rewrite (split_lacking "/" _ Hslash). }
  assert (Hparts : split "_" core = "tier" :: split "_" a ++ split "_" b).
  { unfold core. change ("tier_" ++ a ++ "_" ++ b)%string
      with ("tier" ++ String "_" (a ++ String "_" b))%string.
    now rewrite !split_app. }
  assert (Hparse : exists tier config_id sim_id channel,
            parse_filename (path f) = (Some tier, config_id, Some sim_id, channel)
            /\ startswith tier "tier_" = true).
  { unfold parse_filename. rewrite Hbase.
    assert (Hpre : startswith ("DRAMSys_" ++ core ++ ".tdb") "DRAMSys_" = true)
      by apply prefix_append.
    assert (Hext : endswith ("DRAMSys_" ++ core ++ ".tdb") ".tdb" = true).
    { rewrite <- append_assoc. apply endswith_append. }
    rewrite Hpre, Hext. cbn [negb orb].
    rewrite (slice_between_append "DRAMSys_" core ".tdb"), Hparts.
    assert (Hlen : (List.length ("tier" :: split "_" a ++ split "_" b) <? 3) = false).
    { apply Nat.ltb_ge. cbn [List.length]. rewrite length_app.
      pose proof (split_length "_" a). pose proof (split_length "_" b). lia. }
    rewrite Hlen. do 4 eexists. split; [reflexivity|].
    cbn [nth]. exact (prefix_append "tier_" _). }
  split; [exact Hparse|].
  destruct Hparse as [tier [config_id [sim_id [channel [Hparse _]]]]].
  unfold skip_notice. rewrite Hparse. cbn [fst].
  destruct (size f =? 0); [discriminate|]. destruct (connect f); discriminate.
Qed.

End RecognisedNames.

(** ** The names that the manifest-based extractor expects *)

Section ExpectedNames.

Import ExtractTdbMetrics Extractor.

(** A stem is a piece of one path component: it holds no slash. *)
Lemma stem_lacks_slash : forall p, lacks "/" (stem p) = true.
Proof.
  intros p.
  assert (Hname : lacks "/" (path_name p) = true).
  { unfold path_name. apply lacks_last. apply forallb_filter. apply split_parts_lack. }
  unfold stem. destruct (rfind_from "." (path_name p) 0) as [i|]; [|exact Hname].
  destruct ((0 <? i) && (i <? String.length (path_name p) - 1)); [|exact Hname].
  now apply lacks_substring.
Qed.

Lemma find_config_id_app : forall l1 l2,
  forallb (fun t => negb (startswith t "id")) l1 = true ->
  find_config_id (l1 ++ l2) = find_config_id l2.
Proof.
  induction l1 as [|p l1 IH]; intros l2 H; [reflexivity|].
  cbn [forallb] in H. apply andb_true_iff in H. destruct H as [Hp Hrest].
  apply negb_true_iff in Hp. cbn [app find_config_id]. rewrite Hp. now apply IH.
Qed.

(** X6. The name under which the manifest-based extractor looks for the
    database of a channel is one that [parse_filename] recognises, in any
    directory: it reads back the simulation id with the stem of the
    configuration and the channel appended, and the same channel; the tier it
    reads is made of the first two tokens of the name, the second one being
    the [id] token when the tier of the manifest is a single token; it reads
    the configuration id back when the tier has no token that starts with
    [id]. *)
Theorem db_name_of_parses : forall (dir : string) (row : manifest_row) (ch : nat),
  lacks "/" (tier row) = true ->
  lacks "/" (config_id row) = true ->
  let '(tier_, config_id_, sim_id_, channel_) :=
    parse_filename (dir ++ "/" ++ db_name_of row ch) in
  tier_ <> None
  /\ (lacks "_" (config_id row) = true ->
      tier_ = let parts := (split "_" (tier row) ++ [("id" ++ config_id row)%string])%list in
              Some (nth 0 parts "" ++ "_" ++ nth 1 parts "")%string)
  /\ sim_id_ = Some (sim_id_of row ++ "_" ++ stem (simconfig row)
                     ++ "_ch" ++ str_of_nat ch)%string
  /\ channel_ = Some (Z.of_nat ch)
  /\ (forallb (fun t => negb (startswith t "id")) (split "_" (tier row)) = true ->
      is_natural (config_id row) = true ->
      config_id_ = Some (decimal (config_id row))).
Proof.
  intros dir row ch Htier Hcfg.
  set (number := str_of_nat ch).
  set (after_id := (stem (trace_name row) ++ "_" ++ stem (simconfig row)
                    ++ "_ch" ++ number)%string).
  set (core := (sim_id_of row ++ "_" ++ stem (simconfig row) ++ "_ch" ++ number)%string).
  assert (Hnumber : is_natural number = true) by apply str_of_nat_natural.
  assert (Hname : db_name_of row ch = ("DRAMSys_" ++ core ++ ".tdb")%string).
  { unfold db_name_of, core. fold number.
    repeat first [rewrite append_assoc | progress cbn [append]]. reflexivity. }
  assert (Hcore : core = (tier row ++ String "_" (("id" ++ config_id row)
                           ++ String "_" after_id))%string).
  { unfold core, sim_id_of, after_id.
    repeat first [rewrite append_assoc | progress cbn [append]]. reflexivity. }
  assert (Hlast : core = ((sim_id_of row ++ String "_" (stem (simconfig row)))
                          ++ String "_" ("ch" ++ number))%string).
  { unfold core. repeat first [rewrite append_assoc | progress cbn [append]]. reflexivity. }
  assert (Hslash : lacks "/" (db_name_of row ch) = true).
  { unfold db_name_of, sim_id_of. fold number.
    rewrite !lacks_append, Htier, Hcfg, !stem_lacks_slash.
    rewrite (natural_lacks "/" number eq_refl Hnumber). reflexivity. }
  assert (Hbase : basename (dir ++ "/" ++ db_name_of row ch) = db_name_of row ch).
  { unfold basename. change ("/" ++ db_name_of row ch)%string with (String "/" (db_name_of row ch)).
    rewrite last_split_append. now rewrite (split_lacking "/" _ Hslash). }
  assert (Hparts : split "_" core
                   = split "_" (tier row) ++ split "_" ("id" ++ config_id row)
                     ++ split "_" after_id).
  { rewrite Hcore. now rewrite !split_app. }
  unfold parse_filename. rewrite Hbase, Hname.
  assert (Hpre : startswith ("DRAMSys_" ++ core ++ ".tdb") "DRAMSys_" = true)
    by apply prefix_append.
  assert (Hext : endswith ("DRAMSys_" ++ core ++ ".tdb") ".tdb" = true).
  { rewrite <- append_assoc. apply endswith_append. }
  rewrite Hpre, Hext. cbn [negb orb].
  rewrite (slice_between_append "DRAMSys_" core ".tdb").
  assert (Hlen : (List.length (split "_" core) <? 3) = false).
  { apply Nat.ltb_ge. rewrite Hparts, !length_app.
    pose proof (split_length "_" (tier row)).
    pose proof (split_length "_" ("id" ++ config_id row)).
    pose proof (split_length "_" after_id). lia. }
  rewrite Hlen.
  split; [discriminate|]. split; [|split; [reflexivity|split]].
  - intros Hunder. rewrite Hparts.
    rewrite (split_lacking "_" ("id" ++ config_id row)) by (cbn; exact Hunder).
    pose proof (split_length "_" (tier row)) as Hone.
    destruct (split "_" (tier row)) as [|t0 [|t1 more]]; [cbn in Hone; lia | |]; reflexivity.
  - assert (Hl : last (split "_" core) "" = ("ch" ++ number)%string).
    { rewrite Hlast, last_split_append. rewrite split_lacking; [reflexivity|].
      cbn. now apply natural_lacks. }
    rewrite Hl. unfold startswith. rewrite prefix_append.
    replace (slice_from ("ch" ++ number) 2) with number
      by (symmetry; apply (slice_from_append "ch" number)).
    rewrite (int_or_None_natural number Hnumber).
    unfold number. now rewrite decimal_str_of_nat.
  - intros Hids Hnat. rewrite Hparts, (find_config_id_app _ _ Hids).
    rewrite (split_lacking "_" ("id" ++ config_id row)).
    + cbn [app find_config_id]. unfold startswith. rewrite prefix_append.
      replace (slice_from ("id" ++ config_id row) 2) with (config_id row)
        by (symmetry; apply (slice_from_append "id" (config_id row))).
      now rewrite (int_or_None_natural _ Hnat).
    + cbn. now apply natural_lacks.
Qed.

End ExpectedNames.

(** ** Signs *)

Section SignedNumbers.

Import ExtractTdbMetrics.

Lemma lstrip_head_not_space : forall c s, is_space c = false -> lstrip (String c s) = String c s.
Proof. intros c s H. cbn [lstrip]. now rewrite H. Qed.

Lemma int_literal_natural : forall d, is_natural d = true -> int_literal d = Some (decimal d).
Proof.
  intros [|c r] H; [discriminate H|].
  unfold is_natural in H. cbn in H. apply andb_true_iff in H. destruct H as [Hc Hr].
  unfold int_literal. rewrite Hc, (int_digits_decimal r _ Hr). reflexivity.
Qed.

Lemma natural_rev_head : forall d,
  is_natural d = true -> exists c r, string_rev d = String c r /\ is_digit c = true.
Proof.
  intros d H. unfold is_natural in H. apply andb_true_iff in H. destruct H as [Hne Hd].
  pose proof (digits_of_string_rev d Hd) as Hrev.
  destruct (string_rev d) as [|c r] eqn:E.
  - exfalso. rewrite <- (string_rev_involutive d), E in Hne. discriminate Hne.
  - cbn in Hrev. apply andb_true_iff in Hrev. now exists c, r.
Qed.

(** A sign in front of digits stays when the text is trimmed. *)
Lemma strip_signed : forall sign d,
  is_space sign = false -> is_natural d = true -> strip (String sign d) = String sign d.
Proof.
  intros sign d Hs Hd. unfold strip, rstrip. rewrite (lstrip_head_not_space sign d Hs).
  change (String sign d) with (String sign "" ++ d)%string at 1.
  rewrite string_rev_append.
  destruct (natural_rev_head d Hd) as [c [r [E Hc]]]. rewrite E.
  cbn [append]. rewrite (lstrip_head_not_space c _ (digit_is_not_space c Hc)).
  change (String c (r ++ string_rev (String sign ""))) with (String c r ++ string_rev (String sign ""))%string.
  rewrite <- E, <- string_rev_append. apply string_rev_involutive.
Qed.

(** [int] reads a minus sign before the digits. *)
Lemma int_of_negative : forall d,
  is_natural d = true -> int ("-" ++ d) = Ok (- decimal d)%Z.
Proof.
  intros d H. unfold int. cbn [append].
  rewrite (strip_signed "-" d eq_refl H), (int_literal_natural d H). reflexivity.
Qed.

(** X18. The number after [id] and after [ch] is read as [int] reads it: a
    minus sign before the digits is taken, and the configuration id and the
    channel are then negative. *)
Theorem parse_filename_reads_signs : forall dir t0 t1 d e,
  is_directory dir = true ->
  is_token t0 = true -> is_token t1 = true ->
  startswith t0 "id" = false -> startswith t1 "id" = false ->
  is_natural d = true -> is_natural e = true ->
  parse_filename (path_of_tokens dir [t0; t1; ("id-" ++ d)%string; ("ch-" ++ e)%string])
  = (Some (t0 ++ "_" ++ t1)%string,
     Some (- decimal d)%Z,
     Some (t0 ++ "_" ++ t1 ++ "_id-" ++ d ++ "_ch-" ++ e)%string,
     Some (- decimal e)%Z).
Proof.
  intros dir t0 t1 d e Hdir H0 H1 Hid0 Hid1 Hd He.
  set (parts := [t0; t1; ("id-" ++ d)%string; ("ch-" ++ e)%string]).
  assert (Htok : forallb is_token parts = true).
  { unfold parts. cbn [forallb]. rewrite H0, H1. unfold is_token. cbn [append lacks].
    rewrite (natural_lacks "_" d eq_refl Hd), (natural_lacks "/" d eq_refl Hd).
    rewrite (natural_lacks "_" e eq_refl He), (natural_lacks "/" e eq_refl He).
    reflexivity. }
  destruct (tokens_of_path dir parts Hdir) as [Hbase [Hcore Htokens]];
    [discriminate | exact Htok |].
  unfold parse_filename. unfold core_of in Hcore. unfold tokens, core_of in Htokens.
  assert (Hpre : startswith (basename (path_of_tokens dir parts)) "DRAMSys_" = true).
  { rewrite Hbase. apply prefix_append. }
  assert (Hext : endswith (basename (path_of_tokens dir parts)) ".tdb" = true).
  { rewrite Hbase, <- append_assoc. apply endswith_append. }
  rewrite Hpre, Hext. cbn [negb orb]. rewrite Htokens, Hcore.
  unfold parts. cbn [List.length Nat.ltb Nat.leb nth last find_config_id].
  rewrite Hid0, Hid1.
  replace (startswith ("id-" ++ d) "id") with true by (symmetry; apply (prefix_append "id")).
  replace (startswith ("ch-" ++ e) "ch") with true by (symmetry; apply (prefix_append "ch")).
  replace (slice_from ("id-" ++ d) 2) with ("-" ++ d)%string
    by (symmetry; apply (slice_from_append "id" ("-" ++ d))).
  replace (slice_from ("ch-" ++ e) 2) with ("-" ++ e)%string
    by (symmetry; apply (slice_from_append "ch" ("-" ++ e))).
  unfold int_or_None. rewrite (int_of_negative d Hd), (int_of_negative e He).
  reflexivity.
Qed.

End SignedNumbers.

Section NamesSamples.

Import ExtractTdbMetrics Extractor Samples.

(** A matched name with an empty last token. *)
Lemma glob_matches_are_recognised_witness :
  (exists tier config_id sim_id channel,
     parse_filename "/home/arifh/DRAMSys/DRAMSys_tier_lpddr4_.tdb"
     = (Some tier, config_id, Some sim_id, channel)
     /\ startswith tier "tier_" = true)
  /\ skip_notice (on_disk no_text
                    ("/home/arifh/DRAMSys/DRAMSys_tier_lpddr4_.tdb", 4096, Some run_database))
     <> Some (SkippingUnrecognized "/home/arifh/DRAMSys/DRAMSys_tier_lpddr4_.tdb").
Proof.
  exact (glob_matches_are_recognised
           (on_disk no_text
              ("/home/arifh/DRAMSys/DRAMSys_tier_lpddr4_.tdb", 4096, Some run_database))
           eq_refl).
Defined.

(** The name of the channel-reconstruction example, in the directory of the
    glob-based extractor. *)
Lemma db_name_of_parses_witness :
  let '(tier_, config_id_, sim_id_, channel_) :=
    parse_filename ("/home/arifh/DRAMSys" ++ "/" ++ db_name_of example_row 0) in
  tier_ <> None
  /\ (lacks "_" (config_id example_row) = true ->
      tier_ = let parts := (split "_" (tier example_row)
                            ++ [("id" ++ config_id example_row)%string])%list in
              Some (nth 0 parts "" ++ "_" ++ nth 1 parts "")%string)
  /\ sim_id_ = Some (sim_id_of example_row ++ "_" ++ stem (simconfig example_row)
                     ++ "_ch" ++ str_of_nat 0)%string
  /\ channel_ = Some (Z.of_nat 0)
  /\ (forallb (fun t => negb (startswith t "id")) (split "_" (tier example_row)) = true ->
      is_natural (config_id example_row) = true ->
      config_id_ = Some (decimal (config_id example_row))).
Proof.
  exact (db_name_of_parses "/home/arifh/DRAMSys" example_row 0 eq_refl eq_refl).
Defined.

(** A name with the tokens [id-5] and [ch-1]. *)
Lemma parse_filename_reads_signs_witness :
  parse_filename "/home/arifh/DRAMSys/DRAMSys_tier_lpddr4_id-5_ch-1.tdb"
  = (Some "tier_lpddr4", Some (-5)%Z, Some "tier_lpddr4_id-5_ch-1", Some (-1)%Z).
Proof.
  exact (parse_filename_reads_signs "/home/arifh/DRAMSys/" "tier" "lpddr4" "5" "1"
           eq_refl eq_refl eq_refl eq_refl eq_refl eq_refl eq_refl).
Defined.

End NamesSamples.

(** ** The rows of the glob-based extractor *)

Section GlobRows.

Import ExtractTdbMetrics.

Variable text_as_real : string -> Q.

(** X7. [get_transaction_count] never raises an exception of the
    [sqlite3.Error] family, whatever the cursor does; on a database file it
    returns the number of rows of [Transactions] whatever the columns of the
    table, and [None] when the table is missing or the file is not a
    database. *)
Theorem get_transaction_count_counts_rows :
  (forall cur e, get_transaction_count cur = Raise e -> is_sqlite3_Error e = false)
  /\ (forall conn,
        get_transaction_count (cursor_of text_as_real conn)
        = Ok (match conn with
              | Database tables =>
                  match find_table tables "Transactions" with
                  | Some tb => VInt (Z.of_nat (List.length (t_rows tb)))
                  | None => VNone
                  end
              | NotADatabase => VNone
              end)).
Proof.
  split.
  - intros cur e. unfold get_transaction_count, try_except.
    destruct (execute cur (Select [CountStar] "Transactions" None)) as [rows|e'] eqn:E;
      cbn [bind].
    + destruct (fetchone rows) as [[|v r]|]; cbn; try discriminate.
      intros [= <-]. reflexivity.
    + destruct (is_sqlite3_Error e') eqn:Ee; [discriminate|].
      intros [= <-]. exact Ee.
  - intros [tables|]; [|reflexivity].
    unfold get_transaction_count. cbn [cursor_of execute run].
    destruct (find_table tables "Transactions"); reflexivity.
Qed.






(** X20. A file that opens but is not a database, or holds no table, is not
    skipped: its row bears the fields read from the name and seven [None]s,
    and nothing is printed. *)
Theorem process_writes_nulls : forall p sz conn tier config_id sim_id channel o,
  sz <> 0 ->
  parse_filename p = (Some tier, config_id, sim_id, channel) ->
  conn = NotADatabase \/ conn = Database [] ->
  process (on_disk text_as_real (p, sz, Some conn)) o
  = (Ok tt,
     {| csv := Some (match csv o with Some rows => rows | None => [] end
                     ++ [[VStr tier; int_value config_id; str_value sim_id; VStr p;
                          int_value channel;
                          VNone; VNone; VNone; VNone; VNone; VNone; VNone]]);
        stdout := stdout o |}).
Proof.
  intros p sz conn tier config_id sim_id channel o Hsz Hparse Hconn.
  unfold process. cbn [on_disk path size connect].
  apply Nat.eqb_neq in Hsz. rewrite Hsz, Hparse.
  destruct Hconn as [-> | ->]; reflexivity.
Qed.

End GlobRows.

Section GlobRowsSamples.

Import ExtractTdbMetrics Samples.

(** A file of 17 bytes that is not a database. *)
Lemma process_writes_nulls_witness :
  process (on_disk no_text
             ("/home/arifh/DRAMSys/DRAMSys_tier_lpddr4_id4386_ai_cpu_trace_example_ch2.tdb",
              17, Some NotADatabase))
          (initial None)
  = (Ok tt,
     {| csv := Some [[VStr "tier_lpddr4"; VInt 4386;
                      VStr "tier_lpddr4_id4386_ai_cpu_trace_example_ch2";
                      VStr "/home/arifh/DRAMSys/DRAMSys_tier_lpddr4_id4386_ai_cpu_trace_example_ch2.tdb";
                      VInt 2; VNone; VNone; VNone; VNone; VNone; VNone; VNone]];
        stdout := [] |}).
Proof.
  refine (process_writes_nulls no_text
            "/home/arifh/DRAMSys/DRAMSys_tier_lpddr4_id4386_ai_cpu_trace_example_ch2.tdb"
            17 NotADatabase "tier_lpddr4" (Some 4386%Z)
            (Some "tier_lpddr4_id4386_ai_cpu_trace_example_ch2") (Some 2%Z)
            (initial None) _ eq_refl (or_introl eq_refl)).
  discriminate.
Defined.

End GlobRowsSamples.

(** ** The batch of the manifest-based extractor *)

Section ManifestBatch.

Import Extractor.

Lemma dict_get_set_same : forall (V : Type) (d : dict V) k v,
  dict_get (dict_set d k v) k = Some v.
Proof.
  induction d as [|[k0 v0] d IH]; intros k v; cbn.
  - now rewrite String.eqb_refl.
  - destruct (String.eqb k0 k) eqn:E; cbn; rewrite E; [reflexivity | apply IH].
Qed.

Lemma keys_of_set : forall (V : Type) (d : dict V) k v,
  map fst (dict_set d k v)
  = if existsb (String.eqb k) (map fst d) then map fst d else map fst d ++ [k].
Proof.
  induction d as [|[k0 v0] d IH]; intros k v; cbn.
  - reflexivity.
  - rewrite (String.eqb_sym k k0). destruct (String.eqb k0 k) eqn:E; cbn.
    + reflexivity.
    + rewrite IH. now destruct (existsb (String.eqb k) (map fst d)).
Qed.

Lemma dict_set_keeps_NoDup : forall (V : Type) (d : dict V) k v,
  NoDup (map fst d) -> NoDup (map fst (dict_set d k v)).
Proof.
  intros V d k v Hnd. rewrite keys_of_set.
  destruct (existsb (String.eqb k) (map fst d)) eqn:E; [exact Hnd|].
  apply NoDup_app; [exact Hnd | repeat constructor; intros [] |].
  intros x Hin [Heq | []]. subst x.
  assert (existsb (String.eqb k) (map fst d) = true).
  { apply existsb_exists. exists k. split; [exact Hin | apply String.eqb_refl]. }
  congruence.
Qed.

Lemma add_general_info_keeps_NoDup : forall general_info m,
  NoDup (map fst m) -> NoDup (map fst (add_general_info general_info m)).
Proof.
  intros general_info m. unfold add_general_info. revert m.
  induction general_info_keys as [|key keys IH]; intros m Hm; cbn [fold_left].
  - exact Hm.
  - apply IH. destruct (dict_get general_info key); [|exact Hm].
    now apply dict_set_keeps_NoDup.
Qed.

Lemma dict_get_absent : forall (V : Type) (d : dict V) k,
  ~ In k (map fst d) -> dict_get d k = None.
Proof.
  induction d as [|[k0 v0] d IH]; cbn; intros k H.
  - reflexivity.
  - destruct (String.eqb k0 k) eqn:E.
    + apply String.eqb_eq in E. exfalso. apply H. now left.
    + apply IH. intros Hin. apply H. now right.
Qed.

(** Updating with a dict of distinct keys: its fields come first. *)
Lemma dict_get_update : forall (e d : dict value) k,
  NoDup (map fst e) ->
  dict_get (dict_update d e) k
  = match dict_get e k with
    | Some v => Some v
    | None => dict_get d k
    end.
Proof.
  unfold dict_update.
  induction e as [|[k0 v0] e IH]; intros d k Hnd; cbn [fold_left fst snd dict_get].
  - reflexivity.
  - cbn [map fst] in Hnd. inversion Hnd as [|? ? Hnotin Hnd']; subst.
    rewrite (IH _ k Hnd').
    destruct (String.eqb k0 k) eqn:E.
    + apply String.eqb_eq in E. subst k0.
      rewrite (dict_get_absent _ e k Hnotin). apply dict_get_set_same.
    + destruct (dict_get e k); [reflexivity|]. now apply dict_get_set_other.
Qed.

(** A record the reader returns bears metric fields only, each once. *)
Lemma record_keys : forall connect m,
  record_of connect = Ok m ->
  keys_within metric_fields m = true /\ NoDup (map fst m).
Proof.
  intros [cur|e] m Hm; unfold record_of in Hm.
  - destruct (extract_outcome cur) as [r [l [Hs Hcases]]].
    rewrite (Hs fresh) in Hm. cbn [fst] in Hm. subst r.
    destruct Hcases as [[e [q [Hr _]]] | [_ [lgi [_ [_ Hsplit]]]]]; [discriminate Hr|].
    destruct (two_attempts cur) as [[reads writes]|e]; [|discriminate Hsplit].
    destruct Hsplit as [Hrecord _]. destruct (Hrecord m eq_refl) as [general_info ->].
    split.
    + apply keys_within_add_general_info. reflexivity.
    + apply add_general_info_keeps_NoDup. cbn [metrics_record plain_aggregates map fst app].
      repeat (constructor;
              [cbn; intros H; repeat (destruct H as [H|H]; [discriminate H|]); exact H|]).
      constructor.
  - cbn in Hm. discriminate Hm.
Qed.

(** The reader answers the same in every world, and leaves the summary and
    the lines printed as they were. *)
Lemma extract_at : forall connect w,
  exists l,
    extract_metrics_from_db connect w
    = (record_of connect,
       {| summary := summary w; stdout := stdout w; executed := executed w ++ l |}).
Proof.
  intros connect w. destruct (extract_sends connect) as [r [l [Hs _]]].
  exists l. unfold record_of. now rewrite (Hs fresh), (Hs w).
Qed.

(** The row that [DictWriter] writes for the identifying fields updated with
    a record. *)
Lemma cells_of_update : forall row ch m,
  keys_within metric_fields m = true ->
  NoDup (map fst m) ->
  map (fun key => match dict_get
                          (dict_update
                             [("tier", VStr (tier row));
                              ("config_id", VStr (config_id row));
                              ("sim_id", VStr (sim_id_of row));
                              ("trace_name", VStr (trace_name row));
                              ("simconfig", VStr (simconfig row));
                              ("channel", VInt (Z.of_nat ch))] m) key with
                  | Some v => v
                  | None => VStr ""
                  end) fieldnames
  = cells_of row ch m.
Proof.
  intros row ch m Hkeys Hnd. unfold fieldnames, cells_of. rewrite map_app. f_equal.
  - unfold id_fields. cbn [map].
    rewrite !(dict_get_update_other m _ metric_fields) by (exact Hkeys || reflexivity).
    reflexivity.
  - apply map_ext_in. intros key Hin. rewrite (dict_get_update m _ key Hnd).
    destruct (dict_get m key); [reflexivity|].
    cbn in Hin. repeat (destruct Hin as [<- | Hin]; [reflexivity|]). contradiction.
Qed.

Lemma written_app : forall us1 us2,
  written (us1 ++ us2)
  = match written us1 with
    | (Ok _, rows1) => (fst (written us2), rows1 ++ snd (written us2))
    | (Raise e, rows1) => (Raise e, rows1)
    end.
Proof.
  induction us1 as [|u us1 IH]; intros us2; cbn [app written].
  - now destruct (written us2).
  - destruct (record_of (snd u)); [|reflexivity].
    rewrite IH. destruct (written us1) as [[[]|e] rows1]; [|reflexivity].
    now destruct (written us2).
Qed.

Lemma leaves_seq : forall (m k : io world unit) us1 us2,
  leaves m us1 -> leaves k us2 -> leaves (io_bind m (fun _ => k)) (us1 ++ us2).
Proof.
  intros m k us1 us2 Hm Hk w rows Hw.
  destruct (Hm w rows Hw) as [Hr Hs]. unfold io_bind. rewrite written_app.
  destruct (m w) as [[[]|e] w']; cbn [fst snd] in *;
    destruct (written us1) as [[[]|e1] rows1]; cbn [fst snd] in *; try discriminate Hr.
  - destruct (Hk w' (rows ++ rows1) Hs) as [Hr2 Hs2].
    split; [exact Hr2 | now rewrite Hs2, app_assoc].
  - split; [exact Hr | exact Hs].
Qed.

Lemma leaves_nothing : forall (m : io world unit),
  (forall w, fst (m w) = Ok tt /\ summary (snd (m w)) = summary w) -> leaves m [].
Proof.
  intros m H w rows Hw. destruct (H w) as [Hr Hs]. cbn [written fst snd].
  now rewrite Hr, Hs, Hw, app_nil_r.
Qed.

Lemma leaves_for_each : forall (A : Type) (xs : list A) (body : A -> io world unit) f,
  (forall x, leaves (body x) (f x)) -> leaves (for_each xs body) (flat_map f xs).
Proof.
  induction xs as [|x xs IH]; intros body f Hbody; cbn [for_each flat_map].
  - apply leaves_nothing. intros w. split; reflexivity.
  - apply leaves_seq; [apply Hbody | now apply IH].
Qed.

Lemma leaves_print : forall n, leaves (print n) [].
Proof. intros n. apply leaves_nothing. intros w. split; reflexivity. Qed.

(** One turn of the loop over the channels. *)
Lemma leaves_process_channel : forall env row ch,
  leaves (process_channel env row ch)
         (match dramsys_root env (db_name_of row ch) with
          | Some connect => [(row, ch, connect)]
          | None => []
          end).
Proof.
  intros env row ch. unfold process_channel.
  destruct (dramsys_root env (db_name_of row ch)) as [connect|].
  2:{ apply leaves_nothing. intros w. split; reflexivity. }
  intros w rows Hw. unfold io_bind at 1. unfold print, io_modify.
  match goal with
  | |- context [io_bind (extract_metrics_from_db connect) _ ?w0] =>
      destruct (extract_at connect w0) as [l Hl]; unfold io_bind; rewrite Hl
  end.
  cbn [written snd fst summary stdout executed].
  destruct (record_of connect) as [m|e] eqn:Hm.
  - destruct (record_keys connect m Hm) as [Hkeys Hnd].
    unfold writerow.
    match goal with
    | |- context [forallb ?p ?d] =>
        assert (Hall : forallb p d = true)
    end.
    { apply (keys_within_update fieldnames); [reflexivity|].
      apply (keys_within_weaken metric_fields); [apply metric_field_is_fieldname | exact Hkeys]. }
    rewrite Hall. unfold write, io_modify. cbn [fst snd summary].
    rewrite Hw, (cells_of_update row ch m Hkeys Hnd). split; reflexivity.
  - cbn [fst snd summary]. rewrite Hw, app_nil_r. split; reflexivity.
Qed.

Lemma leaves_process_manifest : forall env manifest,
  leaves (process_manifest env manifest) (flat_map (channels_of env) (snd manifest)).
Proof.
  intros env manifest. unfold process_manifest.
  apply (leaves_seq _ _ []); [apply leaves_print|].
  apply leaves_for_each. intros row. unfold process_row, channels_of.
  apply leaves_for_each. intros ch. apply leaves_process_channel.
Qed.

(** A run of [main] comes to what the run over its units comes to, under the
    header. *)
Lemma main_written : forall env w,
  manifest_files env <> [] ->
  fst (main env w) = fst (written (units env)) /\
  summary (snd (main env w)) = Some (map VStr fieldnames :: snd (written (units env))).
Proof.
  intros env w Hne. unfold main.
  destruct (manifest_files env) as [|manifest manifests] eqn:E; [contradiction|].
  rewrite <- E.
  assert (Hloop : leaves (io_bind (for_each (manifest_files env) (process_manifest env))
                            (fun _ => print Done))
                         (units env ++ [])).
  { apply leaves_seq; [|apply leaves_print].
    apply leaves_for_each. intros m. apply leaves_process_manifest. }
  rewrite app_nil_r in Hloop.
  unfold io_bind at 1 2 3. unfold print at 1, open_w, writeheader, write, io_modify.
  cbn [summary stdout executed app].
  match goal with
  | |- context [io_bind _ _ ?w0] => exact (Hloop w0 [map VStr fieldnames] eq_refl)
  end.
Qed.

Lemma written_all : forall us,
  (forall u, In u us -> exists m, record_of (snd u) = Ok m) ->
  exists rows, written us = (Ok tt, rows) /\ Forall2 is_written us rows.
Proof.
  induction us as [|u us IH]; intros Hall.
  - exists []. split; [reflexivity | constructor].
  - destruct (Hall u (or_introl eq_refl)) as [m Hm].
    destruct IH as [rows [Hrows Hw]]; [intros v Hv; apply Hall; now right|].
    exists (cells_of (fst (fst u)) (snd (fst u)) m :: rows). split.
    + cbn [written]. now rewrite Hm, Hrows.
    + constructor; [|exact Hw]. now exists m.
Qed.

Lemma written_until : forall before u after e,
  (forall v, In v before -> exists m, record_of (snd v) = Ok m) ->
  record_of (snd u) = Raise e ->
  exists rows, written (before ++ u :: after) = (Raise e, rows)
               /\ Forall2 is_written before rows.
Proof.
  intros before u after e Hall He.
  destruct (written_all before Hall) as [rows [Hrows Hw]].
  exists rows. split; [|exact Hw].
  rewrite written_app, Hrows. cbn [written]. rewrite He. cbn [fst snd].
  now rewrite app_nil_r.
Qed.




(** X10. The first database on which the reader raises ends the run with
    that exception: the summary keeps the header and the rows of the units
    met before, and no unit after it is read, whatever it holds. *)
Theorem main_stops_at_first_failure : forall env before u after e,
  units env = before ++ u :: after ->
  (forall v, In v before -> exists m, record_of (snd v) = Ok m) ->
  record_of (snd u) = Raise e ->
  exists rows,
    Forall2 is_written before rows
    /\ forall w,
         fst (main env w) = Raise e
         /\ summary (snd (main env w)) = Some (map VStr fieldnames :: rows).
Proof.
  intros env before u after e Hunits Hall He.
  assert (Hne : manifest_files env <> []).
  { intros Hnil. unfold units in Hunits. rewrite Hnil in Hunits.
    destruct before; discriminate Hunits. }
  destruct (written_until before u after e Hall He) as [rows [Hrows Hw]].
  exists rows. split; [exact Hw|].
  intros w. destruct (main_written env w Hne) as [Hr Hs].
  rewrite Hunits, Hrows in Hr, Hs. split; [exact Hr | exact Hs].
Qed.


Lemma for_each_ext : forall (S A : Type) (xs : list A) (f g : A -> io S unit),
  (forall x, In x xs -> forall st, f x st = g x st) ->
  forall st, for_each xs f st = for_each xs g st.
Proof.
  induction xs as [|x xs IH]; intros f g H st; [reflexivity|].
  cbn [for_each]. unfold io_bind. rewrite (H x (or_introl eq_refl)).
  destruct (g x st) as [[[]|e] st']; [|reflexivity].
  apply IH. intros y Hy. apply H. now right.
Qed.

Lemma io_bind_ext : forall (S A B : Type) (m m' : io S A) (k k' : A -> io S B),
  (forall st, m st = m' st) -> (forall a st, k a st = k' a st) ->
  forall st, io_bind m k st = io_bind m' k' st.
Proof.
  intros S A B m m' k k' Hm Hk st. unfold io_bind. rewrite Hm.
  destruct (m' st) as [[a|e] st']; [apply Hk | reflexivity].
Qed.

(** X19. A run reads the manifests and, of the DRAMSys root, the files named
    after a row and a channel from 0 to 3, and nothing else: two
    environments that agree on these give the same run. *)
Theorem main_reads_expected_files_only : forall env env',
  results_root env = results_root env' ->
  manifest_files env = manifest_files env' ->
  (forall manifest row ch,
     In manifest (manifest_files env) -> In row (snd manifest) -> ch < 4 ->
     dramsys_root env (db_name_of row ch) = dramsys_root env' (db_name_of row ch)) ->
  forall w, main env w = main env' w.
Proof.
  intros env env' Hroot Hfiles Hsame w. unfold main. rewrite <- Hfiles, <- Hroot.
  destruct (manifest_files env) as [|manifest manifests] eqn:E; [reflexivity|].
  rewrite <- E in *.
  assert (Hloop : forall st,
            for_each (manifest_files env) (process_manifest env) st
            = for_each (manifest_files env) (process_manifest env') st).
  { apply for_each_ext. intros m Hm st. unfold process_manifest.
    apply io_bind_ext; [reflexivity | intros _].
    apply for_each_ext. intros row Hrow. unfold process_row.
    apply for_each_ext. intros ch Hch st3. unfold process_channel.
    rewrite (Hsame m row ch Hm Hrow); [reflexivity|].
    apply in_seq in Hch. lia. }
  unfold io_bind.
  destruct (print WritingMetrics w) as [[[]|e] w1]; [|reflexivity].
  destruct (open_w w1) as [[[]|e] w2]; [|reflexivity].
  destruct (writeheader w2) as [[[]|e] w3]; [|reflexivity].
  now rewrite Hloop.
Qed.

(** *** The lines printed *)

Lemma attempted_app : forall us1 us2,
  attempted (us1 ++ us2)
  = match fst (written us1) with
    | Ok _ => attempted us1 ++ attempted us2
    | Raise _ => attempted us1
    end.
Proof.
  induction us1 as [|u us1 IH]; intros us2; cbn [app attempted written].
  - reflexivity.
  - destruct (record_of (snd u)); [|reflexivity].
    rewrite IH. destruct (written us1) as [[[]|e] rows]; reflexivity.
Qed.

Lemma prints_seq : forall (m k : io world unit) us1 us2,
  prints m us1 -> prints k us2 -> prints (io_bind m (fun _ => k)) (us1 ++ us2).
Proof.
  intros m k us1 us2 Hm Hk w.
  destruct (Hm w) as [p1 [Hout [Hlines [Hres Hlast]]]].
  unfold io_bind. rewrite attempted_app, written_app.
  destruct (m w) as [[[]|e] w1]; cbn [fst snd] in *;
    destruct (written us1) as [[[]|e1] rows1]; cbn [fst snd] in *; try discriminate Hres.
  - destruct (Hk w1) as [p2 [Hout2 [Hlines2 [Hres2 Hlast2]]]].
    exists (p1 ++ p2). split; [now rewrite Hout2, Hout, app_assoc|].
    split; [now rewrite filter_app, Hlines, Hlines2, map_app|].
    split; [exact Hres2|].
    intros e He. destruct (Hlast2 e He) as [before [n [-> Hn]]].
    exists (p1 ++ before), n. split; [now rewrite app_assoc | exact Hn].
  - exists p1. split; [exact Hout|]. split; [exact Hlines|]. split; [exact Hres|].
    exact Hlast.
Qed.

Lemma prints_quiet : forall (m : io world unit) printed,
  (forall w, fst (m w) = Ok tt /\ stdout (snd (m w)) = stdout w ++ printed) ->
  filter is_extracting printed = [] ->
  prints m [].
Proof.
  intros m printed H Hquiet w. destruct (H w) as [Hr Hs].
  exists printed. split; [exact Hs|]. split; [exact Hquiet|]. split; [exact Hr|].
  intros e He. rewrite Hr in He. discriminate He.
Qed.

Lemma prints_for_each : forall (A : Type) (xs : list A) (body : A -> io world unit) f,
  (forall x, prints (body x) (f x)) -> prints (for_each xs body) (flat_map f xs).
Proof.
  induction xs as [|x xs IH]; intros body f Hbody; cbn [for_each flat_map].
  - apply (prints_quiet _ []); [|reflexivity].
    intros w. split; [reflexivity|]. cbn. now rewrite app_nil_r.
  - apply prints_seq; [apply Hbody | now apply IH].
Qed.

Lemma prints_process_channel : forall env row ch,
  prints (process_channel env row ch)
         (match dramsys_root env (db_name_of row ch) with
          | Some connect => [(row, ch, connect)]
          | None => []
          end).
Proof.
  intros env row ch. unfold process_channel.
  destruct (dramsys_root env (db_name_of row ch)) as [connect|].
  2:{ apply (prints_quiet _ []); [|reflexivity].
      intros w. split; [reflexivity|]. cbn. now rewrite app_nil_r. }
  intros w. exists [Extracting (sim_id_of row) ch (db_name_of row ch)].
  unfold io_bind at 1. unfold print, io_modify.
  match goal with
  | |- context [io_bind (extract_metrics_from_db connect) _ ?w0] =>
      destruct (extract_at connect w0) as [l Hl]; unfold io_bind; rewrite Hl
  end.
  cbn [attempted written snd fst summary stdout executed].
  destruct (record_of connect) as [m|e] eqn:Hm.
  - destruct (record_keys connect m Hm) as [Hkeys Hnd].
    unfold writerow.
    match goal with
    | |- context [forallb ?p ?d] => assert (Hall : forallb p d = true)
    end.
    { apply (keys_within_update fieldnames); [reflexivity|].
      apply (keys_within_weaken metric_fields); [apply metric_field_is_fieldname | exact Hkeys]. }
    rewrite Hall. unfold write, io_modify. cbn [fst snd stdout].
    repeat split. intros e He. discriminate He.
  - cbn [fst snd stdout]. repeat split.
    intros e' _. now exists [], (Extracting (sim_id_of row) ch (db_name_of row ch)).
Qed.

Lemma prints_process_manifest : forall env manifest,
  prints (process_manifest env manifest) (flat_map (channels_of env) (snd manifest)).
Proof.
  intros env manifest. unfold process_manifest.
  apply (prints_seq _ _ []).
  - apply (prints_quiet _ [ProcessingManifest (fst manifest)]); [|reflexivity].
    intros w. split; reflexivity.
  - apply prints_for_each. intros row. unfold process_row, channels_of.
    apply prints_for_each. intros ch. apply prints_process_channel.
Qed.

(** What [main] prints after its first line, up to the end of the loop. *)
Lemma main_prints : forall env w,
  manifest_files env <> [] ->
  exists printed,
    filter is_extracting printed = map notice_of (attempted (units env))
    /\ match fst (written (units env)) with
       | Ok _ =>
           fst (main env w) = Ok tt
           /\ stdout (snd (main env w)) = stdout w ++ WritingMetrics :: printed ++ [Done]
       | Raise e =>
           fst (main env w) = Raise e
           /\ stdout (snd (main env w)) = stdout w ++ WritingMetrics :: printed
           /\ exists before n, printed = before ++ [n] /\ is_extracting n = true
       end.
Proof.
  intros env w Hne.
  set (w0 := {| summary := Some [map VStr fieldnames];
                stdout := stdout w ++ [WritingMetrics];
                executed := executed w |}).
  assert (Hmain : main env w
                  = match for_each (manifest_files env) (process_manifest env) w0 with
                    | (Ok _, w1) => print Done w1
                    | (Raise e, w1) => (Raise e, w1)
                    end).
  { unfold main. destruct (manifest_files env); [contradiction | reflexivity]. }
  assert (Hloop : prints (for_each (manifest_files env) (process_manifest env)) (units env)).
  { apply prints_for_each. intros m. apply prints_process_manifest. }
  rewrite Hmain.
  destruct (Hloop w0) as [printed [Hout [Hlines [Hres Hlast]]]].
  exists printed. split; [exact Hlines|]. rewrite <- Hres.
  destruct (for_each (manifest_files env) (process_manifest env) w0) as [[[]|e] w1];
    cbn [fst snd stdout] in *.
  - split; [reflexivity|]. unfold print, io_modify. cbn [snd stdout].
    rewrite Hout. cbn [w0 stdout]. now rewrite <- !app_assoc.
  - split; [reflexivity|]. split; [|exact (Hlast e eq_refl)].
    rewrite Hout. cbn [w0 stdout]. now rewrite <- app_assoc.
Qed.

Lemma attempted_all : forall us,
  (forall u, In u us -> exists m, record_of (snd u) = Ok m) -> attempted us = us.
Proof.
  induction us as [|u us IH]; intros Hall; [reflexivity|].
  cbn [attempted]. destruct (Hall u (or_introl eq_refl)) as [m ->].
  f_equal. apply IH. intros v Hv. apply Hall. now right.
Qed.

Lemma attempted_until : forall before u after e,
  (forall v, In v before -> exists m, record_of (snd v) = Ok m) ->
  record_of (snd u) = Raise e ->
  attempted (before ++ u :: after) = before ++ [u].
Proof.
  intros before u after e Hall He.
  destruct (written_all before Hall) as [rows [Hrows _]].
  rewrite attempted_app, Hrows. cbn [fst attempted]. rewrite He.
  now rewrite (attempted_all before Hall).
Qed.

Lemma filter_last : forall (A : Type) (p : A -> bool) (l : list A) (x : A),
  p x = true -> filter p (l ++ [x]) = filter p l ++ [x].
Proof. intros A p l x H. rewrite filter_app. cbn. now rewrite H. Qed.


(** X22. When the reader raises on a database, the last line printed is the
    line of this database, after those of the units read before it: the
    console tells where the run stopped, and [Done.] is not its last
    line. *)
Theorem main_names_the_failing_database : forall env w before u after e,
  units env = before ++ u :: after ->
  (forall v, In v before -> exists m, record_of (snd v) = Ok m) ->
  record_of (snd u) = Raise e ->
  exists printed,
    stdout (snd (main env w)) = stdout w ++ WritingMetrics :: printed ++ [notice_of u]
    /\ filter is_extracting printed = map notice_of before.
Proof.
  intros env w before u after e Hunits Hall He.
  assert (Hne : manifest_files env <> []).
  { intros Hnil. unfold units in Hunits. rewrite Hnil in Hunits.
    destruct before; discriminate Hunits. }
  destruct (main_prints env w Hne) as [printed [Hlines Hcase]].
  destruct (written_until before u after e Hall He) as [rows [Hrows _]].
  rewrite Hunits, Hrows in Hcase. cbn [fst] in Hcase.
  destruct Hcase as [_ [Hout [pre [n [-> Hn]]]]].
  rewrite Hunits, (attempted_until before u after e Hall He) in Hlines.
  rewrite (filter_last _ _ pre n Hn), map_app in Hlines. cbn [map] in Hlines.
  apply app_inj_tail in Hlines. destruct Hlines as [Hpre ->].
  exists pre. split; [exact Hout | exact Hpre].
Qed.

End ManifestBatch.

Section ManifestBatchSamples.

Import Extractor Samples.


(** Two runs, the database of the first one without the [Power] table. *)
Lemma main_stops_at_first_failure_witness :
  exists rows,
    Forall2 is_written [] rows
    /\ forall w,
         fst (main (two_runs (run_database_without "Power")) w) = Raise OperationalError
         /\ summary (snd (main (two_runs (run_database_without "Power")) w))
            = Some (map VStr fieldnames :: rows).
Proof.
  refine (main_stops_at_first_failure (two_runs (run_database_without "Power")) []
            (example_row, 0, Ok (cursor_of no_text (run_database_without "Power")))
            [(second_row, 0, Ok (cursor_of no_text run_database))]
            OperationalError _ _ _).
  - reflexivity.
  - intros v [].
  - reflexivity.
Defined.


(** A database for channel 4 is never looked at. *)
Lemma main_reads_expected_files_only_witness :
  main (channel_0_only run_database) fresh = main channels_0_and_4 fresh.
Proof.
  refine (main_reads_expected_files_only (channel_0_only run_database) channels_0_and_4
            eq_refl eq_refl _ fresh).
  intros manifest row ch [<- | []] [<- | []] Hch.
  destruct ch as [|[|[|[|ch]]]]; try reflexivity. lia.
Defined.


(** The first database lacks the [Power] table: its line is the last. *)
Lemma main_names_the_failing_database_witness :
  exists printed,
    stdout (snd (main (two_runs (run_database_without "Power")) fresh))
    = stdout fresh ++ WritingMetrics :: printed
      ++ [Extracting "lpddr4_id4386_ai_cpu_trace_example" 0
            "DRAMSys_lpddr4_id4386_ai_cpu_trace_example_ddr4_ch0.tdb"]
    /\ filter is_extracting printed = map notice_of [].
Proof.
  refine (main_names_the_failing_database (two_runs (run_database_without "Power")) fresh []
            (example_row, 0, Ok (cursor_of no_text (run_database_without "Power")))
            [(second_row, 0, Ok (cursor_of no_text run_database))]
            OperationalError _ _ _).
  - reflexivity.
  - intros v [].
  - reflexivity.
Defined.

End ManifestBatchSamples.

(** ** The named-metric reader on the tables of a database *)

Section ReaderOnTables.

Import Extractor.

Variable text_as_real : string -> Q.

Local Abbreviation opened conn := (cursor_of text_as_real conn).

Lemma sends_general_info_of : forall cur,
  exists l,
    sends
      (io_bind (cur_execute cur (SelectStar "GeneralInfo")) (fun gi_rows =>
         match fetchone gi_rows with
         | None => io_ret []
         | Some gi =>
             io_bind (cur_table_info cur "GeneralInfo") (fun infos =>
             io_ret (dict_update [] (combine (map name infos) gi)))
         end))
      (general_info_of cur) l.
Proof.
  intros cur. unfold general_info_of.
  pose proof (sends_execute cur (SelectStar "GeneralInfo")) as Hstar.
  pose proof (sends_table_info cur "GeneralInfo") as Hinfo.
  destruct (execute cur (SelectStar "GeneralInfo")) as [[|gi rest]|e]; cbn [bind fetchone hd_error].
  - eexists. eapply sends_bind; [exact Hstar|]. apply sends_ret.
  - destruct (table_info cur "GeneralInfo") as [infos|e]; cbn [bind].
    + eexists. eapply sends_bind; [exact Hstar|]. cbn [fetchone hd_error].
      eapply sends_bind; [exact Hinfo|]. apply sends_ret.
    + eexists. eapply sends_bind; [exact Hstar|]. cbn [fetchone hd_error].
      apply sends_bind_raise. exact Hinfo.
  - eexists. apply sends_bind_raise. exact Hstar.
Qed.

Ltac plain_answered cur q S E H :=
  pose proof (sends_safe_single_value cur q) as S;
  destruct (execute cur q) as [?rows|?e] eqn:E;
  [| exfalso; destruct (H q) as [? ?Hx];
     [cbn; repeat (first [left; reflexivity | right]) | congruence]].

(** The record of a run in which the eight aggregates and the read/write
    split answer. *)
Lemma extract_answer : forall cur reads writes,
  (forall q, In q (map snd plain_aggregates) -> exists rows, execute cur q = Ok rows) ->
  two_attempts cur = Ok (reads, writes) ->
  record_of (Ok cur)
  = match general_info_of cur with
    | Ok general_info => Ok (add_general_info general_info (metrics_record cur reads writes))
    | Raise e => Raise e
    end.
Proof.
  intros cur reads writes Hplain Htwo.
  assert (Hrecord : metrics_record cur reads writes
            = [("avg_bw_Gbps",
                value_of cur (Select [Avg "AverageBandwidth"] "Bandwidth" None));
               ("max_bw_Gbps",
                value_of cur (Select [Max "AverageBandwidth"] "Bandwidth" None));
               ("sim_time_units", value_of cur (Select [Max "Time"] "Bandwidth" None));
               ("avg_power_W", value_of cur (Select [Avg "AveragePower"] "Power" None));
               ("max_power_W", value_of cur (Select [Max "AveragePower"] "Power" None));
               ("avg_buf_depth",
                value_of cur (Select [Avg "AverageBufferDepth"] "BufferDepth" None));
               ("max_buf_depth",
                value_of cur (Select [Max "AverageBufferDepth"] "BufferDepth" None));
               ("total_transactions",
                value_of cur (Select [CountStar] "Transactions" None));
               ("read_transactions", reads); ("write_transactions", writes)])
    by reflexivity.
  rewrite Hrecord. unfold value_of, record_of, extract_metrics_from_db.
  plain_answered cur (Select [Avg "AverageBandwidth"] "Bandwidth" None) S1 E1 Hplain.
  plain_answered cur (Select [Max "AverageBandwidth"] "Bandwidth" None) S2 E2 Hplain.
  plain_answered cur (Select [Max "Time"] "Bandwidth" None) S3 E3 Hplain.
  plain_answered cur (Select [Avg "AveragePower"] "Power" None) S4 E4 Hplain.
  plain_answered cur (Select [Max "AveragePower"] "Power" None) S5 E5 Hplain.
  plain_answered cur (Select [Avg "AverageBufferDepth"] "BufferDepth" None) S6 E6 Hplain.
  plain_answered cur (Select [Max "AverageBufferDepth"] "BufferDepth" None) S7 E7 Hplain.
  plain_answered cur (Select [CountStar] "Transactions" None) S8 E8 Hplain.
  pose proof (sends_split cur) as Hsplit. rewrite Htwo in Hsplit.
  destruct (sends_general_info_of cur) as [lgi Hgi].
  destruct (general_info_of cur) as [general_info|e].
  - match goal with
    | |- fst (?m fresh) = ?r =>
        assert (Hs : exists l, sends m r l); [|destruct Hs as [l Hs]; now rewrite (Hs fresh)]
    end.
    eexists. eapply sends_bind; [apply sends_lift|].
    repeat (eapply sends_bind; [eassumption|]).
    apply sends_assoc. eapply sends_bind; [exact Hgi|]. apply sends_ret.
  - match goal with
    | |- fst (?m fresh) = ?r =>
        assert (Hs : exists l, sends m r l); [|destruct Hs as [l Hs]; now rewrite (Hs fresh)]
    end.
    eexists. eapply sends_bind; [apply sends_lift|].
    repeat (eapply sends_bind; [eassumption|]).
    apply sends_assoc. apply sends_bind_raise. exact Hgi.
Qed.

(** A record is returned only when the eight aggregates, the read/write
    split and the reading of [GeneralInfo] answer. *)
Lemma record_inv : forall cur m,
  record_of (Ok cur) = Ok m ->
  (forall q, In q (map snd plain_aggregates) -> exists rows, execute cur q = Ok rows)
  /\ exists reads writes general_info,
       two_attempts cur = Ok (reads, writes)
       /\ general_info_of cur = Ok general_info
       /\ m = add_general_info general_info (metrics_record cur reads writes).
Proof.
  intros cur m Hm.
  destruct (extract_outcome cur) as [r [l [Hs Hcases]]].
  assert (Hr : r = Ok m).
  { unfold record_of in Hm. now rewrite (Hs fresh) in Hm. }
  subst r.
  destruct Hcases as [[e [q [Hr _]]] | [Hplain [lgi [_ [_ Hsplit]]]]]; [discriminate Hr|].
  assert (Hplain' : forall q, In q (map snd plain_aggregates) ->
                      exists rows, execute cur q = Ok rows).
  { intros q Hq. apply in_map_iff in Hq. destruct Hq as [kq [<- Hkq]]. now apply Hplain. }
  split; [exact Hplain'|].
  destruct (two_attempts cur) as [[reads writes]|e] eqn:Htwo; [|discriminate Hsplit].
  rewrite (extract_answer cur reads writes Hplain' Htwo) in Hm.
  destruct (general_info_of cur) as [general_info|e]; [|discriminate Hm].
  exists reads, writes, general_info. injection Hm as <-. auto.
Qed.

Lemma run_aggregates_raises : forall tb rows what e,
  run_aggregates text_as_real tb rows what = Raise e -> e = OperationalError.
Proof.
  induction what as [|a what IH]; intros e H; cbn in H; [discriminate H|].
  destruct (run_aggregate text_as_real tb rows a) as [v|e'] eqn:Ea; cbn in H.
  - destruct (run_aggregates text_as_real tb rows what) as [vs|e'']; cbn in H;
      [discriminate H|]. injection H as <-. now apply IH.
  - injection H as <-. destruct a; cbn in Ea;
      try (destruct (column_index (t_columns tb) column)); congruence.
Qed.

(** On a database file the engine raises [OperationalError] and nothing
    else. *)
Lemma run_raises : forall tables q e,
  run text_as_real (Database tables) q = Raise e -> e = OperationalError.
Proof.
  intros tables [what from where_|from|t] e H; cbn in H.
  - destruct what as [|a what]; [congruence|].
    destruct (find_table tables from) as [tb|]; [|congruence].
    destruct (run_where tb where_) as [rows|e'] eqn:Ew; cbn [bind] in H.
    + destruct (run_aggregates text_as_real tb rows (a :: what)) as [r|e''] eqn:Ea;
        cbn [bind] in H; [discriminate H|].
      injection H as <-. now apply (run_aggregates_raises tb rows (a :: what)).
    + injection H as <-. destruct where_ as [[c pre|c texts]|]; cbn in Ew;
        try (destruct (column_index (t_columns tb) c)); congruence.
  - destruct (find_table tables from); congruence.
  - destruct (find_table tables t); congruence.
Qed.

Lemma attempt_raises : forall tables q1 q2 e,
  attempt (opened (Database tables)) q1 q2 = Raise e -> e = OperationalError.
Proof.
  intros tables q1 q2 e H. unfold attempt in H. cbn [cursor_of execute] in H.
  destruct (run text_as_real (Database tables) q1) as [r1|e1] eqn:E1; cbn [bind] in H.
  - destruct (run text_as_real (Database tables) q2) as [r2|e2] eqn:E2; cbn [bind] in H;
      [discriminate H|]. injection H as <-. now apply (run_raises tables q2).
  - injection H as <-. now apply (run_raises tables q1).
Qed.

Lemma general_info_raises : forall tables e,
  general_info_of (opened (Database tables)) = Raise e -> e = OperationalError.
Proof.
  intros tables e H. unfold general_info_of in H. cbn [cursor_of execute table_info] in H.
  destruct (run text_as_real (Database tables) (SelectStar "GeneralInfo")) as [rows|e'] eqn:E;
    cbn [bind] in H.
  - destruct (fetchone rows); [|discriminate H].
    unfold run_table_info in H. destruct (find_table tables "GeneralInfo"); discriminate H.
  - injection H as <-. now apply (run_raises tables _ _ E).
Qed.

(** On a database file the reader raises [OperationalError] and nothing
    else. *)
Lemma record_raises : forall tables e,
  record_of (Ok (opened (Database tables))) = Raise e -> e = OperationalError.
Proof.
  intros tables e Hr.
  set (cur := opened (Database tables)) in *.
  destruct (extract_outcome cur) as [r [l [Hs Hcases]]].
  assert (Hrr : r = Raise e).
  { unfold record_of in Hr. now rewrite (Hs fresh) in Hr. }
  subst r.
  destruct Hcases as [[e' [q [He [_ [Hq _]]]]] | [Hplain [lgi [_ [_ Hsplit]]]]].
  - injection He as <-. apply (run_raises tables q e). exact Hq.
  - assert (Hplain' : forall q, In q (map snd plain_aggregates) ->
                        exists rows, execute cur q = Ok rows).
    { intros q Hq. apply in_map_iff in Hq. destruct Hq as [kq [<- Hkq]]. now apply Hplain. }
    destruct (two_attempts cur) as [[reads writes]|e'] eqn:Htwo.
    + rewrite (extract_answer cur reads writes Hplain' Htwo) in Hr.
      destruct (general_info_of cur) as [gi|e'] eqn:Hgi; [discriminate Hr|].
      injection Hr as <-. now apply (general_info_raises tables).
    + injection Hsplit as <-. unfold two_attempts in Htwo.
      destruct (structural_failure (attempt cur like_read like_write));
        now apply attempt_raises in Htwo.
Qed.

End ReaderOnTables.

Section CompleteDatabase.

Import Extractor.

Variable text_as_real : string -> Q.

Local Abbreviation opened conn := (cursor_of text_as_real conn).

Lemma single_value_cell : forall v, single_value [[v]] = v.
Proof. now intros []. Qed.

Lemma length_filter_map : forall (A B : Type) (f : A -> B) (p : B -> bool) (l : list A),
  List.length (filter (fun x => p (f x)) l) = List.length (filter p (map f l)).
Proof.
  induction l as [|x l IH]; cbn; [reflexivity|].
  destruct (p (f x)); cbn; now rewrite IH.
Qed.

(** The [GeneralInfo] fields go after the ten metrics, in the order of the
    allow list; a key that [GeneralInfo] lacks adds nothing. *)
Lemma add_general_info_shape : forall general_info v1 v2 v3 v4 v5 v6 v7 v8 v9 v10,
  add_general_info general_info
    [("avg_bw_Gbps", v1); ("max_bw_Gbps", v2); ("sim_time_units", v3);
     ("avg_power_W", v4); ("max_power_W", v5); ("avg_buf_depth", v6);
     ("max_buf_depth", v7); ("total_transactions", v8); ("read_transactions", v9);
     ("write_transactions", v10)]
  = [("avg_bw_Gbps", v1); ("max_bw_Gbps", v2); ("sim_time_units", v3);
     ("avg_power_W", v4); ("max_power_W", v5); ("avg_buf_depth", v6);
     ("max_buf_depth", v7); ("total_transactions", v8); ("read_transactions", v9);
     ("write_transactions", v10)]
    ++ general_info_fields general_info.
Proof.
  intros general_info v1 v2 v3 v4 v5 v6 v7 v8 v9 v10.
  unfold add_general_info, general_info_fields, general_info_keys.
  cbn [fold_left flat_map].
  destruct (dict_get general_info "clk");
    destruct (dict_get general_info "UnitOfTime");
    destruct (dict_get general_info "MCconfig");
    destruct (dict_get general_info "Memspec");
    destruct (dict_get general_info "Traces"); reflexivity.
Qed.

Ltac answer F C :=
  repeat match goal with c := cursor_of _ _ |- _ => unfold c end;
  cbn [cursor_of execute run]; rewrite F;
  cbn [run_where bind run_aggregates run_aggregate]; rewrite ?C; reflexivity.

(** On a complete database the reader returns the record that the tables
    determine. *)
Lemma complete_record : forall tables,
  is_complete tables = true ->
  record_of (Ok (opened (Database tables))) = Ok (record_from_tables text_as_real tables).
Proof.
  intros tables H. unfold is_complete, named_columns in H. cbn [forallb fst snd] in H.
  apply andb_true_iff in H. destruct H as [Hbw H].
  apply andb_true_iff in H. destruct H as [Hpw H].
  apply andb_true_iff in H. destruct H as [Hbd H].
  apply andb_true_iff in H. destruct H as [Htx H].
  apply andb_true_iff in H. destruct H as [Hgi _].
  unfold has_columns in Hbw, Hpw, Hbd, Htx, Hgi. cbn [forallb] in Hbw, Hpw, Hbd, Htx, Hgi.
  destruct (find_table tables "Bandwidth") as [bw|] eqn:Fbw; [|discriminate Hbw].
  destruct (column_index (t_columns bw) "AverageBandwidth") as [i1|] eqn:C1;
    [|discriminate Hbw].
  destruct (column_index (t_columns bw) "Time") as [i2|] eqn:C2; [|discriminate Hbw].
  destruct (find_table tables "Power") as [pw|] eqn:Fpw; [|discriminate Hpw].
  destruct (column_index (t_columns pw) "AveragePower") as [i3|] eqn:C3; [|discriminate Hpw].
  destruct (find_table tables "BufferDepth") as [bd|] eqn:Fbd; [|discriminate Hbd].
  destruct (column_index (t_columns bd) "AverageBufferDepth") as [i4|] eqn:C4;
    [|discriminate Hbd].
  destruct (find_table tables "Transactions") as [tx|] eqn:Ftx; [|discriminate Htx].
  destruct (column_index (t_columns tx) "Command") as [i5|] eqn:C5; [|discriminate Htx].
  destruct (find_table tables "GeneralInfo") as [info|] eqn:Fgi; [|discriminate Hgi].
  clear Hbw Hpw Hbd Htx Hgi.
  set (cur := opened (Database tables)).
  assert (E1 : execute cur (Select [Avg "AverageBandwidth"] "Bandwidth" None)
               = Ok [[sql_avg text_as_real (column_cells i1 (t_rows bw))]]) by answer Fbw C1.
  assert (E2 : execute cur (Select [Max "AverageBandwidth"] "Bandwidth" None)
               = Ok [[sql_max text_as_real (column_cells i1 (t_rows bw))]]) by answer Fbw C1.
  assert (E3 : execute cur (Select [Max "Time"] "Bandwidth" None)
               = Ok [[sql_max text_as_real (column_cells i2 (t_rows bw))]]) by answer Fbw C2.
  assert (E4 : execute cur (Select [Avg "AveragePower"] "Power" None)
               = Ok [[sql_avg text_as_real (column_cells i3 (t_rows pw))]]) by answer Fpw C3.
  assert (E5 : execute cur (Select [Max "AveragePower"] "Power" None)
               = Ok [[sql_max text_as_real (column_cells i3 (t_rows pw))]]) by answer Fpw C3.
  assert (E6 : execute cur (Select [Avg "AverageBufferDepth"] "BufferDepth" None)
               = Ok [[sql_avg text_as_real (column_cells i4 (t_rows bd))]]) by answer Fbd C4.
  assert (E7 : execute cur (Select [Max "AverageBufferDepth"] "BufferDepth" None)
               = Ok [[sql_max text_as_real (column_cells i4 (t_rows bd))]]) by answer Fbd C4.
  assert (E8 : execute cur (Select [CountStar] "Transactions" None)
               = Ok [[VInt (Z.of_nat (List.length (t_rows tx)))]]) by answer Ftx C5.
  assert (Er : execute cur like_read
               = Ok [[VInt (Z.of_nat (List.length
                        (filter (fun r => like_prefix "READ" (cell i5 r)) (t_rows tx))))]])
    by (unfold like_read; answer Ftx C5).
  assert (Ew : execute cur like_write
               = Ok [[VInt (Z.of_nat (List.length
                        (filter (fun r => like_prefix "WRITE" (cell i5 r)) (t_rows tx))))]])
    by (unfold like_write; answer Ftx C5).
  assert (Hplain : forall q, In q (map snd plain_aggregates) ->
                     exists rows, execute cur q = Ok rows).
  { intros q Hq. cbn in Hq.
    repeat (destruct Hq as [<- | Hq]; [eexists; eassumption|]). contradiction. }
  assert (Htwo : two_attempts cur
                 = Ok (VInt (Z.of_nat (List.length
                         (filter (fun r => like_prefix "READ" (cell i5 r)) (t_rows tx)))),
                       VInt (Z.of_nat (List.length
                         (filter (fun r => like_prefix "WRITE" (cell i5 r)) (t_rows tx)))))).
  { unfold two_attempts, attempt. rewrite Er, Ew. reflexivity. }
  assert (Hinfo : general_info_of cur = Ok (general_info_row tables)).
  { unfold general_info_of, general_info_row.
    cbn [cur cursor_of execute table_info run run_table_info]. rewrite Fgi. cbn [bind].
    destruct (t_rows info) as [|r rs]; cbn [fetchone hd_error bind]; [reflexivity|].
    now rewrite names_of_column_infos. }
  rewrite (extract_answer cur _ _ Hplain Htwo), Hinfo. f_equal.
  unfold metrics_record, plain_aggregates, value_of. cbn [map fst snd app].
  rewrite E1, E2, E3, E4, E5, E6, E7, E8, !single_value_cell.
  rewrite add_general_info_shape.
  unfold record_from_tables, cells_named, rows_named.
  rewrite Fbw, Fpw, Fbd, Ftx, C1, C2, C3, C4, C5.
  unfold column_cells. now rewrite <- !length_filter_map.
Qed.

(** The reader returns a record only on a complete database. *)
Lemma record_complete : forall tables m,
  record_of (Ok (opened (Database tables))) = Ok m -> is_complete tables = true.
Proof.
  intros tables m Hm.
  destruct (record_inv _ _ Hm) as [Hplain [reads [writes [general_info [Htwo [Hinfo _]]]]]].
  set (cur := opened (Database tables)) in *.
  destruct (Hplain (Select [Avg "AverageBandwidth"] "Bandwidth" None)) as [r1 R1];
    [cbn; tauto|].
  destruct (Hplain (Select [Max "Time"] "Bandwidth" None)) as [r3 R3]; [cbn; tauto|].
  destruct (Hplain (Select [Avg "AveragePower"] "Power" None)) as [r4 R4]; [cbn; tauto|].
  destruct (Hplain (Select [Avg "AverageBufferDepth"] "BufferDepth" None)) as [r6 R6];
    [cbn; tauto|].
  assert (Hcommand : exists q rows,
            (q = like_read \/ q = in_read) /\ execute cur q = Ok rows).
  { unfold two_attempts, attempt in Htwo.
    destruct (structural_failure _).
    - destruct (execute cur in_read) as [rows|e] eqn:E; [|discriminate Htwo].
      exists in_read, rows. auto.
    - destruct (execute cur like_read) as [rows|e] eqn:E; [|discriminate Htwo].
      exists like_read, rows. auto. }
  destruct Hcommand as [q [r9 [Hq R9]]].
  assert (Hstar : exists rows, execute cur (SelectStar "GeneralInfo") = Ok rows).
  { unfold general_info_of in Hinfo.
    destruct (execute cur (SelectStar "GeneralInfo")) as [rows|e]; [eauto | discriminate Hinfo]. }
  destruct Hstar as [r10 R10].
  unfold cur in R1, R3, R4, R6, R9, R10.
  cbn [cursor_of execute run] in R1, R3, R4, R6, R10.
  destruct (find_table tables "Bandwidth") as [bw|] eqn:Fbw; [|discriminate R1].
  destruct (find_table tables "Power") as [pw|] eqn:Fpw; [|discriminate R4].
  destruct (find_table tables "BufferDepth") as [bd|] eqn:Fbd; [|discriminate R6].
  destruct (find_table tables "GeneralInfo") as [info|] eqn:Fgi; [|discriminate R10].
  cbn [run_where bind run_aggregates run_aggregate] in R1, R3, R4, R6.
  destruct (column_index (t_columns bw) "AverageBandwidth") as [i1|] eqn:C1;
    [|discriminate R1].
  destruct (column_index (t_columns bw) "Time") as [i2|] eqn:C2; [|discriminate R3].
  destruct (column_index (t_columns pw) "AveragePower") as [i3|] eqn:C3; [|discriminate R4].
  destruct (column_index (t_columns bd) "AverageBufferDepth") as [i4|] eqn:C4;
    [|discriminate R6].
  assert (Htx : has_columns tables "Transactions" ["Command"] = true).
  { unfold has_columns. destruct Hq as [-> | ->];
      unfold like_read, in_read in R9; cbn [cursor_of execute run] in R9;
      (destruct (find_table tables "Transactions") as [tx|]; [|discriminate R9]);
      cbn [run_where bind] in R9;
      (destruct (column_index (t_columns tx) "Command") eqn:C5;
         [cbn [forallb]; now rewrite C5 | discriminate R9]). }
  unfold is_complete, named_columns. cbn [forallb fst snd]. rewrite Htx.
  unfold has_columns. rewrite Fbw, Fpw, Fbd, Fgi. cbn [forallb].
  now rewrite C1, C2, C3, C4.
Qed.

(** X12. On a database file, [extract_metrics_from_db] returns a record
    exactly when the database holds the five tables with the columns that
    the statements name; it raises [OperationalError] otherwise. *)
Theorem extract_metrics_from_db_returns_iff : forall tables w,
  let run := extract_metrics_from_db (Ok (opened (Database tables))) w in
  ((exists m, fst run = Ok m) <-> is_complete tables = true)
  /\ (is_complete tables = false -> fst run = Raise OperationalError).
Proof.
  intros tables w run.
  assert (Hrun : fst run = record_of (Ok (opened (Database tables)))).
  { unfold run. destruct (extract_at (Ok (opened (Database tables))) w) as [l Hl].
    now rewrite Hl. }
  rewrite Hrun. split; [split|].
  - intros [m Hm]. now apply (record_complete tables m).
  - intros H. eexists. now apply complete_record.
  - intros H. destruct (record_of (Ok (opened (Database tables)))) as [m|e] eqn:R.
    + rewrite (record_complete tables m R) in H. discriminate H.
    + f_equal. now apply (record_raises text_as_real tables).
Qed.

(** X13. The record returned on a database file holds the ten metrics, in
    the order in which the reader lists them, then the [GeneralInfo] fields:
    the averages and maxima of the named columns, the number of
    transactions, and the numbers of those whose command starts with READ
    and with WRITE, letter case apart. *)
Theorem extract_metrics_from_db_record : forall tables w m,
  fst (extract_metrics_from_db (Ok (opened (Database tables))) w) = Ok m ->
  m = record_from_tables text_as_real tables.
Proof.
  intros tables w m Hm.
  destruct (extract_at (Ok (opened (Database tables))) w) as [l Hl].
  rewrite Hl in Hm. cbn [fst] in Hm.
  pose proof (record_complete tables m Hm) as Hc.
  rewrite (complete_record tables Hc) in Hm. now injection Hm.
Qed.

End CompleteDatabase.

Section GeneralInfoFields.

Import Extractor.

Variable text_as_real : string -> Q.

Local Abbreviation opened conn := (cursor_of text_as_real conn).

Lemma combine_keys_NoDup : forall (A : Type) (l : list string) (l' : list A),
  NoDup l -> NoDup (map fst (combine l l')).
Proof.
  induction l as [|x l IH]; intros l' Hnd; [constructor|].
  destruct l' as [|y l']; [constructor|].
  inversion Hnd as [|? ? Hnotin Hnd']; subst. cbn. constructor; [|now apply IH].
  intros Hin. apply Hnotin. apply in_map_iff in Hin.
  destruct Hin as [[x' y'] [Hx Hin]]. cbn in Hx. subst x'.
  now apply in_combine_l in Hin.
Qed.

Lemma dict_get_combine : forall (columns : list string) (gi : list value) key,
  dict_get (combine columns gi) key
  = match exact_index columns key with
    | Some i => nth_error gi i
    | None => None
    end.
Proof.
  induction columns as [|c columns IH]; intros gi key; [reflexivity|].
  destruct gi as [|v gi]; cbn.
  - destruct (String.eqb c key); [reflexivity|].
    destruct (exact_index columns key); reflexivity.
  - destruct (String.eqb c key); [reflexivity|].
    rewrite IH. destruct (exact_index columns key); reflexivity.
Qed.

(** [dict(zip(col_names, gi))] gives, under a name, the cell of the column
    that bears exactly this name. *)
Lemma general_info_row_cell : forall tables info key,
  find_table tables "GeneralInfo" = Some info ->
  NoDup (t_columns info) ->
  dict_get (general_info_row tables) key = first_row_cell info key.
Proof.
  intros tables info key Hfind Hnd. unfold general_info_row, first_row_cell.
  rewrite Hfind. destruct (t_rows info) as [|gi rest]; [reflexivity|].
  rewrite (dict_get_update (combine (t_columns info) gi) [] key
             (combine_keys_NoDup value (t_columns info) gi Hnd)).
  rewrite dict_get_combine.
  destruct (exact_index (t_columns info) key) as [i|]; [|reflexivity].
  now destruct (nth_error gi i).
Qed.

(** X14. After the ten metrics, the record holds the [GeneralInfo] fields:
    for each key of the allow list, in its order, the cell of the first row
    under the column that bears exactly this name, as [GI_<key>]; a key
    without such a column, or a table without a row, adds no field. *)
Theorem general_info_projection : forall tables info w m,
  find_table tables "GeneralInfo" = Some info ->
  NoDup (map upper (t_columns info)) ->
  fst (extract_metrics_from_db (Ok (opened (Database tables))) w) = Ok m ->
  skipn 10 m
  = flat_map (fun key => match first_row_cell info key with
                         | Some v => [(("GI_" ++ key)%string, v)]
                         | None => []
                         end) general_info_keys.
Proof.
  intros tables info w m Hfind Hnd Hm.
  apply NoDup_map_inv in Hnd.
  destruct (extract_at (Ok (opened (Database tables))) w) as [l Hl].
  rewrite Hl in Hm. cbn [fst] in Hm.
  pose proof (record_complete text_as_real tables m Hm) as Hc.
  rewrite (complete_record text_as_real tables Hc) in Hm. injection Hm as <-.
  unfold record_from_tables. cbn [skipn app]. unfold general_info_fields.
  apply flat_map_ext. intros key.
  now rewrite (general_info_row_cell tables info key Hfind Hnd).
Qed.

End GeneralInfoFields.

Section ReaderOnTablesSamples.

Import Extractor Samples.

(** The record of the sample run database. *)
Lemma extract_metrics_from_db_record_witness :
  match fst (extract_metrics_from_db (Ok (cursor_of no_text run_database)) fresh) with
  | Ok m => m
  | Raise _ => []
  end
  = record_from_tables no_text [bandwidth; power; buffer_depth; transactions; general_info].
Proof.
  exact (extract_metrics_from_db_record no_text
           [bandwidth; power; buffer_depth; transactions; general_info] fresh _ eq_refl).
Defined.

(** The sample [GeneralInfo] declares three of the five keys. *)
Lemma general_info_projection_witness :
  skipn 10 (match fst (extract_metrics_from_db (Ok (cursor_of no_text run_database)) fresh) with
            | Ok m => m
            | Raise _ => []
            end)
  = [("GI_clk", VInt 625); ("GI_UnitOfTime", VStr "PS");
     ("GI_Traces", VStr "ai_cpu_trace_example.trace")].
Proof.
  refine (general_info_projection no_text
            [bandwidth; power; buffer_depth; transactions; general_info]
            general_info fresh _ eq_refl _ eq_refl).
  repeat constructor; simpl; intuition discriminate.
Defined.

End ReaderOnTablesSamples.

(** ** The keys and the lines of the reason tally *)

Section TallyKeys.

Import SummarizeInvalidReasons ExtractTdbMetrics.

Lemma lstrip_blank : forall a s, is_blank a = true -> lstrip (a ++ s) = lstrip s.
Proof.
  induction a as [|c a IH]; intros s H; [reflexivity|].
  cbn in H. apply andb_true_iff in H. destruct H as [Hc Ha].
  cbn. rewrite Hc. now apply IH.
Qed.

Lemma lstrip_of_blank : forall s, is_blank s = true -> lstrip s = "".
Proof.
  induction s as [|c s IH]; intros H; [reflexivity|].
  cbn in H. apply andb_true_iff in H. destruct H as [Hc Hs].
  cbn. rewrite Hc. now apply IH.
Qed.

Lemma lstrip_append : forall s t,
  lstrip (s ++ t) = if String.eqb (lstrip s) "" then lstrip t else (lstrip s ++ t)%string.
Proof.
  induction s as [|c s IH]; intros t; cbn.
  - reflexivity.
  - destruct (is_space c); [apply IH | reflexivity].
Qed.

Lemma lstrip_head : forall s c r, lstrip s = String c r -> is_space c = false.
Proof.
  induction s as [|x s IH]; intros c r H; cbn in H; [discriminate H|].
  destruct (is_space x) eqn:E; [now apply (IH c r) | now injection H as <- _].
Qed.

Lemma lstrip_idempotent : forall s, lstrip (lstrip s) = lstrip s.
Proof.
  induction s as [|c s IH]; cbn; [reflexivity|].
  destruct (is_space c) eqn:E; [exact IH | cbn; now rewrite E].
Qed.

Lemma lstrip_suffix : forall s, exists pad, s = (pad ++ lstrip s)%string.
Proof.
  induction s as [|c s [pad IH]]; cbn.
  - now exists "".
  - destruct (is_space c); [|now exists ""].
    exists (String c pad). cbn. now rewrite <- IH.
Qed.

Lemma is_blank_rev : forall s, is_blank (string_rev s) = is_blank s.
Proof.
  intros s. unfold is_blank, string_rev. rewrite list_ascii_of_string_of_list_ascii.
  generalize (list_ascii_of_string s). intros l.
  induction l as [|c l IH]; cbn; [reflexivity|].
  rewrite forallb_app, IH. cbn. rewrite andb_true_r. apply andb_comm.
Qed.

Lemma rstrip_blank : forall s b, is_blank b = true -> rstrip (s ++ b) = rstrip s.
Proof.
  intros s b H. unfold rstrip. rewrite string_rev_append.
  rewrite lstrip_blank; [reflexivity|]. now rewrite is_blank_rev.
Qed.

Lemma rstrip_idempotent : forall s, rstrip (rstrip s) = rstrip s.
Proof.
  intros s. unfold rstrip. now rewrite string_rev_involutive, lstrip_idempotent.
Qed.

Lemma rstrip_prefix : forall s, exists pad, s = (rstrip s ++ pad)%string.
Proof.
  intros s. destruct (lstrip_suffix (string_rev s)) as [pad H].
  exists (string_rev pad). unfold rstrip.
  rewrite <- string_rev_append, <- H. symmetry. apply string_rev_involutive.
Qed.

(** Trimming on the right leaves a text trimmed on the left as it is on
    that side. *)
Lemma lstrip_rstrip : forall s, lstrip (rstrip (lstrip s)) = rstrip (lstrip s).
Proof.
  intros s. destruct (rstrip_prefix (lstrip s)) as [pad H].
  destruct (rstrip (lstrip s)) as [|c r] eqn:E; [reflexivity|].
  cbn [append] in H. cbn [lstrip]. now rewrite (lstrip_head s c (r ++ pad) H).
Qed.

Lemma strip_idempotent : forall s, strip (strip s) = strip s.
Proof.
  intros s. unfold strip. now rewrite lstrip_rstrip, rstrip_idempotent.
Qed.

Lemma strip_padded : forall a s b,
  is_blank a = true -> is_blank b = true -> strip (a ++ s ++ b) = strip s.
Proof.
  intros a s b Ha Hb. unfold strip.
  rewrite (lstrip_blank a _ Ha), lstrip_append, (lstrip_of_blank b Hb).
  destruct (String.eqb (lstrip s) "") eqn:E.
  - apply String.eqb_eq in E. now rewrite E.
  - now apply rstrip_blank.
Qed.

Lemma reason_of_padded : forall f g, padded f g -> reason_of g = reason_of f.
Proof.
  intros f g [a [b [Ha [Hb H]]]]. unfold reason_of. fold (text_of f). fold (text_of g).
  now rewrite H, (strip_padded a (text_of f) b Ha Hb).
Qed.

Lemma reason_of_is_trimmed : forall field,
  reason_of field <> "" /\ strip (reason_of field) = reason_of field.
Proof.
  intros field. unfold reason_of.
  destruct (String.eqb (strip (text_of field)) "") eqn:E;
    fold (text_of field); rewrite E.
  - split; [discriminate | reflexivity].
  - split; [now apply String.eqb_neq | apply strip_idempotent].
Qed.

Lemma occurrences_seen : forall k reasons, In k reasons -> 0 < occurrences k reasons.
Proof.
  induction reasons as [|r reasons IH]; cbn; intros H; [contradiction|].
  destruct H as [-> | H]; [rewrite String.eqb_refl; lia|].
  specialize (IH H). lia.
Qed.

(** X15. Every bucket of the tally is keyed by a text that is not empty and
    has no whitespace around it, and counts at least one row. *)
Theorem counts_keys_trimmed : forall rows k n,
  In (k, n) (counts rows) ->
  k <> "" /\ strip k = k /\ 0 < n.
Proof.
  intros rows k n Hin.
  assert (Hcounts : counts rows = fold_left increment (map reason_of rows) []).
  { unfold counts. apply counts_fold. }
  destruct (tally_invariant (map reason_of rows)) as [Hnd [Hkeys [_ [Hcount _]]]].
  cbn zeta in *. rewrite <- Hcounts in *.
  assert (Hk : In k (map reason_of rows)).
  { apply Hkeys. change k with (fst (k, n)). now apply in_map. }
  pose proof (in_dict_get _ k n Hnd Hin) as Hget.
  rewrite (Hcount k Hk) in Hget. injection Hget as <-.
  apply in_map_iff in Hk. destruct Hk as [field [<- Hfield]].
  destruct (reason_of_is_trimmed field) as [Hne Htrim].
  split; [exact Hne|]. split; [exact Htrim|].
  apply occurrences_seen. now apply in_map.
Qed.

(** X16. Whitespace around the reasons does not change the tally or the
    report, and a blank field counts as an absent or an empty one. *)
Theorem summary_ignores_padding : forall rows rows',
  Forall2 padded rows rows' ->
  counts rows' = counts rows /\ summary_text rows' = summary_text rows.
Proof.
  intros rows rows' H.
  assert (Hmap : map reason_of rows' = map reason_of rows).
  { induction H as [|f g fs gs Hfg _ IH]; [reflexivity|].
    cbn. now rewrite (reason_of_padded f g Hfg), IH. }
  assert (Hcounts : counts rows' = counts rows).
  { unfold counts. now rewrite !counts_fold, Hmap. }
  split; [exact Hcounts|].
  unfold summary_text, lines. now rewrite Hcounts.
Qed.

(** *** The lines *)

Lemma repeat_char_blank : forall n, is_blank (repeat_char " " n) = true.
Proof. induction n as [|n IH]; [reflexivity | exact IH]. Qed.

Lemma repeat_char_length : forall c n, String.length (repeat_char c n) = n.
Proof. induction n as [|n IH]; cbn; [reflexivity | now rewrite IH]. Qed.

Lemma lstrip_natural : forall d rest,
  is_natural d = true -> lstrip (d ++ rest) = (d ++ rest)%string.
Proof.
  intros [|c d] rest H; [discriminate H|].
  unfold is_natural in H. cbn in H. apply andb_true_iff in H. destruct H as [Hc _].
  cbn [append lstrip]. now rewrite (digit_is_not_space c Hc).
Qed.

(** Digits that are followed by a space end where the space stands. *)
Lemma digits_then_space : forall d1 d2 x y,
  forallb is_digit (list_ascii_of_string d1) = true ->
  forallb is_digit (list_ascii_of_string d2) = true ->
  (d1 ++ String " " x = d2 ++ String " " y)%string ->
  d1 = d2 /\ x = y.
Proof.
  induction d1 as [|c d1 IH]; intros [|c' d2] x y H1 H2 H; cbn in H.
  - now injection H.
  - injection H as <- _. cbn in H2. discriminate H2.
  - injection H as -> _. cbn in H1. discriminate H1.
  - injection H as <- H. cbn in H1, H2.
    apply andb_true_iff in H1. apply andb_true_iff in H2.
    destruct (IH d2 x y (proj2 H1) (proj2 H2) H) as [-> ->]. now split.
Qed.

(** X17. A line of the report is the count, right-aligned in five columns
    at least, two spaces and the reason; it tells the count and the reason:
    two items with the same line are the same item. *)
Theorem line_of_reads_back :
  (forall item,
     lstrip (line_of item) = (str_of_nat (snd item) ++ "  " ++ fst item)%string
     /\ 7 + String.length (fst item) <= String.length (line_of item))
  /\ (forall a b, line_of a = line_of b -> a = b).
Proof.
  assert (Hstrip : forall item,
            lstrip (line_of item) = (str_of_nat (snd item) ++ "  " ++ fst item)%string).
  { intros [r n]. unfold line_of, format_5d. cbn [fst snd].
    rewrite append_assoc, (lstrip_blank _ _ (repeat_char_blank _)).
    apply lstrip_natural. apply str_of_nat_natural. }
  split.
  - intros item. split; [apply Hstrip|].
    destruct item as [r n]. unfold line_of, format_5d. cbn [fst snd].
    rewrite !length_append, repeat_char_length. cbn [String.length]. lia.
  - intros [r1 n1] [r2 n2] H.
    assert (H' : lstrip (line_of (r1, n1)) = lstrip (line_of (r2, n2))) by now rewrite H.
    rewrite !Hstrip in H'. cbn [fst snd append] in H'.
    pose proof (str_of_nat_natural n1) as D1. pose proof (str_of_nat_natural n2) as D2.
    unfold is_natural in D1, D2.
    apply andb_true_iff in D1. apply andb_true_iff in D2.
    destruct (digits_then_space _ _ _ _ (proj2 D1) (proj2 D2) H') as [Hd Hr].
    injection Hr as ->. now rewrite (str_of_nat_injective n1 n2 Hd).
Qed.

End TallyKeys.

Section TallyKeysSamples.

Import SummarizeInvalidReasons.

(** The bucket of the reason A in a tally of three rows. *)
Lemma counts_keys_trimmed_witness :
  "A" <> "" /\ strip "A" = "A" /\ 0 < 2.
Proof.
  refine (counts_keys_trimmed [Some " A"; Some "B"; Some "A  "] "A" 2 _).
  simpl. tauto.
Defined.

(** Three rows, and the same rows with whitespace around. *)
Lemma summary_ignores_padding_witness :
  counts [Some "  A "; Some " "; Some "B"] = counts [Some "A"; None; Some "B"]
  /\ summary_text [Some "  A "; Some " "; Some "B"]
     = summary_text [Some "A"; None; Some "B"].
Proof.
  refine (summary_ignores_padding [Some "A"; None; Some "B"]
            [Some "  A "; Some " "; Some "B"] _).
  repeat constructor.
  - exists "  ", " ". repeat split.
  - exists " ", "". repeat split.
  - exists "", "". repeat split.
Defined.

End TallyKeysSamples.
